(** * Data_reader 1.0.0: the data-shaping pipeline

    A shallow embedding of [utils.py], [viz.py], [ingest.py] and of the
    inline readers of [app.py].  The program is written against the
    pandas data-frame library; the part of that library the program calls
    is modelled in [Module pd], one definition per library operation, and
    the functions of the repository are then translated statement by
    statement on top of it. *)

From Stdlib Require Import ZArith QArith Qround Ascii String List Bool Lia.
From Stdlib.Strings Require Import Byte.
From stdpp Require Import base numbers option list strings pretty sorting gmap.

Close Scope Q_scope.
Local Open Scope string_scope.
Local Open Scope list_scope.

(** ** Cell values

    A cell of a table is a boolean, an integer ([int64] columns), a
    float, a timestamp ([datetime64], nanoseconds since the epoch), a
    text, or is missing (pandas' NaN / NaT / None).  Floats are idealised
    as the exact rationals they stand for: rounding is not represented.
    A sum of integers is an [int64] sum and wraps around. *)

Inductive cell : Type :=
  | NaN
  | Bool (b : bool)
  | Int (z : Z)
  | Flt (q : Q)
  | Ts (ns : Z)
  | Str (s : string).

#[global] Instance Q_eq_dec : EqDecision Q.
Proof. solve_decision. Defined.

#[global] Instance cell_eq_dec : EqDecision cell.
Proof. solve_decision. Defined.

Definition isna (c : cell) : bool :=
  match c with NaN => true | _ => false end.

Definition is_number (c : cell) : bool :=
  match c with Bool _ | Int _ | Flt _ => true | _ => false end.

Definition is_timestamp (c : cell) : bool :=
  match c with Ts _ => true | _ => false end.

(** The numeric value of a number cell ([True] counts as 1). *)
Definition num (c : cell) : Q :=
  match c with
  | Bool b => inject_Z (Z.b2z b)
  | Int z => inject_Z z
  | Flt q => q
  | _ => 0%Q
  end.

(** The order pandas sorts values in: numbers by value, timestamps by
    instant, texts by code point, missing values last.  A column holds
    values of one kind; between kinds the order is numbers, timestamps,
    texts (the order of the library's mixed-type fallback). *)
Definition rank (c : cell) : Z :=
  match c with
  | Bool _ | Int _ | Flt _ => 0
  | Ts _ => 1
  | Str _ => 2
  | NaN => 3
  end%Z.

Definition cell_leb (a b : cell) : bool :=
  match a, b with
  | Ts s, Ts t => (s <=? t)%Z
  | Str s, Str t => String.leb s t
  | (Bool _ | Int _ | Flt _), (Bool _ | Int _ | Flt _) =>
      Qle_bool (num a) (num b)
  | _, _ => (rank a <=? rank b)%Z
  end.

Definition cell_le : relation cell := fun a b => cell_leb a b = true.

#[global] Instance cell_le_dec : RelDecision cell_le.
Proof. intros a b. unfold cell_le. apply _. Defined.

(** ** Exceptions and results

    Python exceptions are values of [exn], named after their classes; a
    call that can raise returns a [result]. *)

Inductive exn : Type :=
  | ValueError (msg : string)
  | KeyError (key : string)
  | TypeError (msg : string)
  | IndexingError (msg : string)
  | ParserError (msg : string)
  | UnicodeDecodeError.

Inductive result (A : Type) : Type :=
  | Ok (a : A)
  | Raise (e : exn).
Arguments Ok {A} a.
Arguments Raise {A} e.

Definition rbind {A B} (r : result A) (k : A -> result B) : result B :=
  match r with
  | Ok a => k a
  | Raise e => Raise e
  end.

Notation "x <-- r ;; k" := (rbind r (fun x => k))
  (at level 100, r at next level, right associativity).

Definition is_ok {A} (r : result A) : bool :=
  match r with Ok _ => true | Raise _ => false end.

(** ** The data-frame library

    [Module pd] models the pandas operations the repository calls.  A
    [DataFrame] is row-major: every row carries its index label and its
    cells in column order.  Column labels are texts, and unique in every
    frame the readers produce; a lookup by label takes the first match.
    A [Series] is a named list of (index label, value) pairs. *)

Module pd.

Record Row : Type := mkRow { label : cell; cells : list cell }.

Record DataFrame : Type := mkDataFrame {
  columns : list string;
  index_name : option string;
  rows : list Row
}.

Record Series : Type := mkSeries {
  name : option string;
  iname : option string;
  items : list (cell * cell)
}.

#[global] Instance Row_eq_dec : EqDecision Row.
Proof. solve_decision. Defined.
#[global] Instance DataFrame_eq_dec : EqDecision DataFrame.
Proof. solve_decision. Defined.
#[global] Instance Series_eq_dec : EqDecision Series.
Proof. solve_decision. Defined.

Definition values (s : Series) : list cell := map snd (items s).
Definition index (s : Series) : list cell := map fst (items s).

(** [len(df)] and [df.shape]. *)
Definition len (df : DataFrame) : nat := length (rows df).
Definition shape (df : DataFrame) : nat * nat :=
  (length (rows df), length (columns df)).

(** A frame is rectangular: every row has one cell per column. *)
Definition well_formed (df : DataFrame) : Prop :=
  Forall (fun r => length (cells r) = length (columns df)) (rows df).

(** Position of the first column labelled [x]. *)
Fixpoint position {A} `{EqDecision A} (x : A) (l : list A) : option nat :=
  match l with
  | [] => None
  | y :: l' => if decide (x = y) then Some 0%nat
               else S <$> position x l'
  end.

Definition cell_at (j : nat) (r : Row) : cell := nth j (cells r) NaN.

(** The cells of column number [j], top to bottom. *)
Definition column_values (df : DataFrame) (j : nat) : list cell :=
  map (cell_at j) (rows df).

(** The cells of the column labelled [x] (none when there is no such
    column). *)
Definition column (df : DataFrame) (x : string) : list cell :=
  match position x (columns df) with
  | Some j => column_values df j
  | None => []
  end.

(** [df[x]]: the column as a series over the frame's index. *)
Definition getitem (df : DataFrame) (x : string) : result Series :=
  match position x (columns df) with
  | None => Raise (KeyError x)
  | Some j =>
      Ok {| name := Some x; iname := index_name df;
            items := map (fun r => (label r, cell_at j r)) (rows df) |}
  end.

(** ["x" in df.columns]. *)
Definition has_column (df : DataFrame) (x : string) : bool :=
  bool_decide (x ∈ columns df).

(** [df.copy()]: a new frame with the same contents. *)
Definition copy (df : DataFrame) : DataFrame := df.

(** [df[x] = s]: overwrite column [x] when it exists, append it
    otherwise.  The values are taken in row order (the series shares the
    frame's index); a row without a value gets NaN. *)
Fixpoint zip_rows (f : Row -> cell -> Row) (rs : list Row) (vs : list cell)
  : list Row :=
  match rs with
  | [] => []
  | r :: rs' => f r (hd NaN vs) :: zip_rows f rs' (tl vs)
  end.

Definition setitem (df : DataFrame) (x : string) (s : Series) : DataFrame :=
  match position x (columns df) with
  | Some j =>
      {| columns := columns df; index_name := index_name df;
         rows := zip_rows (fun r v => mkRow (label r) (<[j := v]> (cells r)))
                          (rows df) (values s) |}
  | None =>
      {| columns := columns df ++ [x]; index_name := index_name df;
         rows := zip_rows (fun r v => mkRow (label r) (cells r ++ [v]))
                          (rows df) (values s) |}
  end.

(** [df.set_index(x)]: column [x] becomes the index. *)
Definition set_index (df : DataFrame) (x : string) : result DataFrame :=
  match position x (columns df) with
  | None => Raise (KeyError x)
  | Some j =>
      Ok {| columns := delete j (columns df); index_name := Some x;
            rows := map (fun r => mkRow (cell_at j r) (delete j (cells r)))
                        (rows df) |}
  end.

(** [df.reset_index(drop=True)]: the index becomes 0..n-1. *)
Definition reset_index_drop (df : DataFrame) : DataFrame :=
  {| columns := columns df; index_name := None;
     rows := imap (fun i r => mkRow (Int (Z.of_nat i)) (cells r)) (rows df) |}.

(** [s.reset_index(name=n)] and [s.reset_index()]: the index becomes the
    first column and the values the second.  The value column is called
    [n], or after the series when no name is given; the library refuses
    to insert the index under a label the frame already has. *)
Definition reset_index (s : Series) (n : option string) : result DataFrame :=
  let vname := default (default "0" (name s)) n in
  let kname := default "index" (iname s) in
  if decide (kname = vname)
  then Raise (ValueError ("cannot insert " ++ kname ++ ", already exists"))
  else Ok {| columns := [kname; vname]; index_name := None;
             rows := imap (fun i kv => mkRow (Int (Z.of_nat i)) [kv.1; kv.2])
                          (items s) |}.

(** [df.rename(columns=m)]: labels found in the dict [m] are replaced. *)
Definition rename (df : DataFrame) (m : gmap string string) : DataFrame :=
  {| columns := map (fun c => default c (m !! c)) (columns df);
     index_name := index_name df; rows := rows df |}.

(** [df.columns = labels]. *)
Definition set_columns (df : DataFrame) (labels : list string) : DataFrame :=
  {| columns := labels; index_name := index_name df; rows := rows df |}.

(** [df.sort_values(x)]: rows in ascending order of column [x], missing
    values last. *)
Definition row_le (j : nat) : relation Row :=
  fun r1 r2 => cell_le (cell_at j r1) (cell_at j r2).

#[global] Instance row_le_dec j : RelDecision (row_le j).
Proof. intros r1 r2. unfold row_le. apply _. Defined.

Definition sort_values (df : DataFrame) (x : string) : result DataFrame :=
  match position x (columns df) with
  | None => Raise (KeyError x)
  | Some j =>
      Ok {| columns := columns df; index_name := index_name df;
            rows := merge_sort (row_le j) (rows df) |}
  end.

(** *** Column types

    pandas stores a type with every column; here it is read off the
    cells.  An empty column and a column mixing kinds are [object_]. *)

Inductive dtype : Type := int64 | float64 | bool_ | datetime64 | object_.

Definition dtype_of (vs : list cell) : dtype :=
  match vs with
  | [] => object_
  | _ =>
      if forallb (fun c => match c with Int _ => true | _ => false end) vs
      then int64
      else if forallb (fun c => match c with Int _ | Flt _ | NaN => true
                                        | _ => false end) vs
      then float64
      else if forallb (fun c => match c with Bool _ => true | _ => false end) vs
      then bool_
      else if forallb (fun c => match c with Ts _ | NaN => true
                                        | _ => false end) vs
      then datetime64
      else object_
  end.

(** What a [datetime64] column holds: timestamps and NaT. *)
Definition stamp_or_missing (c : cell) : Prop :=
  match c with Ts _ | NaN => True | _ => False end.

(** [pd.api.types.is_numeric_dtype] and [is_datetime64_any_dtype]. *)
Definition is_numeric_dtype (s : Series) : bool :=
  match dtype_of (values s) with
  | int64 | float64 | bool_ => true
  | _ => false
  end.

Definition is_datetime64_any_dtype (s : Series) : bool :=
  match dtype_of (values s) with
  | datetime64 => true
  | _ => false
  end.

(** *** Reductions

    [reduce func vs] is what [.agg(func)] computes for one group.  Missing
    values are skipped.  ["count"] counts the values present; the other
    reductions are over numbers, and a group holding a text or a timestamp
    is reported as a [TypeError].  The sum of whole numbers is computed
    in [int64]: it wraps around at 2^63, as the library's sum does.
    [abs_sum] bounds every partial sum of a column: a column whose
    [abs_sum] is at most [int64_max] is summed without wrapping. *)

Definition Qsum (vs : list cell) : Q :=
  fold_right (fun c acc => Qplus (num c) acc) 0%Q vs.

Definition is_integer (c : cell) : bool :=
  match c with Bool _ | Int _ => true | _ => false end.

Definition int_of (c : cell) : Z :=
  match c with
  | Bool b => Z.b2z b
  | Int z => z
  | _ => 0%Z
  end.

Definition Zsum (vs : list cell) : Z :=
  fold_right (fun c acc => (int_of c + acc)%Z) 0%Z vs.

Definition num_le : relation cell := fun a b => Qle_bool (num a) (num b) = true.

#[global] Instance num_le_dec : RelDecision num_le.
Proof. intros a b. unfold num_le. apply _. Defined.

Definition int64_max : Z := 9223372036854775807.

Definition int64_wrap (z : Z) : Z :=
  ((z + 9223372036854775808) mod 18446744073709551616
   - 9223372036854775808)%Z.

Definition abs_sum (vs : list cell) : Z :=
  fold_right (fun c acc => (Z.abs (int_of c) + acc)%Z) 0%Z vs.

Definition reduce_sum (xs : list cell) : cell :=
  if forallb is_integer xs then Int (int64_wrap (Zsum xs))
  else Flt (Qred (Qsum xs)).

Definition reduce_mean (xs : list cell) : cell :=
  match xs with
  | [] => NaN
  | _ => Flt (Qred (Qdiv (Qsum xs) (inject_Z (Z.of_nat (length xs)))))
  end.

Definition reduce_median (xs : list cell) : cell :=
  let s := merge_sort num_le xs in
  let n := length s in
  match n with
  | O => NaN
  | _ =>
      if Nat.even n
      then Flt (Qred (Qdiv (Qplus (num (nth (n / 2 - 1) s NaN))
                                  (num (nth (n / 2) s NaN))) 2%Q))
      else Flt (Qred (num (nth (n / 2) s NaN)))
  end.

Definition reduce_max (xs : list cell) : cell :=
  fold_right (fun c acc => match acc with
                           | NaN => c
                           | _ => if Qle_bool (num acc) (num c) then c else acc
                           end) NaN xs.

Definition reduce_min (xs : list cell) : cell :=
  fold_right (fun c acc => match acc with
                           | NaN => c
                           | _ => if Qle_bool (num c) (num acc) then c else acc
                           end) NaN xs.

Definition reduce (func : string) (vs : list cell) : result cell :=
  let xs := List.filter (fun c => negb (isna c)) vs in
  if String.eqb func "count" then Ok (Int (Z.of_nat (length xs)))
  else if negb (forallb is_number xs)
  then Raise (TypeError "unsupported operand type for a numeric reduction")
  else if String.eqb func "sum" then Ok (reduce_sum xs)
  else if String.eqb func "mean" then Ok (reduce_mean xs)
  else if String.eqb func "median" then Ok (reduce_median xs)
  else if String.eqb func "max" then Ok (reduce_max xs)
  else if String.eqb func "min" then Ok (reduce_min xs)
  else Raise (ValueError ("unknown reduction " ++ func)).

(** *** Grouping

    [df.groupby(x, dropna=False)] is called without [sort=False]: the
    groups come out in ascending order of the key, the missing key last,
    whatever the order of the rows. *)

(** The distinct values of a list, in order of first appearance. *)
Fixpoint unique (l : list cell) : list cell :=
  match l with
  | [] => []
  | k :: l' => k :: filter (fun k' => k' ≠ k) (unique l')
  end.

Definition group_keys (keys : list cell) : list cell :=
  merge_sort cell_le (unique keys).

(** Number of rows of the group of key [k]. *)
Definition group_size (k : cell) (keys : list cell) : nat :=
  length (filter (fun k' => k' = k) keys).

Fixpoint rmapM {A B} (f : A -> result B) (l : list A) : result (list B) :=
  match l with
  | [] => Ok []
  | a :: l' => b <-- f a ;; bs <-- rmapM f l' ;; Ok (b :: bs)
  end.

(** [df.groupby(x, dropna=False).size()]. *)
Definition groupby_size (df : DataFrame) (x : string) : result Series :=
  match position x (columns df) with
  | None => Raise (KeyError x)
  | Some j =>
      let keys := column_values df j in
      Ok {| name := None; iname := Some x;
            items := map (fun k => (k, Int (Z.of_nat (group_size k keys))))
                         (group_keys keys) |}
  end.

(** [df.groupby(x, dropna=False)[y].agg(func)]. *)
Definition groupby_agg (df : DataFrame) (x y func : string) : result Series :=
  match position x (columns df) with
  | None => Raise (KeyError x)
  | Some j =>
      match position y (columns df) with
      | None => Raise (KeyError ("Column not found: " ++ y))
      | Some i =>
          its <-- rmapM (fun k =>
                    v <-- reduce func
                            (map (cell_at i)
                                 (filter (fun r => cell_at j r = k) (rows df))) ;;
                    Ok (k, v))
                  (group_keys (column_values df j)) ;;
          Ok {| name := Some y; iname := Some x; items := its |}
      end
  end.

(** *** Calendar

    Timestamps are nanoseconds since 1970-01-01T00:00.  The civil calendar
    is the proleptic Gregorian one, computed on day numbers. *)

Definition ns_per_day : Z := 86400000000000.

Definition day_of (ns : Z) : Z := (ns / ns_per_day)%Z.

Definition days_from_civil (y m d : Z) : Z :=
  (let y' := if m <=? 2 then y - 1 else y in
   let era := y' / 400 in
   let yoe := y' - era * 400 in
   let mp := if 2 <? m then m - 3 else m + 9 in
   let doy := (153 * mp + 2) / 5 + d - 1 in
   let doe := yoe * 365 + yoe / 4 - yoe / 100 + doy in
   era * 146097 + doe - 719468)%Z.

Definition civil_from_days (z : Z) : Z * Z * Z :=
  (let z := z + 719468 in
   let era := z / 146097 in
   let doe := z - era * 146097 in
   let yoe := (doe - doe / 1460 + doe / 36524 - doe / 146096) / 365 in
   let y := yoe + era * 400 in
   let doy := doe - (365 * yoe + yoe / 4 - yoe / 100) in
   let mp := (5 * doy + 2) / 153 in
   let d := doy - (153 * mp + 2) / 5 + 1 in
   let m := if mp <? 10 then mp + 3 else mp - 9 in
   (if m <=? 2 then y + 1 else y, m, d))%Z.

(** Months are numbered [12 * year + (month - 1)]. *)
Definition month_of (ns : Z) : Z :=
  let '(y, m, _) := civil_from_days (day_of ns) in (12 * y + (m - 1))%Z.

Definition month_start (mi : Z) : Z :=
  days_from_civil (mi / 12) (mi mod 12 + 1) 1.

Definition month_end (mi : Z) : Z := (month_start (mi + 1) - 1)%Z.

(** *** Resampling

    The five frequencies of [time_aggregate]'s docstring, the only ones
    the application passes; any other text is refused as a frequency.
    ["D"] cuts the time line into days, labelled by their midnight; ["W"]
    into weeks ending on Sunday, ["M"], ["Q"] and ["Y"] into calendar
    months, quarters and years, each labelled by its last day. *)

Inductive Freq : Type := Day | Week | Month | Quarter | Year.

Definition freq_of_string (s : string) : option Freq :=
  if String.eqb s "D" then Some Day
  else if String.eqb s "W" then Some Week
  else if String.eqb s "M" then Some Month
  else if String.eqb s "Q" then Some Quarter
  else if String.eqb s "Y" then Some Year
  else None.

(** Ordinal of the period a timestamp falls in. *)
Definition bin_of (f : Freq) (ns : Z) : Z :=
  match f with
  | Day => day_of ns
  | Week => (day_of ns + 3) / 7
  | Month => month_of ns
  | Quarter => month_of ns / 3
  | Year => month_of ns / 12
  end%Z.

(** Label of the period of ordinal [k]. *)
Definition bin_label (f : Freq) (k : Z) : Z :=
  match f with
  | Day => k * ns_per_day
  | Week => (7 * k + 3) * ns_per_day
  | Month => month_end k * ns_per_day
  | Quarter => month_end (3 * k + 2) * ns_per_day
  | Year => month_end (12 * k + 11) * ns_per_day
  end%Z.

(** The periods of a resampling: every period from the one of the earliest
    timestamp to the one of the latest, with no gap. *)
Definition bin_range (f : Freq) (ts : list Z) : list Z :=
  match map (bin_of f) ts with
  | [] => []
  | k :: ks =>
      let lo := fold_right Z.min k ks in
      let hi := fold_right Z.max k ks in
      seqZ lo (hi - lo + 1)
  end.

(** The rows with a timestamp (NaT rows belong to no period). *)
Definition dated {A} (its : list (cell * A)) : list (Z * A) :=
  omap (fun kv => match kv.1 with Ts t => Some (t, kv.2) | _ => None end) its.

Definition members {A} (f : Freq) (k : Z) (its : list (Z * A)) : list A :=
  map snd (filter (fun tv => bin_of f tv.1 = k) its).

(** [obj.resample(freq)], [obj] indexed by timestamps: the periods with
    their members.  The members are kept in row order (the library orders
    them by time; no reduction of the program depends on their order).  An
    index that is not of timestamps is refused, and so is one in which
    every row is NaT, since it has no first and last period; an empty
    index gives no period. *)
Record Resampler (A : Type) : Type := mkResampler {
  r_name : option string;
  r_iname : option string;
  r_bins : list (cell * list A)
}.
Arguments mkResampler {A} _ _ _.
Arguments r_name {A} _.
Arguments r_iname {A} _.
Arguments r_bins {A} _.

Definition is_datetime_index {A} (its : list (cell * A)) : bool :=
  forallb (fun kv => match kv.1 with Ts _ | NaN => true | _ => false end) its.

Definition resample_items {A} (freq : string) (its : list (cell * A))
  : result (list (cell * list A)) :=
  match freq_of_string freq with
  | None => Raise (ValueError ("Invalid frequency: " ++ freq))
  | Some f =>
      if negb (is_datetime_index its)
      then Raise (TypeError "Only valid with DatetimeIndex")
      else match its, dated its with
           | [], _ => Ok []
           | _ :: _, [] => Raise (ValueError "no timestamp in the index")
           | _, d =>
               Ok (map (fun k => (Ts (bin_label f k), members f k d))
                       (bin_range f (map fst d)))
           end
  end.

Definition resample_frame (df : DataFrame) (freq : string)
  : result (Resampler Row) :=
  bs <-- resample_items freq (map (fun r => (label r, r)) (rows df)) ;;
  Ok (mkResampler None (index_name df) bs).

Definition resample_series (s : Series) (freq : string)
  : result (Resampler cell) :=
  bs <-- resample_items freq (items s) ;;
  Ok (mkResampler (name s) (iname s) bs).

(** [.size()] and [.agg(func)] of a resampler. *)
Definition resampler_size {A} (r : Resampler A) : Series :=
  {| name := None; iname := r_iname r;
     items := map (fun b => (b.1, Int (Z.of_nat (length b.2)))) (r_bins r) |}.

Definition resampler_agg (r : Resampler cell) (func : string) : result Series :=
  its <-- rmapM (fun b => v <-- reduce func b.2 ;; Ok (b.1, v)) (r_bins r) ;;
  Ok {| name := r_name r; iname := r_iname r; items := its |}.

(** *** Texts

    [str.strip()] removes the white space at both ends (the ASCII white
    space of Python: tab to carriage return, the four separators and the
    blank).  [astype(str)] writes a cell as a text; the texts written for
    floats and timestamps stand in for the library's formatting. *)

Definition is_space (a : ascii) : bool :=
  let n := nat_of_ascii a in
  ((9 <=? n) && (n <=? 13) || (28 <=? n) && (n <=? 32))%nat.

Fixpoint lstrip (l : list ascii) : list ascii :=
  match l with
  | a :: l' => if is_space a then lstrip l' else l
  | [] => []
  end.

Definition strip (s : string) : string :=
  string_of_list_ascii
    (rev (lstrip (rev (lstrip (list_ascii_of_string s))))).

Definition str_of_cell (c : cell) : string :=
  match c with
  | NaN => "nan"
  | Bool true => "True"
  | Bool false => "False"
  | Int z => pretty z
  | Flt q => pretty (Qnum q) ++ "/" ++ pretty (Zpos (Qden q))
  | Ts ns => pretty ns ++ "ns"
  | Str s => s
  end.

(** [pd.Series(labels)]: the labels as values over a fresh 0..n-1 index. *)
Definition Series_of_labels (l : list string) : Series :=
  {| name := None; iname := None;
     items := imap (fun i c => (Int (Z.of_nat i), Str c)) l |}.

Definition map_values (f : cell -> cell) (s : Series) : Series :=
  {| name := name s; iname := iname s;
     items := map (fun kv => (kv.1, f kv.2)) (items s) |}.

(** [s.astype(str)], [s.str.match("^" + p)] and [~s]. *)
Definition astype_str (s : Series) : Series :=
  map_values (fun c => Str (str_of_cell c)) s.

Definition str_match_prefix (p : string) (s : Series) : Series :=
  map_values (fun c => match c with
                       | Str t => Bool (String.prefix p t)
                       | _ => NaN
                       end) s.

Definition invert (s : Series) : Series :=
  map_values (fun c => match c with
                       | Bool b => Bool (negb b)
                       | _ => c
                       end) s.

(** *** Selecting columns by a boolean mask

    [df.loc[:, mask]] keeps the columns whose mask entry is true.  A mask
    given as a plain array is applied by position.  A mask given as a
    Series is first aligned with the column labels: when its index is not
    the list of labels, every label is looked up in it, and a label it
    does not have raises [IndexingError]. *)

Fixpoint select {A} (mask : list bool) (l : list A) : list A :=
  match mask, l with
  | b :: mask', a :: l' => if b then a :: select mask' l' else select mask' l'
  | _, _ => []
  end.

Definition take_columns (mask : list bool) (df : DataFrame) : DataFrame :=
  {| columns := select mask (columns df); index_name := index_name df;
     rows := map (fun r => mkRow (label r) (select mask (cells r))) (rows df) |}.

Definition loc_columns_array (df : DataFrame) (mask : list bool) : DataFrame :=
  take_columns mask df.

Definition is_true (c : cell) : bool :=
  match c with Bool true => true | _ => false end.

Definition unalignable : string :=
  "Unalignable boolean Series provided as indexer (index of the boolean Series and of the indexed object do not match).".

Definition loc_columns (df : DataFrame) (key : Series) : result DataFrame :=
  let labs := map Str (columns df) in
  if decide (index key = labs)
  then Ok (take_columns (map is_true (values key)) df)
  else if forallb (fun l => bool_decide (is_Some (position l (index key)))) labs
  then Ok (take_columns
             (map (fun l => is_true (nth (default 0%nat (position l (index key)))
                                         (values key) NaN)) labs) df)
  else Raise (IndexingError unalignable).

(** *** Frequency tables

    [s.value_counts(dropna=False)]: the distinct values with their number
    of occurrences, most frequent first, equally frequent values in order
    of first appearance.  [rename_axis] names the index, [head] keeps the
    first entries. *)

Definition count_ge : relation (cell * cell) :=
  fun a b => Qle_bool (num b.2) (num a.2) = true.

#[global] Instance count_ge_dec : RelDecision count_ge.
Proof. intros a b. unfold count_ge. apply _. Defined.

Definition value_counts (s : Series) : Series :=
  let vs := values s in
  {| name := Some "count"; iname := name s;
     items := merge_sort count_ge
                (map (fun k => (k, Int (Z.of_nat (group_size k vs))))
                     (unique vs)) |}.

Definition rename_axis (s : Series) (x : string) : Series :=
  {| name := name s; iname := Some x; items := items s |}.

Definition head (s : Series) (n : nat) : Series :=
  {| name := name s; iname := iname s; items := take n (items s) |}.

(** *** Decoding bytes *)

Definition continuation (b : N) : bool := ((128 <=? b) && (b <=? 191))%N.

Definition between (lo hi b : N) : bool := ((lo <=? b) && (b <=? hi))%N.

(** Well-formed UTF-8: shortest forms only, no surrogates, at most
    U+10FFFF. *)
Fixpoint utf8_valid (l : list N) : bool :=
  match l with
  | [] => true
  | b0 :: l1 =>
      if (b0 <? 128)%N then utf8_valid l1
      else match l1 with
           | [] => false
           | b1 :: l2 =>
               if between 194 223 b0 then continuation b1 && utf8_valid l2
               else match l2 with
                    | [] => false
                    | b2 :: l3 =>
                        if between 224 239 b0
                        then (if (b0 =? 224)%N then between 160 191 b1
                              else if (b0 =? 237)%N then between 128 159 b1
                              else continuation b1)
                             && continuation b2 && utf8_valid l3
                        else match l3 with
                             | [] => false
                             | b3 :: l4 =>
                                 between 240 244 b0
                                 && (if (b0 =? 240)%N then between 144 191 b1
                                     else if (b0 =? 244)%N
                                     then between 128 143 b1
                                     else continuation b1)
                                 && continuation b2 && continuation b3
                                 && utf8_valid l4
                             end
                    end
           end
  end.

(** Texts are kept as their UTF-8 bytes: a Latin-1 byte above 127 is
    rewritten as the two bytes of its code point. *)
Definition latin1_to_utf8 (b : N) : list N :=
  if (b <? 128)%N then [b] else [192 + b / 64; 128 + b mod 64]%N.

Definition decode (raw : list byte) (encoding : string) : result string :=
  let codes := map Byte.to_N raw in
  if String.eqb encoding "utf-8"
  then if utf8_valid codes then Ok (string_of_list_byte raw)
       else Raise UnicodeDecodeError
  else if String.eqb encoding "latin-1"
  then Ok (string_of_list_ascii
             (map ascii_of_N (flat_map latin1_to_utf8 codes)))
  else Raise (ValueError ("unknown encoding: " ++ encoding)).

(** *** Reading plain CSV

    [read_csv_plain] is [pd.read_csv(io.BytesIO(raw), encoding=.., sep=..)]
    for plain input: one-character separators, fields taken verbatim (no
    quoting), the first line as header, no implicit index column.  Blank
    lines are skipped, an empty header field is named ["Unnamed: i"], a
    short row is completed with missing values and a row longer than the
    header is a [ParserError].  A column is read as integers, else as
    floats, else as booleans, else as texts. *)

Fixpoint split_on (c : ascii) (s : string) : list string :=
  match s with
  | EmptyString => [EmptyString]
  | String a s' =>
      if Ascii.eqb a c then EmptyString :: split_on c s'
      else match split_on c s' with
           | w :: ws => String a w :: ws
           | [] => [String a EmptyString]
           end
  end.

Definition LF : ascii := ascii_of_nat 10.
Definition CR : ascii := ascii_of_nat 13.

Definition chomp (s : string) : string :=
  match rev (list_ascii_of_string s) with
  | a :: l => if Ascii.eqb a CR then string_of_list_ascii (rev l) else s
  | [] => s
  end.

Definition lines (s : string) : list string :=
  List.filter (fun l => negb (String.eqb l EmptyString))
              (map chomp (split_on LF s)).

Fixpoint digits (acc : Z) (s : string) : option Z :=
  match s with
  | EmptyString => Some acc
  | String a s' =>
      let n := nat_of_ascii a in
      if ((48 <=? n) && (n <=? 57))%nat
      then digits (10 * acc + Z.of_nat (n - 48)) s'
      else None
  end.

Definition parse_nat (s : string) : option Z :=
  match s with
  | EmptyString => None
  | _ => digits 0 s
  end.

Definition parse_int (s : string) : option Z :=
  match s with
  | String "-" s' => Z.opp <$> parse_nat s'
  | String "+" s' => parse_nat s'
  | _ => parse_nat s
  end.

Definition parse_unsigned_decimal (s : string) : option Q :=
  match split_on "." s with
  | [i] => inject_Z <$> parse_nat i
  | [i; f] =>
      match digits 0 i, digits 0 f with
      | Some a, Some b =>
          if String.eqb i EmptyString && String.eqb f EmptyString then None
          else Some (Qred (Qplus (inject_Z a)
                                 (Qmake b (Pos.pow 10 (Pos.of_nat (String.length f))))))
      | _, _ => None
      end
  | _ => None
  end.

Definition parse_decimal (s : string) : option Q :=
  match s with
  | String "-" s' => Qopp <$> parse_unsigned_decimal s'
  | String "+" s' => parse_unsigned_decimal s'
  | _ => parse_unsigned_decimal s
  end.

Definition na_values : list string :=
  [EmptyString; "#N/A"; "#N/A N/A"; "#NA"; "-1.#IND"; "-1.#QNAN"; "-NaN"; "-nan";
   "1.#IND"; "1.#QNAN"; "<NA>"; "N/A"; "NA"; "NULL"; "NaN"; "None"; "n/a";
   "nan"; "null"].

Definition is_na (f : string) : bool := bool_decide (f ∈ na_values).

Definition parse_bool (f : string) : option bool :=
  if bool_decide (f ∈ ["True"; "TRUE"; "true"]) then Some true
  else if bool_decide (f ∈ ["False"; "FALSE"; "false"]) then Some false
  else None.

Inductive kind : Type := KInt | KFloat | KBool | KText.

Definition infer (fs : list string) : kind :=
  let present := List.filter (fun f => negb (is_na f)) fs in
  if forallb (fun f => bool_decide (is_Some (parse_int f))) present then KInt
  else if forallb (fun f => bool_decide (is_Some (parse_decimal f))) present
  then KFloat
  else if forallb (fun f => bool_decide (is_Some (parse_bool f))) fs then KBool
  else KText.

Definition convert (k : kind) (f : string) : cell :=
  if is_na f then NaN
  else match k with
       | KInt => from_option Int NaN (parse_int f)
       | KFloat => from_option Flt NaN (parse_decimal f)
       | KBool => from_option Bool NaN (parse_bool f)
       | KText => Str f
       end.

Definition header_names (fs : list string) : list string :=
  imap (fun i f => if String.eqb f EmptyString then "Unnamed: " +:+ pretty i else f) fs.

Definition read_csv_plain (raw : list byte) (encoding sep : string)
  : result DataFrame :=
  text <-- decode raw encoding ;;
  match sep with
  | String c EmptyString =>
      match lines text with
      | [] => Raise (ValueError "No columns to parse from file")
      | h :: body =>
          let names := header_names (split_on c h) in
          let n := length names in
          let recs := map (split_on c) body in
          if negb (forallb (fun fs => (length fs <=? n)%nat) recs)
          then Raise (ParserError "Error tokenizing data")
          else
            let kinds :=
              map (fun j => infer (map (fun fs => nth j fs EmptyString) recs)) (seq 0 n) in
            Ok {| columns := names; index_name := None;
                  rows := imap (fun i fs =>
                            mkRow (Int (Z.of_nat i))
                                  (imap (fun j k => convert k (nth j fs EmptyString)) kinds))
                          recs |}
      end
  | _ => Raise (ValueError "separator outside the model")
  end.

(** An ISO calendar date, [YYYY-MM-DD], as the timestamp of its midnight. *)
Definition parse_iso_date (s : string) : option Z :=
  match split_on "-" s with
  | [y; m; d] =>
      if negb ((String.length y =? 4) && (String.length m =? 2)
               && (String.length d =? 2))%nat then None
      else match parse_nat y, parse_nat m, parse_nat d with
           | Some y', Some m', Some d' =>
               let n := days_from_civil y' m' d' in
               if bool_decide (civil_from_days n = (y', m', d'))
               then Some (n * ns_per_day)%Z else None
           | _, _, _ => None
           end
  | _ => None
  end.

(** *** Selecting rows, comparing, sorting downwards

    [df[mask]] keeps the rows whose entry in the boolean series [mask] is
    True; the masks of the program are computed from the frame they
    select from, so they share its index and are applied by position.
    [s.isin(vals)] tests membership in a list of texts.  [s >= v] and
    [s <= v] compare a column with a float: a missing value compares
    false, and a text or a timestamp cannot be compared with a number.
    [a & b] is the conjunction of two masks over the same index. *)

Definition getitem_mask (df : DataFrame) (mask : Series) : DataFrame :=
  {| columns := columns df; index_name := index_name df;
     rows := select (map is_true (values mask)) (rows df) |}.

Definition isin (s : Series) (vals : list string) : Series :=
  map_values (fun c => Bool (bool_decide (c ∈ map Str vals))) s.

Definition comparable (c : cell) : bool := is_number c || isna c.

Definition compare_scalar (op : string) (test : Q -> bool) (s : Series)
  : result Series :=
  if forallb comparable (values s)
  then Ok (map_values (fun c => Bool (is_number c && test (num c))) s)
  else Raise (TypeError (op +:+ " not supported between a text and a float")).

Definition ge (s : Series) (v : Q) : result Series :=
  compare_scalar ">=" (fun q => Qle_bool v q) s.

Definition le (s : Series) (v : Q) : result Series :=
  compare_scalar "<=" (fun q => Qle_bool q v) s.

Definition and_ (a b : Series) : Series :=
  {| name := name a; iname := iname a;
     items := zip_with (fun x y => (x.1, Bool (is_true x.2 && is_true y.2)))
                       (items a) (items b) |}.

(** [df.sort_values(x, ascending=False)]: rows in descending order of
    column [x], missing values still last. *)
Definition cell_geb (a b : cell) : bool :=
  match a, b with
  | _, NaN => true
  | NaN, _ => false
  | _, _ => cell_leb b a
  end.

Definition row_ge (j : nat) : relation Row :=
  fun r1 r2 => cell_geb (cell_at j r1) (cell_at j r2) = true.

#[global] Instance row_ge_dec j : RelDecision (row_ge j).
Proof. intros r1 r2. unfold row_ge. apply _. Defined.

Definition sort_values_desc (df : DataFrame) (x : string) : result DataFrame :=
  match position x (columns df) with
  | None => Raise (KeyError x)
  | Some j =>
      Ok {| columns := columns df; index_name := index_name df;
            rows := merge_sort (row_ge j) (rows df) |}
  end.

(** [df.head(n)]. *)
Definition head_rows (df : DataFrame) (n : nat) : DataFrame :=
  {| columns := columns df; index_name := index_name df;
     rows := take n (rows df) |}.

End pd.

(** ** The library calls left open

    Two library functions are not modelled in full: the CSV parser and the
    date parser.  The repository is embedded over any implementation of
    them; [plain] is the implementation used to run the embedding on
    concrete inputs.  [to_datetime_values] is
    [pd.to_datetime(.., errors="coerce")] on the values of a column: a
    timestamp, or nothing (NaT) for a value it cannot read. *)

Class Library : Type := {
  read_csv : list byte -> string -> string -> result pd.DataFrame;
  to_datetime_values : list cell -> list (option Z)
}.

Definition plain_datetime (c : cell) : option Z :=
  match c with
  | Ts t => Some t
  | Int z => Some z
  | Flt q => Some (Qfloor q)
  | Str s => pd.parse_iso_date s
  | _ => None
  end.

Definition plain : Library :=
  {| read_csv := pd.read_csv_plain;
     to_datetime_values := map plain_datetime |}.

(** [pd.to_datetime(series, errors="coerce")]: same index, same name. *)
Definition to_datetime `{Library} (s : pd.Series) : pd.Series :=
  {| pd.name := pd.name s; pd.iname := pd.iname s;
     pd.items := zip (pd.index s)
                     (map (from_option Ts NaN)
                          (to_datetime_values (pd.values s))) |}.

(** ** Texts of Python

    [s.lower()] maps the letters A to Z to a to z; on the UTF-8 bytes of a
    text the letters outside ASCII are left as they are (no ASCII text the
    program looks for can come out of them).  [h in s] tells whether the
    text [h] occurs in [s]. *)

Definition lower_ascii (a : ascii) : ascii :=
  let n := nat_of_ascii a in
  if ((65 <=? n) && (n <=? 90))%nat then ascii_of_nat (n + 32) else a.

Fixpoint lower (s : string) : string :=
  match s with
  | EmptyString => EmptyString
  | String a s' => String (lower_ascii a) (lower s')
  end.

Fixpoint contains (h s : string) : bool :=
  String.prefix h s
  || match s with
     | EmptyString => false
     | String _ s' => contains h s'
     end.

(** ** utils.py *)

Module utils.
Import pd.

Record Types : Type := mkTypes { numeric : list string; text : list string }.

Definition column_is_numeric (df : DataFrame) (c : string) : bool :=
  match getitem df c with
  | Ok s => is_numeric_dtype s
  | Raise _ => false
  end.

Definition infer_types (df : DataFrame) : Types :=
  let numeric := List.filter (column_is_numeric df) (columns df) in
  let text := List.filter (fun c => negb (bool_decide (c ∈ numeric)))
                          (columns df) in
  {| numeric := numeric; text := text |}.

(** [basic_stats].  The memory estimate is left out, and of the describe
    table only the columns it describes are kept: its entries are rounded
    floats. *)
Record Stats : Type := mkStats {
  stats_shape : nat * nat;
  nulls_total : Z;
  duplicates : Z;
  describe_num : option (list string);
  top_categories : list (string * Series)
}.

(** [df.duplicated()]: a row is a duplicate when an earlier row has the
    same cells.  On a frame without columns the library returns an empty
    series: no row is marked. *)
Fixpoint duplicated_rows (seen : list (list cell)) (rs : list Row)
  : list bool :=
  match rs with
  | [] => []
  | r :: rs' =>
      bool_decide (cells r ∈ seen) :: duplicated_rows (cells r :: seen) rs'
  end.

Definition duplicated (df : DataFrame) : list bool :=
  match columns df with
  | [] => []
  | _ :: _ => duplicated_rows [] (rows df)
  end.

Definition basic_stats (df : DataFrame) : Stats :=
  let num_cols := List.filter (column_is_numeric df) (columns df) in
  let cat_cols := List.filter (fun c => negb (bool_decide (c ∈ num_cols)))
                              (columns df) in
  {| stats_shape := shape df;
     nulls_total :=
       Z.of_nat (length (List.filter isna (flat_map cells (rows df))));
     duplicates :=
       Z.of_nat (length (List.filter id (duplicated df)));
     describe_num := match num_cols with [] => None | _ => Some num_cols end;
     top_categories :=
       flat_map (fun c => match getitem df c with
                          | Ok s => [(c, head (value_counts (astype_str s)) 10)]
                          | Raise _ => []
                          end) (take 10 cat_cols) |}.

Definition how_map : gmap string string :=
  list_to_map [("soma", "sum"); ("média", "mean"); ("contagem", "count");
               ("mediana", "median"); ("máximo", "max"); ("mínimo", "min")].

(** The six modes of the docstrings: the keys of [how_map]. *)
Definition modes : list string :=
  ["soma"; "média"; "contagem"; "mediana"; "máximo"; "mínimo"].

(** [how_map.get(how, "sum")]. *)
Definition how_func (how : string) : string := default "sum" (how_map !! how).

Definition aggregate (df : DataFrame) (x : string) (y : option string)
  (how : string) : result DataFrame :=
  match y with
  | Some y' =>
      if String.eqb how "contagem"
      then s <-- groupby_size df x ;;
           out <-- reset_index s (Some "valor") ;;
           Ok (rename out {[ x := "x" ]})
      else let func := how_func how in
           s <-- groupby_agg df x y' func ;;
           out <-- reset_index s None ;;
           Ok (rename out (<[ y' := "valor" ]> {[ x := "x" ]}))
  | None =>
      s <-- groupby_size df x ;;
      out <-- reset_index s (Some "valor") ;;
      Ok (rename out {[ x := "x" ]})
  end.

Definition ensure_datetime `{Library} (series : Series) : Series :=
  if is_datetime64_any_dtype series then series else to_datetime series.

Definition time_aggregate `{Library} (df : DataFrame) (date_col : string)
  (y : option string) (how freq : string) : result DataFrame :=
  col <-- getitem df date_col ;;
  let sdt := ensure_datetime col in
  let tmp := copy df in
  let tmp := setitem tmp "_dt" sdt in
  grouped <--
    match y with
    | Some y' =>
        if String.eqb how "contagem"
        then idx <-- set_index tmp "_dt" ;;
             r <-- resample_frame idx freq ;;
             reset_index (resampler_size r) (Some "valor")
        else let func := how_func how in
             idx <-- set_index tmp "_dt" ;;
             s <-- getitem idx y' ;;
             r <-- resample_series s freq ;;
             a <-- resampler_agg r func ;;
             reset_index a (Some "valor")
    | None =>
        idx <-- set_index tmp "_dt" ;;
        r <-- resample_frame idx freq ;;
        reset_index (resampler_size r) (Some "valor")
    end ;;
  let grouped := rename grouped {[ "_dt" := "x" ]} in
  sorted <-- sort_values grouped "x" ;;
  Ok (reset_index_drop sorted).

(** The test [y is None or how == "contagem"]. *)
Definition counts_rows (y : option string) (how : string) : bool :=
  match y with
  | None => true
  | Some _ => String.eqb how "contagem"
  end.

(** The [_dt] column [time_aggregate] gives to its copy of [df], and the
    timestamps it holds, in row order. *)
Definition dt_column `{Library} (df : DataFrame) (date_col : string)
  : list cell :=
  match getitem df date_col with
  | Ok col => column (setitem (copy df) "_dt" (ensure_datetime col)) "_dt"
  | Raise _ => []
  end.

Definition stamps (cs : list cell) : list Z :=
  omap (fun c => match c with Ts t => Some t | _ => None end) cs.

(** Number of timestamps falling in the period of ordinal [k]. *)
Definition period_size (f : Freq) (k : Z) (ts : list Z) : nat :=
  length (filter (fun t => bin_of f t = k) ts).

(** [detect_datetime_cols].  The probe
    [pd.to_datetime(df[c], errors="raise", ..)] inside the [try] is a call
    of the library: [parses s] tells whether it returns on the column
    [s].  The three loops are kept as they are written: the columns typed
    as dates, then the columns named like dates that the probe accepts,
    then the removal of repetitions with the set [seen]. *)
Definition name_hints : list string :=
  ["data"; "date"; "created"; "updated"; "timestamp"; "time"; "dt_"; "_dt"].

Definition column_is_datetime (df : DataFrame) (c : string) : bool :=
  match getitem df c with
  | Ok s => is_datetime64_any_dtype s
  | Raise _ => false
  end.

(** [any(h in lc for h in name_hints)] with [lc = str(c).lower()]. *)
Definition hinted (c : string) : bool :=
  existsb (fun h => contains h (lower c)) name_hints.

Definition by_dtype (df : DataFrame) : list string :=
  fold_left (fun candidates c =>
               if column_is_datetime df c then candidates ++ [c]
               else candidates)
            (columns df) [].

Definition probe (parses : Series -> bool) (df : DataFrame) (c : string)
  : bool :=
  match getitem df c with
  | Ok s => parses s
  | Raise _ => false
  end.

Definition by_name (parses : Series -> bool) (df : DataFrame)
  (candidates : list string) : list string :=
  fold_left (fun candidates c =>
               if hinted c && negb (bool_decide (c ∈ candidates))
               then if probe parses df c then candidates ++ [c]
                    else candidates
               else candidates)
            (columns df) candidates.

Definition dedupe (candidates : list string) : list string :=
  (fold_left (fun '(seen, out) c =>
                if bool_decide (c ∈ seen) then (seen, out)
                else ({[ c ]} ∪ seen, out ++ [c]))
             candidates ((∅ : gset string), [])).2.

Definition detect_datetime_cols (parses : Series -> bool) (df : DataFrame)
  : list string :=
  dedupe (by_name parses df (by_dtype df)).


End utils.

(** ** viz.py

    The plotting library is not part of the pipeline: a figure is the
    record of the call that makes it (the data and the axes it is given).
    The checks the plotting library makes on that call (it refuses an
    axis or a colour that is not a column of the data) are not
    represented: what is proved of a figure is proved of the call that is
    made, for the case that the library returns.  The errors
    [plot_generic] raises itself are the chart-request errors of the
    specification. *)

Module viz.
Import pd.

Inductive Figure : Type :=
  | bar (data : DataFrame) (x : string) (y color : option string)
        (title : string)
  | line (data : DataFrame) (x y : string) (color : option string)
         (markers : bool) (title : string)
  | pie (data : DataFrame) (names vals : string) (title : string) (hole : Q)
  | histogram (data : DataFrame) (x : string) (color : option string)
              (nbins : nat) (title : string)
  | scatter (data : DataFrame) (x y : string) (color : option string)
            (title : string).

Definition line_needs_y : exn := ValueError "Para Linha, selecione Y numérico.".
Definition scatter_needs_y : exn :=
  ValueError "Para Scatter, selecione Y numérico.".
Definition unknown_kind : exn := ValueError "Tipo de gráfico não suportado.".

(** The errors of a chart request, and the five kinds of chart. *)
Definition request_errors : list exn :=
  [line_needs_y; scatter_needs_y; unknown_kind].

Definition kinds : list string :=
  ["Barras"; "Linha"; "Pizza"; "Histograma"; "Scatter"].

(** The errors the library raises under [plot_generic]: a missing column,
    a reduction over texts, a column inserted twice. *)
Definition library_error (e : exn) : Prop :=
  match e with
  | KeyError _ | TypeError _ => True
  | ValueError m => String.prefix "cannot insert " m = true
  | _ => False
  end.

(** [df.groupby(x, dropna=False)[y].sum().reset_index()]. *)
Definition grouped_sum (df : DataFrame) (x y : string) : result DataFrame :=
  s <-- groupby_agg df x y "sum" ;;
  reset_index s None.

(** The chain of [if tipo == ..] of [plot_generic] (lines 14 to 48). *)
Definition draw (tipo : string) (df : DataFrame) (x : string)
  (y color : option string) (aggregated : bool) : result Figure :=
  if String.eqb tipo "Barras" then
    if aggregated
    then Ok (bar df "x" (Some "valor") color "Barras — Agregado")
    else match y with
         | None => Ok (bar df x None color ("Barras — Contagem por " +:+ x))
         | Some y' =>
             grouped <-- grouped_sum df x y' ;;
             Ok (bar grouped x (Some y') color
                     ("Barras — " +:+ y' +:+ " por " +:+ x))
         end
  else if String.eqb tipo "Linha" then
    if aggregated
    then Ok (line df "x" "valor" color true "Linha — Agregado")
    else match y with
         | None => Raise line_needs_y
         | Some y' =>
             grouped <-- grouped_sum df x y' ;;
             Ok (line grouped x y' color true
                      ("Linha — " +:+ y' +:+ " por " +:+ x))
         end
  else if String.eqb tipo "Pizza" then
    if aggregated
    then Ok (pie df "x" "valor" "Pizza — Agregado" (4 # 10))
    else match y with
         | None =>
             sx <-- getitem df x ;;
             counts <-- reset_index (rename_axis (value_counts sx) x)
                                    (Some "count") ;;
             Ok (pie counts x "count" ("Pizza — dist. " +:+ x) (4 # 10))
         | Some y' =>
             grouped <-- grouped_sum df x y' ;;
             Ok (pie grouped x y' ("Pizza — " +:+ y' +:+ " por " +:+ x)
                     (4 # 10))
         end
  else if String.eqb tipo "Histograma" then
    Ok (histogram df x color 30 ("Histograma — " +:+ x))
  else if String.eqb tipo "Scatter" then
    match y with
    | None => Raise scatter_needs_y
    | Some y' =>
        Ok (scatter df x y' color ("Scatter — " +:+ y' +:+ " vs " +:+ x))
    end
  else Raise unknown_kind.

Definition plot_generic (tipo : string) (df : DataFrame) (x : string)
  (y color : option string) (aggregated : bool) : result Figure :=
  df <--
    (if aggregated && has_column df "x"
     then sx <-- getitem df "x" ;;
          if is_datetime64_any_dtype sx
          then s <-- sort_values df "x" ;; Ok (reset_index_drop s)
          else Ok df
     else Ok df) ;;
  draw tipo df x y color aggregated.

(** The table a figure is drawn from. *)
Definition data_of (fig : Figure) : DataFrame :=
  match fig with
  | bar d _ _ _ _ => d
  | line d _ _ _ _ _ => d
  | pie d _ _ _ _ => d
  | histogram d _ _ _ _ => d
  | scatter d _ _ _ _ => d
  end.


End viz.

(** ** Uploaded files

    A file object holds its bytes and a read position: [read] returns the
    bytes from the position on and moves it to the end, [seek] sets it. *)

Record UploadedFile : Type := mkFile {
  file_name : string;
  content : list byte;
  pos : nat
}.

Definition read (f : UploadedFile) : list byte * UploadedFile :=
  (drop (pos f) (content f),
   {| file_name := file_name f; content := content f;
      pos := length (content f) |}).

Definition seek (f : UploadedFile) (n : nat) : UploadedFile :=
  {| file_name := file_name f; content := content f; pos := n |}.

(** A [for] loop whose body either returns, ending the loop, or goes on
    to the next item. *)
Fixpoint for_each {A B} (l : list A) (body : A -> option B) : option B :=
  match l with
  | [] => None
  | a :: l' =>
      match body a with
      | Some b => Some b
      | None => for_each l' body
      end
  end.

(** [try: return e / except Exception: continue]. *)
Definition try_return {A} (r : result A) : option A :=
  match r with
  | Ok a => Some a
  | Raise _ => None
  end.

Definition encodings : list string := ["utf-8"; "latin-1"].
Definition seps : list string :=
  [","; ";"; String (ascii_of_nat 9) EmptyString; "|"].

(** The combinations in the order the two loops visit them. *)
Definition combinations : list (string * string) :=
  enc ← encodings; sep ← seps; [(enc, sep)].

(** ** ingest.py *)

Module ingest.
Import pd.

Definition _clean (df : DataFrame) : result DataFrame :=
  let df := set_columns df (map strip (columns df)) in
  df <-- loc_columns df
           (invert (str_match_prefix "Unnamed"
                      (astype_str (Series_of_labels (columns df))))) ;;
  Ok (reset_index_drop df).

Definition csv_not_detected : exn :=
  ValueError "CSV com encoding/separador não detectado.".

Definition _read_csv `{Library} (f : UploadedFile)
  : result DataFrame * UploadedFile :=
  let '(raw, f) := read f in
  let f := seek f 0 in
  match for_each encodings (fun enc =>
          for_each seps (fun sep =>
            try_return (df <-- read_csv raw enc sep ;; _clean df)))
  with
  | Some df => (Ok df, seek f 0)
  | None => (Raise csv_not_detected, seek f 0)
  end.

End ingest.

(** ** app.py: the inline readers and the main block *)

Module app.
Import pd.

Definition csv_unknown : exn :=
  ValueError "Não foi possível ler CSV (encoding/separador desconhecido).".

Definition try_read_csv `{Library} (file_bytes : list byte)
  : result DataFrame :=
  match for_each encodings (fun enc =>
          for_each seps (fun sep =>
            try_return (read_csv file_bytes enc sep)))
  with
  | Some df => Ok df
  | None => Raise csv_unknown
  end.

(** The cleaning of the main block (line 104):
    [df.loc[:, ~df.columns.astype(str).str.match(r"^Unnamed")]], the mask
    being a plain array over the labels. *)
Definition drop_unnamed (df : DataFrame) : DataFrame :=
  loc_columns_array df
    (map (fun c => negb (String.prefix "Unnamed" c)) (columns df)).

(** The filters of the main block.  Lines 216 to 224 (and 230 to 238): a
    categorical column is filtered when one is chosen and at least one
    value is selected.  Lines 247 to 252: a numeric column is filtered to
    the interval [r] of the slider. *)
Definition filter_values (df_filt : DataFrame) (col : string)
  (vals : list string) : result DataFrame :=
  if String.eqb col "(nenhum)" then Ok df_filt
  else match vals with
       | [] => Ok df_filt
       | _ :: _ =>
           s <-- getitem df_filt col ;;
           Ok (getitem_mask df_filt (isin (astype_str s) vals))
       end.

Definition filter_range (df_filt : DataFrame) (col_num : string) (r : Q * Q)
  : result DataFrame :=
  if String.eqb col_num "(nenhum)" then Ok df_filt
  else s <-- getitem df_filt col_num ;;
       lo <-- ge s r.1 ;;
       hi <-- le s r.2 ;;
       Ok (getitem_mask df_filt (and_ lo hi)).

(** Lines 314-315 and 323-324:
    [if topn and topn > 0:
       data_agg = data_agg.sort_values("valor", ascending=False).head(topn)]. *)
Definition top_n (data_agg : DataFrame) (topn : Z) : result DataFrame :=
  if (0 <? topn)%Z
  then s <-- sort_values_desc data_agg "valor" ;;
       Ok (head_rows s (Z.to_nat topn))
  else Ok data_agg.

(** The handler of the button (lines 286 to 333), up to the figure it
    hands to the page.  Its arguments are the values of the widgets: the
    kind of chart, the filtered table, the axes and the colour (the text
    [(nenhum)] when none is chosen), the mode, the Top N, and the choices
    of the time series.  The mode and the Top N are only asked for the
    kinds that aggregate. *)
Definition none_if_nenhum (v : string) : option string :=
  if String.eqb v "(nenhum)" then None else Some v.

Definition on_generate `{Library} (tipo : string) (df_filt : DataFrame)
  (x y color how : string) (topn : Z) (use_time : bool)
  (date_col freq : string) : result viz.Figure :=
  let agg_on := bool_decide (tipo ∈ ["Barras"; "Linha"; "Pizza"]) in
  let topn_on := bool_decide (tipo ∈ ["Barras"; "Linha"; "Pizza"]) in
  let topn := if topn_on then topn else 0%Z in
  let y_val := none_if_nenhum y in
  let color_val := none_if_nenhum color in
  if use_time then
    data_agg <-- utils.time_aggregate df_filt date_col y_val
                   (if agg_on then how else "soma") freq ;;
    data_agg <-- (if topn_on then top_n data_agg topn else Ok data_agg) ;;
    viz.plot_generic tipo data_agg "x" (Some "valor") color_val true
  else if agg_on then
    data_agg <-- utils.aggregate df_filt x y_val how ;;
    data_agg <-- top_n data_agg topn ;;
    viz.plot_generic tipo data_agg "x" (Some "valor") color_val true
  else viz.plot_generic tipo df_filt x y_val color_val false.


End app.

(** ** Objects and references

    A Python variable holds a reference to a data-frame object, and some
    statements of the program change the object they are given:
    [df.columns = ..], [df[x] = ..] and [rename(.., inplace=True)].
    [Module heap] runs the functions on a store of objects: a reference is
    a position in the store, a statement that builds a frame allocates a
    new object, a statement that changes a frame overwrites its object.
    Series and figures are never changed: they stay values. *)

Module heap.
Import pd.

Definition ref : Type := nat.
Definition Store : Type := list DataFrame.
Definition M (A : Type) : Type := Store -> result A * Store.

Definition ret {A} (a : A) : M A := fun st => (Ok a, st).

Definition bind {A B} (m : M A) (k : A -> M B) : M B :=
  fun st => match m st with
            | (Ok a, st') => k a st'
            | (Raise e, st') => (Raise e, st')
            end.

Notation "x <~ m ;; k" := (bind m (fun x => k))
  (at level 100, m at next level, right associativity).

Definition lift {A} (r : result A) : M A := fun st => (r, st).

Definition deref (r : ref) : M DataFrame :=
  fun st => match st !! r with
            | Some df => (Ok df, st)
            | None => (Raise (ValueError "no such object"), st)
            end.

Definition new (df : DataFrame) : M ref :=
  fun st => (Ok (length st), st ++ [df]).

Definition assign (r : ref) (df : DataFrame) : M unit :=
  fun st => (Ok tt, <[r := df]> st).

(** The frame a run returns, read from the final store. *)
Definition returned (m : M ref) (st : Store) : result DataFrame :=
  match m st with
  | (Ok r, st') => match st' !! r with
                   | Some df => Ok df
                   | None => Raise (ValueError "no such object")
                   end
  | (Raise e, _) => Raise e
  end.

(** [ingest._clean]. *)
Definition _clean (df : ref) : M ref :=
  d <~ deref df ;;
  _ <~ assign df (set_columns d (map strip (columns d))) ;;
  d <~ deref df ;;
  kept <~ lift (loc_columns d
                  (invert (str_match_prefix "Unnamed"
                             (astype_str (Series_of_labels (columns d)))))) ;;
  df1 <~ new kept ;;
  d1 <~ deref df1 ;;
  new (reset_index_drop d1).

(** [utils.infer_types] and [utils.basic_stats] only read the frame. *)
Definition infer_types (df : ref) : M utils.Types :=
  d <~ deref df ;; ret (utils.infer_types d).

Definition basic_stats (df : ref) : M utils.Stats :=
  d <~ deref df ;; ret (utils.basic_stats d).

(** [utils.aggregate]: [out] is a new object, renamed in place. *)
Definition aggregate (df : ref) (x : string) (y : option string)
  (how : string) : M ref :=
  d <~ deref df ;;
  match y with
  | Some y' =>
      if String.eqb how "contagem"
      then s <~ lift (groupby_size d x) ;;
           o <~ lift (reset_index s (Some "valor")) ;;
           out <~ new o ;;
           o <~ deref out ;;
           _ <~ assign out (rename o {[ x := "x" ]}) ;;
           ret out
      else let func := utils.how_func how in
           s <~ lift (groupby_agg d x y' func) ;;
           o <~ lift (reset_index s None) ;;
           out <~ new o ;;
           o <~ deref out ;;
           _ <~ assign out (rename o (<[ y' := "valor" ]> {[ x := "x" ]})) ;;
           ret out
  | None =>
      s <~ lift (groupby_size d x) ;;
      o <~ lift (reset_index s (Some "valor")) ;;
      out <~ new o ;;
      o <~ deref out ;;
      _ <~ assign out (rename o {[ x := "x" ]}) ;;
      ret out
  end.

(** [utils.time_aggregate]: [tmp] is a copy, and the copy gets the
    [_dt] column; [grouped] is a new object, renamed in place. *)
Definition time_aggregate `{Library} (df : ref) (date_col : string)
  (y : option string) (how freq : string) : M ref :=
  d <~ deref df ;;
  col <~ lift (getitem d date_col) ;;
  let sdt := utils.ensure_datetime col in
  tmp <~ new (copy d) ;;
  t <~ deref tmp ;;
  _ <~ assign tmp (setitem t "_dt" sdt) ;;
  t <~ deref tmp ;;
  g <~ lift
    match y with
    | Some y' =>
        if String.eqb how "contagem"
        then idx <-- set_index t "_dt" ;;
             r <-- resample_frame idx freq ;;
             reset_index (resampler_size r) (Some "valor")
        else let func := utils.how_func how in
             idx <-- set_index t "_dt" ;;
             s <-- getitem idx y' ;;
             r <-- resample_series s freq ;;
             a <-- resampler_agg r func ;;
             reset_index a (Some "valor")
    | None =>
        idx <-- set_index t "_dt" ;;
        r <-- resample_frame idx freq ;;
        reset_index (resampler_size r) (Some "valor")
    end ;;
  grouped <~ new g ;;
  g <~ deref grouped ;;
  _ <~ assign grouped (rename g {[ "_dt" := "x" ]}) ;;
  g <~ deref grouped ;;
  sorted <~ lift (sort_values g "x") ;;
  new (reset_index_drop sorted).

(** [viz.plot_generic]: the sorted frame is a new object bound to the
    local name [df]; the rest of the function reads that object. *)
Definition plot_generic (tipo : string) (df : ref) (x : string)
  (y color : option string) (aggregated : bool) : M viz.Figure :=
  d <~ deref df ;;
  df <~ (if aggregated && has_column d "x"
         then sx <~ lift (getitem d "x") ;;
              if is_datetime64_any_dtype sx
              then s <~ lift (sort_values d "x") ;; new (reset_index_drop s)
              else ret df
         else ret df) ;;
  d <~ deref df ;;
  lift (viz.draw tipo d x y color aggregated).

(** Every object of [st] is in [st'] as it was. *)
Definition untouched (st st' : Store) : Prop :=
  forall r o, st !! r = Some o -> st' !! r = Some o.

End heap.

(** ** Sample tables *)

Module examples.
Import pd.

Definition day (n : Z) : Z := (n * ns_per_day)%Z.

(** Two sales, the later one first, and nothing on the day between. *)
Definition sales : DataFrame :=
  {| columns := ["when"; "amount"]; index_name := None;
     rows := [ mkRow (Int 0) [Ts (day 2); Int 5];
               mkRow (Int 1) [Ts (day 0); Int 7] ] |}.

(** The same rows in the other order. *)
Definition sales_reordered : DataFrame :=
  {| columns := ["when"; "amount"]; index_name := None;
     rows := [ mkRow (Int 1) [Ts (day 0); Int 7];
               mkRow (Int 0) [Ts (day 2); Int 5] ] |}.

Definition sales_by_day : DataFrame :=
  {| columns := ["x"; "valor"]; index_name := None;
     rows := [ mkRow (Int 0) [Ts (day 0); Int 1];
               mkRow (Int 1) [Ts (day 1); Int 0];
               mkRow (Int 2) [Ts (day 2); Int 1] ] |}.

(** Three orders of two customers, customer 2 first. *)
Definition orders : DataFrame :=
  {| columns := ["customer"; "total"]; index_name := None;
     rows := [ mkRow (Int 0) [Int 2; Int 10];
               mkRow (Int 1) [Int 1; Int 20];
               mkRow (Int 2) [Int 2; Int 30] ] |}.

Definition orders_by_customer : DataFrame :=
  {| columns := ["x"; "valor"]; index_name := None;
     rows := [ mkRow (Int 0) [Int 1; Int 1];
               mkRow (Int 1) [Int 2; Int 2] ] |}.

(** A table whose key column is called [valor]. *)
Definition prices : DataFrame :=
  {| columns := ["valor"]; index_name := None;
     rows := [ mkRow (Int 0) [Int 1];
               mkRow (Int 1) [Int 1];
               mkRow (Int 2) [Int 2] ] |}.

(** The bytes of the file [id;val / 1;10 / 2;20 / 1;30], each line ended
    by a line feed. *)
Definition nl : string := String LF EmptyString.

Definition csv : list byte :=
  list_byte_of_string
    ("id;val" +:+ nl +:+ "1;10" +:+ nl +:+ "2;20" +:+ nl +:+ "1;30" +:+ nl).

Definition csv_one_column : DataFrame :=
  {| columns := ["id;val"]; index_name := None;
     rows := [ mkRow (Int 0) [Str "1;10"];
               mkRow (Int 1) [Str "2;20"];
               mkRow (Int 2) [Str "1;30"] ] |}.

Definition csv_two_columns : DataFrame :=
  {| columns := ["id"; "val"]; index_name := None;
     rows := [ mkRow (Int 0) [Int 1; Int 10];
               mkRow (Int 1) [Int 2; Int 20];
               mkRow (Int 2) [Int 1; Int 30] ] |}.

Definition csv_totals : DataFrame :=
  {| columns := ["x"; "valor"]; index_name := None;
     rows := [ mkRow (Int 0) [Int 1; Int 40];
               mkRow (Int 1) [Int 2; Int 20] ] |}.

(** A one-line file with a plain header, and the table it holds. *)
Definition small_csv : list byte := list_byte_of_string ("a" +:+ nl +:+ "1" +:+ nl).

Definition small_table : DataFrame :=
  {| columns := ["a"]; index_name := None; rows := [ mkRow (Int 0) [Int 1] ] |}.

(** A table whose label has blanks around it. *)
Definition padded : DataFrame :=
  {| columns := [" a "]; index_name := None; rows := [ mkRow (Int 0) [Int 1] ] |}.

(** The totals of the orders per customer, and the customer with the most
    orders. *)
Definition orders_totals : DataFrame :=
  {| columns := ["x"; "valor"]; index_name := None;
     rows := [ mkRow (Int 0) [Int 1; Int 20];
               mkRow (Int 1) [Int 2; Int 40] ] |}.

Definition orders_sums : DataFrame :=
  {| columns := ["customer"; "total"]; index_name := None;
     rows := [ mkRow (Int 0) [Int 1; Int 20];
               mkRow (Int 1) [Int 2; Int 40] ] |}.

Definition top_customer : DataFrame :=
  {| columns := ["x"; "valor"]; index_name := None;
     rows := [ mkRow (Int 1) [Int 2; Int 2] ] |}.

(** The amounts sold per day. *)
Definition sales_amounts : DataFrame :=
  {| columns := ["x"; "valor"]; index_name := None;
     rows := [ mkRow (Int 0) [Ts (day 0); Int 7];
               mkRow (Int 1) [Ts (day 1); Int 0];
               mkRow (Int 2) [Ts (day 2); Int 5] ] |}.

(** The line chart of the sales per day. *)
Definition sales_line : viz.Figure :=
  viz.line sales_by_day "x" "valor" None true "Linha — Agregado".

(** The bar chart of the totals per customer. *)
Definition orders_bar : viz.Figure :=
  viz.bar orders_sums "customer" (Some "total") None
          "Barras — total por customer".

End examples.

(** * Properties *)

(** ** The order on cells *)

Lemma string_compare_not_gt_trans (s1 : string) :
  forall s2 s3, String.compare s1 s2 <> Gt -> String.compare s2 s3 <> Gt ->
                String.compare s1 s3 <> Gt.
Proof.
  induction s1 as [|a s1 IH]; intros [|b s2] [|c s3]; simpl; try congruence.
  unfold Ascii.compare.
  destruct (N.compare_spec (N_of_ascii a) (N_of_ascii b)) as [Hab|Hab|Hab];
    destruct (N.compare_spec (N_of_ascii b) (N_of_ascii c)) as [Hbc|Hbc|Hbc];
    try congruence;
    destruct (N.compare_spec (N_of_ascii a) (N_of_ascii c)) as [Hac|Hac|Hac];
    try congruence; try lia.
  apply IH.
Qed.

Lemma string_leb_trans (s1 s2 s3 : string) :
  String.leb s1 s2 = true -> String.leb s2 s3 = true -> String.leb s1 s3 = true.
Proof.
  unfold String.leb. intros H12 H23.
  pose proof (string_compare_not_gt_trans s1 s2 s3) as H.
  destruct (String.compare s1 s2), (String.compare s2 s3),
    (String.compare s1 s3); try congruence; exfalso; apply H; congruence.
Qed.

Lemma Qle_bool_total (p q : Q) : Qle_bool p q = true \/ Qle_bool q p = true.
Proof.
  rewrite !Qle_bool_iff. destruct (Qlt_le_dec p q) as [H|H].
  - left. apply Qlt_le_weak, H.
  - right. exact H.
Qed.

Lemma Qle_bool_trans (p q r : Q) :
  Qle_bool p q = true -> Qle_bool q r = true -> Qle_bool p r = true.
Proof. rewrite !Qle_bool_iff. apply Qle_trans. Qed.

#[global] Instance cell_le_total : Total cell_le.
Proof.
  intros a b. unfold cell_le.
  destruct a, b; simpl; try (left; reflexivity); try (right; reflexivity);
    try apply Qle_bool_total; try apply String.leb_total.
  destruct (Z.leb_spec ns ns0); [left; reflexivity | right].
  apply Z.leb_le. lia.
Qed.

#[global] Instance cell_le_trans : Transitive cell_le.
Proof.
  intros a b c. unfold cell_le.
  destruct a, b, c; simpl; try reflexivity; try discriminate;
    try apply Qle_bool_trans; try apply string_leb_trans.
  rewrite !Z.leb_le. lia.
Qed.

#[global] Instance row_le_total j : Total (pd.row_le j).
Proof. intros r1 r2. apply cell_le_total. Qed.

#[global] Instance row_le_trans j : Transitive (pd.row_le j).
Proof. intros r1 r2 r3. apply cell_le_trans. Qed.

(** ** Generic facts about the library model *)

Ltac case_bind H :=
  match type of H with
  | context [rbind ?r _] =>
      let E := fresh "E" in
      destruct r eqn:E; simpl in H; [| discriminate H]
  end.

Ltac case_bind_as H x E :=
  match type of H with
  | context [rbind ?r _] =>
      destruct r as [x|] eqn:E; simpl in H; [| discriminate H]
  end.

Lemma map_imap {A B C} (f : nat -> A -> B) (g : B -> C) (h : A -> C)
  (l : list A) :
  (forall i a, g (f i a) = h a) -> map g (imap f l) = map h l.
Proof.
  revert f. induction l as [|a l IH]; intros f Hf; simpl.
  - reflexivity.
  - rewrite Hf. f_equal. apply IH. intros i b. apply Hf.
Qed.

Lemma column_reset_index_drop (df : pd.DataFrame) (x : string) :
  pd.column (pd.reset_index_drop df) x = pd.column df x.
Proof.
  unfold pd.column, pd.reset_index_drop, pd.column_values; simpl.
  destruct (pd.position x (pd.columns df)) as [j|]; [| reflexivity].
  apply map_imap. reflexivity.
Qed.

Lemma sort_values_sorted (df s : pd.DataFrame) (x : string) :
  pd.sort_values df x = Ok s ->
  x ∈ pd.columns s /\ pd.columns s = pd.columns df /\
  pd.rows s ≡ₚ pd.rows df /\
  StronglySorted cell_le (pd.column s x).
Proof.
  unfold pd.sort_values, pd.column.
  destruct (pd.position x (pd.columns df)) as [j|] eqn:Hj; [| discriminate].
  intros [= <-]; simpl. rewrite Hj.
  split; [| split; [reflexivity | split]].
  - clear -Hj. revert j Hj. induction (pd.columns df) as [|c l IH]; simpl.
    + discriminate.
    + intros j. destruct (decide (x = c)) as [->|Hne]; [left |].
      destruct (pd.position x l) as [k|]; [| discriminate].
      intros _. right. eapply IH. reflexivity.
  - apply merge_sort_Permutation.
  - unfold pd.column_values.
    apply (StronglySorted_fmap (pd.cell_at j) (pd.row_le j) cell_le).
    + intros r1 r2 H. exact H.
    + apply StronglySorted_merge_sort; apply _.
Qed.

(** ** Time aggregation *)

(** What [time_aggregate] returns went through [sort_values("x")]. *)
Lemma time_aggregate_inv `{Library} (df out : pd.DataFrame)
  (date_col : string) (y : option string) (how freq : string) :
  utils.time_aggregate df date_col y how freq = Ok out ->
  exists grouped sorted,
    pd.sort_values grouped "x" = Ok sorted /\ out = pd.reset_index_drop sorted.
Proof.
  unfold utils.time_aggregate. intros Hrun.
  case_bind Hrun. case_bind Hrun. case_bind Hrun.
  injection Hrun as <-. eauto.
Qed.

(** C3: whatever the order of the rows of the input, the table
    [time_aggregate] returns has the column [x] and its rows are in
    ascending order of [x]. *)
Theorem time_aggregate_sorted_by_x `{Library} (df df' out : pd.DataFrame)
  (date_col : string) (y : option string) (how freq : string) :
  pd.columns df' = pd.columns df ->
  pd.rows df' ≡ₚ pd.rows df ->
  utils.time_aggregate df' date_col y how freq = Ok out ->
  "x" ∈ pd.columns out /\ StronglySorted cell_le (pd.column out "x").
Proof.
  intros _ _ Hrun.
  destruct (time_aggregate_inv _ _ _ _ _ _ Hrun) as (g & s & Hs & ->).
  apply sort_values_sorted in Hs as (Hx & _ & _ & Hsorted).
  split; [exact Hx |]. rewrite column_reset_index_drop. exact Hsorted.
Qed.

Lemma time_aggregate_sorted_by_x_witness :
  pd.rows examples.sales_reordered ≡ₚ pd.rows examples.sales /\
  utils.time_aggregate (H := plain) examples.sales_reordered "when" None
    "contagem" "D" = Ok examples.sales_by_day /\
  "x" ∈ pd.columns examples.sales_by_day /\
  StronglySorted cell_le (pd.column examples.sales_by_day "x").
Proof.
  assert (Hp : pd.rows examples.sales_reordered ≡ₚ pd.rows examples.sales)
    by apply perm_swap.
  assert (Hr : utils.time_aggregate (H := plain) examples.sales_reordered
                 "when" None "contagem" "D" = Ok examples.sales_by_day)
    by (vm_compute; reflexivity).
  split; [exact Hp | split; [exact Hr |]].
  exact (time_aggregate_sorted_by_x (H := plain) examples.sales
           examples.sales_reordered examples.sales_by_day "when" None
           "contagem" "D" eq_refl Hp Hr).
Defined.

Lemma dated_fst {A} (its : list (cell * A)) :
  map fst (pd.dated its) = utils.stamps (map fst its).
Proof.
  induction its as [|[c a] its IH]; simpl; [reflexivity |].
  unfold pd.dated, utils.stamps in *; simpl.
  destruct c; simpl; try apply IH. f_equal. apply IH.
Qed.

Lemma members_length {A} (f : pd.Freq) (k : Z) (d : list (Z * A)) :
  length (pd.members f k d) = utils.period_size f k (map fst d).
Proof.
  unfold pd.members, utils.period_size. rewrite length_map.
  induction d as [|[t a] d IH]; simpl; [reflexivity |].
  rewrite !filter_cons; simpl.
  destruct (decide (pd.bin_of f t = k)); simpl; rewrite IH; reflexivity.
Qed.

(** The periods of a resampling, whatever is done with their members. *)
Lemma resample_items_periods {A} (freq : string) (its : list (cell * A))
  (bs : list (cell * list A)) :
  pd.resample_items freq its = Ok bs ->
  exists f, pd.freq_of_string freq = Some f /\
    bs = map (fun k => (Ts (pd.bin_label f k), pd.members f k (pd.dated its)))
             (pd.bin_range f (utils.stamps (map fst its))).
Proof.
  unfold pd.resample_items.
  destruct (pd.freq_of_string freq) as [f|]; [| discriminate].
  destruct (negb (pd.is_datetime_index its)); [discriminate |].
  intros Hbs. exists f. split; [reflexivity |].
  rewrite <- dated_fst.
  destruct its as [|it its].
  - injection Hbs as <-. reflexivity.
  - destruct (pd.dated (it :: its)) as [|d ds] eqn:Hd; [discriminate |].
    injection Hbs as <-. reflexivity.
Qed.

Lemma set_index_labels (df idx : pd.DataFrame) (x : string) :
  pd.set_index df x = Ok idx ->
  map pd.label (pd.rows idx) = pd.column df x /\ pd.index_name idx = Some x.
Proof.
  unfold pd.set_index, pd.column.
  destruct (pd.position x (pd.columns df)) as [j|]; [| discriminate].
  intros [= <-]; simpl. split; [| reflexivity].
  unfold pd.column_values. rewrite map_map. reflexivity.
Qed.

Lemma rmapM_keys {A B} (g : A -> cell) (h : A -> result B) (l : list A)
  (its : list (cell * B)) :
  pd.rmapM (fun a => v <-- h a ;; Ok (g a, v)) l = Ok its ->
  map fst its = map g l.
Proof.
  revert its. induction l as [|a l IH]; simpl; intros its Hrun.
  - injection Hrun as <-. reflexivity.
  - destruct (h a) as [v|e]; simpl in Hrun; [| discriminate].
    destruct (pd.rmapM _ l) as [bs|e]; simpl in Hrun; [| discriminate].
    injection Hrun as <-. simpl. f_equal. apply IH. reflexivity.
Qed.


Lemma reset_index_cells (s : pd.Series) (n : option string) (g : pd.DataFrame) :
  pd.reset_index s n = Ok g ->
  pd.columns g = [default "index" (pd.iname s);
                  default (default "0" (pd.name s)) n] /\
  map pd.cells (pd.rows g) = map (fun kv => [kv.1; kv.2]) (pd.items s).
Proof.
  unfold pd.reset_index. destruct (decide _); [discriminate |].
  intros [= <-]; simpl. split; [reflexivity |].
  apply map_imap. reflexivity.
Qed.

Lemma count_branch_spec (tmp g : pd.DataFrame) (freq : string) :
  (idx <-- pd.set_index tmp "_dt" ;;
   r <-- pd.resample_frame idx freq ;;
   pd.reset_index (pd.resampler_size r) (Some "valor")) = Ok g ->
  exists f, pd.freq_of_string freq = Some f /\
    pd.columns g = ["_dt"; "valor"] /\
    let ts := utils.stamps (pd.column tmp "_dt") in
    map pd.cells (pd.rows g)
    = map (fun k => [Ts (pd.bin_label f k);
                     Int (Z.of_nat (utils.period_size f k ts))])
          (pd.bin_range f ts).
Proof.
  intros Hrun. case_bind Hrun. case_bind Hrun.
  apply set_index_labels in E as [Hlab Hname].
  unfold pd.resample_frame in E0. case_bind E0. injection E0 as <-.
  apply resample_items_periods in E as (f & Hf & ->).
  apply reset_index_cells in Hrun as [Hcols Hcells].
  exists f. split; [exact Hf |]. simpl in Hcols, Hcells.
  rewrite Hname in Hcols. split; [exact Hcols |].
  rewrite Hcells, !map_map; simpl. rewrite map_map in *. simpl. 
  change (map (fun r => pd.label r) (pd.rows a)) with (map pd.label (pd.rows a)).
  rewrite Hlab. apply map_ext. intros k. 
  rewrite members_length, dated_fst, map_map; simpl.
  change (map (fun r => pd.label r) (pd.rows a)) with (map pd.label (pd.rows a)).
  rewrite Hlab. reflexivity.
Qed.

Lemma rmapM_values {A B} (g : A -> cell) (h : A -> result B) (l : list A)
  (its : list (cell * B)) :
  pd.rmapM (fun a => v <-- h a ;; Ok (g a, v)) l = Ok its ->
  its = zip_with (fun a v => (g a, v)) l (map snd its) /\
  Forall2 (fun a v => h a = Ok v) l (map snd its).
Proof.
  revert its. induction l as [|a l IH]; simpl; intros its Hrun.
  - injection Hrun as <-. split; [reflexivity | constructor].
  - destruct (h a) as [v|e] eqn:Hv; simpl in Hrun; [| discriminate].
    destruct (pd.rmapM _ l) as [bs|e]; simpl in Hrun; [| discriminate].
    injection Hrun as <-. destruct (IH bs eq_refl) as [Hz Hf]. simpl.
    split; [f_equal; exact Hz | constructor; assumption].
Qed.

Lemma members_nil {A} (f : pd.Freq) (k : Z) (d : list (Z * A)) :
  utils.period_size f k (map fst d) = 0%nat -> pd.members f k d = [].
Proof.
  rewrite <- members_length. destruct (pd.members f k d); [reflexivity | discriminate].
Qed.

Lemma agg_branch_spec (tmp g : pd.DataFrame) (freq y func : string) :
  (idx <-- pd.set_index tmp "_dt" ;;
   s <-- pd.getitem idx y ;;
   r <-- pd.resample_series s freq ;;
   a <-- pd.resampler_agg r func ;;
   pd.reset_index a (Some "valor")) = Ok g ->
  exists f vs, pd.freq_of_string freq = Some f /\
    pd.columns g = ["_dt"; "valor"] /\
    let ts := utils.stamps (pd.column tmp "_dt") in
    map pd.cells (pd.rows g)
    = zip_with (fun k v => [Ts (pd.bin_label f k); v]) (pd.bin_range f ts) vs /\
    Forall2 (fun k v => utils.period_size f k ts = 0%nat ->
                        pd.reduce func [] = Ok v)
            (pd.bin_range f ts) vs.
Proof.
  intros Hrun.
  case_bind_as Hrun idx Hidx. case_bind_as Hrun s Hs.
  case_bind_as Hrun r Hr. case_bind_as Hrun a Ha.
  apply set_index_labels in Hidx as [Hlab Hname].
  assert (Hkeys : map fst (pd.items s) = pd.column tmp "_dt" /\
                  pd.iname s = Some "_dt").
  { unfold pd.getitem in Hs.
    destruct (pd.position y (pd.columns idx)); [| discriminate].
    injection Hs as <-. simpl. rewrite map_map. simpl.
    split; [exact Hlab | exact Hname]. }
  destruct Hkeys as [Hkeys Hin].
  unfold pd.resample_series in Hr. case_bind_as Hr bs Hbs. injection Hr as <-.
  apply resample_items_periods in Hbs as (f & Hf & ->).
  unfold pd.resampler_agg in Ha. simpl in Ha.
  case_bind_as Ha its Hits. injection Ha as <-.
  apply rmapM_values in Hits as [Hz Hall].
  apply reset_index_cells in Hrun as [Hcols Hcells].
  simpl in Hcols, Hcells. rewrite Hin in Hcols.
  exists f, (map snd its). split; [exact Hf |]. split; [exact Hcols |].
  rewrite Hkeys in *. simpl. split.
  - rewrite Hcells. rewrite Hz at 1.
    generalize (map snd its).
    generalize (pd.bin_range f (utils.stamps (pd.column tmp "_dt"))).
    induction l as [|k l IH]; intros [|v vs]; simpl; try reflexivity.
    f_equal. apply IH.
  - apply Forall2_fmap_l in Hall.
    eapply Forall2_impl; [exact Hall |].
    intros k v Hred Hz0. simpl in Hred.
    rewrite <- Hkeys, <- dated_fst in Hz0.
    rewrite (members_nil _ _ _ Hz0) in Hred. exact Hred.
Qed.


Lemma zip_with_map_r {A B C} (f : A -> B -> C) (g : A -> B) (l : list A) :
  zip_with f l (map g l) = map (fun a => f a (g a)) l.
Proof. induction l as [|a l IH]; simpl; [reflexivity | f_equal; exact IH]. Qed.

(** C5, as the code has it: the table [time_aggregate] returns has one row
    for every period from the one of the earliest timestamp to the one of
    the latest, the periods in which no row falls included.  When rows are
    counted the value of a period is its number of rows, so 0 for an empty
    one; otherwise the value of an empty period is the reduction of no
    value at all. *)
Theorem time_aggregate_fills_empty_periods `{Library} (df out : pd.DataFrame)
  (date_col : string) (y : option string) (how freq : string) :
  utils.time_aggregate df date_col y how freq = Ok out ->
  exists f vs, pd.freq_of_string freq = Some f /\
    let ts := utils.stamps (utils.dt_column df date_col) in
    let ks := pd.bin_range f ts in
    map pd.cells (pd.rows out)
    ≡ₚ zip_with (fun k v => [Ts (pd.bin_label f k); v]) ks vs /\
    Forall2 (fun k v =>
               if utils.counts_rows y how
               then v = Int (Z.of_nat (utils.period_size f k ts))
               else utils.period_size f k ts = 0%nat ->
                    pd.reduce (utils.how_func how) [] = Ok v) ks vs.
Proof.
  unfold utils.time_aggregate, utils.dt_column. intros Hrun.
  case_bind_as Hrun col Hcol. case_bind_as Hrun g Hg.
  case_bind_as Hrun sorted Hsort. injection Hrun as <-.
  apply sort_values_sorted in Hsort as (_ & _ & Hperm & _). simpl in Hperm.
  assert (Hout : map pd.cells (pd.rows (pd.reset_index_drop sorted))
                 ≡ₚ map pd.cells (pd.rows g)).
  { unfold pd.reset_index_drop; simpl.
    rewrite (map_imap _ pd.cells pd.cells) by reflexivity.
    apply Permutation_map, Hperm. }
  set (tmp := pd.setitem (pd.copy df) "_dt" (utils.ensure_datetime col)) in *.
  assert (Hcount : forall g0,
    (idx <-- pd.set_index tmp "_dt" ;;
     r <-- pd.resample_frame idx freq ;;
     pd.reset_index (pd.resampler_size r) (Some "valor")) = Ok g0 ->
    exists f vs, pd.freq_of_string freq = Some f /\
      map pd.cells (pd.rows g0)
      = zip_with (fun k v => [Ts (pd.bin_label f k); v])
          (pd.bin_range f (utils.stamps (pd.column tmp "_dt"))) vs /\
      Forall2 (fun k v => v = Int (Z.of_nat (utils.period_size f k
                                    (utils.stamps (pd.column tmp "_dt")))))
              (pd.bin_range f (utils.stamps (pd.column tmp "_dt"))) vs).
  { intros g0 Hg0. apply count_branch_spec in Hg0 as (f & Hf & _ & Hcells).
    exists f, (map (fun k => Int (Z.of_nat (utils.period_size f k
                        (utils.stamps (pd.column tmp "_dt")))))
                   (pd.bin_range f (utils.stamps (pd.column tmp "_dt")))).
    split; [exact Hf |]. split.
    - rewrite zip_with_map_r. exact Hcells.
    - apply Forall2_fmap_r, Forall_Forall2_diag, Forall_forall.
      intros k _. reflexivity. }
  destruct y as [y'|]; simpl.
  - destruct (String.eqb how "contagem").
    + destruct (Hcount g Hg) as (f & vs & Hf & Hcells & Hvs).
      exists f, vs. repeat split; [exact Hf | | exact Hvs].
      rewrite Hout, Hcells. reflexivity.
    + apply agg_branch_spec in Hg as (f & vs & Hf & _ & Hcells & Hvs).
      exists f, vs. repeat split; [exact Hf | | exact Hvs].
      rewrite Hout, Hcells. reflexivity.
  - destruct (Hcount g Hg) as (f & vs & Hf & Hcells & Hvs).
    exists f, vs. repeat split; [exact Hf | | exact Hvs].
    rewrite Hout, Hcells. reflexivity.
Qed.

Lemma time_aggregate_fills_empty_periods_witness :
  utils.time_aggregate (H := plain) examples.sales "when" None "contagem" "D"
  = Ok examples.sales_by_day /\
  exists f vs, pd.freq_of_string "D" = Some f /\
    let ts := utils.stamps (utils.dt_column (H := plain) examples.sales "when") in
    let ks := pd.bin_range f ts in
    map pd.cells (pd.rows examples.sales_by_day)
    ≡ₚ zip_with (fun k v => [Ts (pd.bin_label f k); v]) ks vs /\
    Forall2 (fun k v =>
               if utils.counts_rows None "contagem"
               then v = Int (Z.of_nat (utils.period_size f k ts))
               else utils.period_size f k ts = 0%nat ->
                    pd.reduce (utils.how_func "contagem") [] = Ok v) ks vs.
Proof.
  assert (Hr : utils.time_aggregate (H := plain) examples.sales "when" None
                 "contagem" "D" = Ok examples.sales_by_day)
    by (vm_compute; reflexivity).
  split; [exact Hr |].
  exact (time_aggregate_fills_empty_periods (H := plain) examples.sales
           examples.sales_by_day "when" None "contagem" "D" Hr).
Defined.

(** C5, as stated, fails: no row of [sales] falls on day 1, and the table
    returned has a row for day 1, with value 0. *)
Lemma time_aggregate_emits_empty_period :
  utils.time_aggregate (H := plain) examples.sales "when" None "contagem" "D"
  = Ok examples.sales_by_day /\
  utils.period_size pd.Day 1 (utils.stamps (pd.column examples.sales "when"))
  = 0%nat /\
  pd.mkRow (Int 1) [Ts (pd.bin_label pd.Day 1); Int 0]
  ∈ pd.rows examples.sales_by_day.
Proof.
  split; [vm_compute; reflexivity |]. split; [vm_compute; reflexivity |].
  unfold examples.sales_by_day; simpl. set_solver.
Qed.

(** ** Grouping *)

Lemma elem_of_unique (l : list cell) (k : cell) : k ∈ pd.unique l <-> k ∈ l.
Proof.
  induction l as [|a l IH]; simpl; [reflexivity |].
  rewrite !elem_of_cons, list_elem_of_filter, IH.
  destruct (decide (k = a)); tauto.
Qed.

Lemma NoDup_unique (l : list cell) : NoDup (pd.unique l).
Proof.
  induction l as [|a l IH]; simpl; constructor.
  - rewrite list_elem_of_filter. tauto.
  - apply NoDup_filter, IH.
Qed.

Lemma group_keys_perm (l : list cell) : pd.group_keys l ≡ₚ pd.unique l.
Proof. apply merge_sort_Permutation. Qed.

Lemma group_keys_sorted (l : list cell) : StronglySorted cell_le (pd.group_keys l).
Proof. apply StronglySorted_merge_sort; apply _. Qed.

Lemma NoDup_group_keys (l : list cell) : NoDup (pd.group_keys l).
Proof. rewrite group_keys_perm. apply NoDup_unique. Qed.

Lemma elem_of_group_keys (l : list cell) (k : cell) : k ∈ pd.group_keys l <-> k ∈ l.
Proof. rewrite group_keys_perm. apply elem_of_unique. Qed.

Lemma group_size_cons (k a : cell) (l : list cell) :
  pd.group_size k (a :: l)
  = ((if decide (a = k) then 1 else 0) + pd.group_size k l)%nat.
Proof.
  unfold pd.group_size. rewrite filter_cons.
  destruct (decide (a = k)); reflexivity.
Qed.

Lemma group_size_absent (k : cell) (l : list cell) :
  k ∉ l -> pd.group_size k l = 0%nat.
Proof.
  intros Hk. unfold pd.group_size.
  induction l as [|a l IH]; [reflexivity |].
  rewrite not_elem_of_cons in Hk. destruct Hk as [Hne Hk].
  rewrite filter_cons_False by congruence. apply IH, Hk.
Qed.

(** Splitting a sum over a duplicate-free list at one key. *)
Lemma sum_split (g : cell -> nat) (a : cell) (u : list cell) :
  NoDup u -> (a ∉ u -> g a = 0%nat) ->
  sum_list_with g u = (g a + sum_list_with g (filter (fun k => k ≠ a) u))%nat.
Proof.
  induction 1 as [|b u Hb Hu IH]; intros Ha; simpl.
  - rewrite Ha; [reflexivity | apply not_elem_of_nil].
  - destruct (decide (b = a)) as [->|Hne].
    + rewrite filter_cons_False by tauto.
      assert (Hf : filter (fun k => k ≠ a) u = u).
      { clear -Hb. induction u as [|c u IH]; [reflexivity |].
        rewrite not_elem_of_cons in Hb. destruct Hb as [Hc Hb].
        rewrite filter_cons_True by congruence. f_equal. apply IH, Hb. }
      rewrite Hf. reflexivity.
    + rewrite filter_cons_True by exact Hne. simpl.
      rewrite IH; [lia |]. intros Hau. apply Ha.
      rewrite not_elem_of_cons. split; [congruence | exact Hau].
Qed.

Lemma sum_list_with_ext_in (g h : cell -> nat) (u : list cell) :
  (forall k, k ∈ u -> g k = h k) -> sum_list_with g u = sum_list_with h u.
Proof.
  induction u as [|b u IH]; intros Hgh; simpl; [reflexivity |].
  rewrite Hgh by left. rewrite IH; [reflexivity |].
  intros k Hk. apply Hgh. right. exact Hk.
Qed.

Lemma sum_group_sizes_unique (l : list cell) :
  sum_list_with (fun k => pd.group_size k l) (pd.unique l) = length l.
Proof.
  induction l as [|a l IH]; [reflexivity |].
  simpl. rewrite group_size_cons. rewrite decide_True by reflexivity.
  simpl. f_equal. rewrite <- IH.
  rewrite (sum_split (fun k => pd.group_size k l) a (pd.unique l)).
  - f_equal. apply sum_list_with_ext_in. intros k Hk.
    apply list_elem_of_filter in Hk as [Hk _].
    rewrite group_size_cons. rewrite decide_False by congruence. reflexivity.
  - apply NoDup_unique.
  - rewrite elem_of_unique. apply group_size_absent.
Qed.

(** The sizes of the groups add up to the number of rows. *)
Lemma sum_group_sizes (l : list cell) :
  sum_list_with (fun k => pd.group_size k l) (pd.group_keys l) = length l.
Proof. rewrite group_keys_perm. apply sum_group_sizes_unique. Qed.

Lemma reset_index_ok (s : pd.Series) (n : option string) (g : pd.DataFrame) :
  pd.reset_index s n = Ok g ->
  default "index" (pd.iname s) ≠ default (default "0" (pd.name s)) n.
Proof. unfold pd.reset_index. destruct (decide _); [discriminate | auto]. Qed.

Lemma groupby_size_inv (df : pd.DataFrame) (x : string) (s : pd.Series) :
  pd.groupby_size df x = Ok s ->
  pd.name s = None /\ pd.iname s = Some x /\
  pd.items s = map (fun k => (k, Int (Z.of_nat (pd.group_size k (pd.column df x)))))
                   (pd.group_keys (pd.column df x)).
Proof.
  unfold pd.groupby_size, pd.column.
  destruct (pd.position x (pd.columns df)); [| discriminate].
  intros [= <-]. auto.
Qed.

Lemma groupby_agg_inv (df : pd.DataFrame) (x y func : string) (s : pd.Series) :
  pd.groupby_agg df x y func = Ok s ->
  pd.name s = Some y /\ pd.iname s = Some x /\
  map fst (pd.items s) = pd.group_keys (pd.column df x).
Proof.
  unfold pd.groupby_agg, pd.column.
  destruct (pd.position x (pd.columns df)); [| discriminate].
  destruct (pd.position y (pd.columns df)); [| discriminate].
  intros Hrun. case_bind_as Hrun its Hits. injection Hrun as <-. simpl.
  repeat split. apply rmapM_keys in Hits. rewrite Hits, map_id. reflexivity.
Qed.

Lemma aggregate_inv (df out : pd.DataFrame) (x : string) (y : option string)
  (how : string) :
  utils.aggregate df x y how = Ok out ->
  exists its,
    map fst its = pd.group_keys (pd.column df x) /\
    pd.columns out = ["x"; "valor"] /\
    map pd.cells (pd.rows out) = map (fun kv => [kv.1; kv.2]) its /\
    (utils.counts_rows y how = true ->
     map snd its = map (fun k => Int (Z.of_nat (pd.group_size k (pd.column df x))))
                       (pd.group_keys (pd.column df x))).
Proof.
  assert (Hcount : forall out,
    (s <-- pd.groupby_size df x ;;
     o <-- pd.reset_index s (Some "valor") ;;
     Ok (pd.rename o {[ x := "x" ]})) = Ok out ->
    exists its,
      map fst its = pd.group_keys (pd.column df x) /\
      pd.columns out = ["x"; "valor"] /\
      map pd.cells (pd.rows out) = map (fun kv => [kv.1; kv.2]) its /\
      map snd its = map (fun k => Int (Z.of_nat (pd.group_size k (pd.column df x))))
                        (pd.group_keys (pd.column df x))).
  { intros o Hrun. case_bind_as Hrun s Hs. case_bind_as Hrun g Hg.
    injection Hrun as <-.
    apply groupby_size_inv in Hs as (Hn & Hi & Hits).
    pose proof (reset_index_ok _ _ _ Hg) as Hne.
    apply reset_index_cells in Hg as [Hcols Hcells].
    rewrite Hi in Hcols, Hne. simpl in Hcols, Hne.
    exists (pd.items s). rewrite Hits at 1 3. rewrite !map_map. simpl.
    rewrite map_id. repeat split; [| exact Hcells].
    unfold pd.rename; simpl. rewrite Hcols; simpl.
    rewrite lookup_singleton_eq, lookup_singleton_ne by exact Hne.
    reflexivity. }
  unfold utils.aggregate. destruct y as [y'|]; simpl.
  - destruct (String.eqb how "contagem") eqn:Hhow.
    + intros Hrun. destruct (Hcount _ Hrun) as (its & ? & ? & ? & ?). eauto 10.
    + intros Hrun. case_bind_as Hrun s Hs. case_bind_as Hrun g Hg.
      injection Hrun as <-.
      apply groupby_agg_inv in Hs as (Hn & Hi & Hits).
      pose proof (reset_index_ok _ _ _ Hg) as Hne.
      apply reset_index_cells in Hg as [Hcols Hcells].
      rewrite Hi, Hn in Hcols, Hne. simpl in Hcols, Hne.
      exists (pd.items s). repeat split; [exact Hits | | exact Hcells | discriminate].
      unfold pd.rename; simpl. rewrite Hcols; simpl.
      rewrite lookup_insert_eq, lookup_insert_ne, lookup_singleton_eq by congruence.
      reflexivity.
  - intros Hrun. destruct (Hcount _ Hrun) as (its & ? & ? & ? & ?). eauto 10.
Qed.

Lemma column_x_first (out : pd.DataFrame) (c : string) (its : list (cell * cell)) :
  pd.columns out = ["x"; c] ->
  map pd.cells (pd.rows out) = map (fun kv => [kv.1; kv.2]) its ->
  pd.column out "x" = map fst its.
Proof.
  intros Hcols Hcells. unfold pd.column. rewrite Hcols. simpl.
  unfold pd.column_values, pd.cell_at.
  change (map (fun r => nth 0 (pd.cells r) NaN) (pd.rows out))
    with (map ((fun cs => nth 0 cs NaN) ∘ pd.cells) (pd.rows out)).
  rewrite <- (map_map pd.cells (fun cs => nth 0 cs NaN)), Hcells, map_map.
  reflexivity.
Qed.

(** C4, as the code has it: the keys of the table [aggregate] returns are
    the distinct values of the key column in ascending order, the missing
    key last, each once; the order in which the rows bring them plays no
    part. *)
Theorem aggregate_keys_ascending (df out : pd.DataFrame) (x : string)
  (y : option string) (how : string) :
  utils.aggregate df x y how = Ok out ->
  pd.column out "x" = pd.group_keys (pd.column df x) /\
  StronglySorted cell_le (pd.column out "x") /\
  NoDup (pd.column out "x") /\
  (forall k, k ∈ pd.column out "x" <-> k ∈ pd.column df x).
Proof.
  intros Hrun. apply aggregate_inv in Hrun as (its & Hkeys & Hcols & Hcells & _).
  rewrite (column_x_first _ _ _ Hcols Hcells), Hkeys.
  split; [reflexivity |]. split; [apply group_keys_sorted |].
  split; [apply NoDup_group_keys |]. intros k. apply elem_of_group_keys.
Qed.

Lemma position_elem_of (x : string) (l : list string) :
  x ∈ l -> exists j, pd.position x l = Some j.
Proof.
  induction l as [|c l IH]; simpl; [intros H; inversion H |].
  intros Hx. destruct (decide (x = c)); [eauto |].
  apply elem_of_cons in Hx as [?|Hx]; [congruence |].
  destruct (IH Hx) as [j ->]. simpl. eauto.
Qed.

Lemma column_length (df : pd.DataFrame) (x : string) :
  x ∈ pd.columns df -> length (pd.column df x) = pd.len df.
Proof.
  intros Hx. destruct (position_elem_of _ _ Hx) as [j Hj].
  unfold pd.column, pd.column_values, pd.len. rewrite Hj. apply length_map.
Qed.

(** X6: with a key column the table has, not called [valor], the counting
    [aggregate] returns one row per distinct key, its number of rows as
    [valor], and the counts add up to the number of rows of the table. *)
Lemma aggregate_counts (df : pd.DataFrame) (x : string) (y : option string)
  (how : string) :
  x ∈ pd.columns df -> x ≠ "valor" -> utils.counts_rows y how = true ->
  exists out, utils.aggregate df x y how = Ok out /\
    pd.columns out = ["x"; "valor"] /\
    map pd.cells (pd.rows out)
    = map (fun k => [k; Int (Z.of_nat (pd.group_size k (pd.column df x)))])
          (pd.group_keys (pd.column df x)) /\
    NoDup (pd.column out "x") /\
    (forall k, k ∈ pd.column out "x" <-> k ∈ pd.column df x) /\
    sum_list_with (fun k => pd.group_size k (pd.column df x)) (pd.column out "x")
    = pd.len df.
Proof.
  intros Hx Hne Hc.
  assert (Hok : exists out, utils.aggregate df x y how = Ok out).
  { destruct (position_elem_of _ _ Hx) as [j Hj].
    assert (Hrun : exists out,
      (s <-- pd.groupby_size df x ;;
       o <-- pd.reset_index s (Some "valor") ;;
       Ok (pd.rename o {[ x := "x" ]})) = Ok out).
    { unfold pd.groupby_size. rewrite Hj. simpl.
      unfold pd.reset_index. simpl. rewrite decide_False by exact Hne.
      simpl. eauto. }
    unfold utils.aggregate. destruct y; simpl in *; [rewrite Hc |]; exact Hrun. }
  destruct Hok as [out Hout]. exists out. split; [exact Hout |].
  apply aggregate_inv in Hout as (its & Hkeys & Hcols & Hcells & Hvals).
  specialize (Hvals Hc).
  pose proof (column_x_first _ _ _ Hcols Hcells) as Hk. rewrite Hkeys in Hk.
  split; [exact Hcols |]. split; [| rewrite Hk; split; [| split]].
  2: apply NoDup_group_keys.
  2: intros k; apply elem_of_group_keys.
  - rewrite Hcells. rewrite <- Hkeys in Hvals |- *.
    clear -Hvals. revert Hvals. generalize (pd.column df x). intros l.
    induction its as [|[k v] its IH]; simpl; [reflexivity |].
    intros [= -> Hv]. f_equal. apply IH, Hv.
  - rewrite sum_group_sizes. apply column_length, Hx.
Qed.

Lemma aggregate_keys_ascending_witness :
  utils.aggregate examples.orders "customer" None "contagem"
  = Ok examples.orders_by_customer /\
  pd.column examples.orders_by_customer "x"
  = pd.group_keys (pd.column examples.orders "customer") /\
  StronglySorted cell_le (pd.column examples.orders_by_customer "x") /\
  NoDup (pd.column examples.orders_by_customer "x") /\
  (forall k, k ∈ pd.column examples.orders_by_customer "x"
             <-> k ∈ pd.column examples.orders "customer").
Proof.
  assert (Hr : utils.aggregate examples.orders "customer" None "contagem"
               = Ok examples.orders_by_customer) by (vm_compute; reflexivity).
  split; [exact Hr |].
  exact (aggregate_keys_ascending examples.orders examples.orders_by_customer
           "customer" None "contagem" Hr).
Defined.

(** C4, as stated, fails: customer 2 is met first in [orders], and the
    table returned starts with customer 1, when counting and when
    summing. *)
Lemma aggregate_not_in_encounter_order :
  pd.unique (pd.column examples.orders "customer") = [Int 2; Int 1] /\
  (exists out, utils.aggregate examples.orders "customer" None "contagem" = Ok out /\
     pd.column out "x" = [Int 1; Int 2] /\
     pd.column out "x" <> pd.unique (pd.column examples.orders "customer")) /\
  (exists out, utils.aggregate examples.orders "customer" (Some "total") "soma"
               = Ok out /\
     pd.column out "x" = [Int 1; Int 2] /\
     pd.column out "x" <> pd.unique (pd.column examples.orders "customer")).
Proof.
  split; [vm_compute; reflexivity |]. split.
  - eexists. split; [vm_compute; reflexivity |].
    split; [vm_compute; reflexivity |]. vm_compute. discriminate.
  - eexists. split; [vm_compute; reflexivity |].
    split; [vm_compute; reflexivity |]. vm_compute. discriminate.
Qed.

(** C2 fails on a key column called [valor]: the counts are to be
    inserted under the name the key column already has. *)
Theorem aggregate_count_key_named_valor :
  utils.aggregate examples.prices "valor" None "contagem"
  = Raise (ValueError "cannot insert valor, already exists").
Proof. vm_compute. reflexivity. Qed.

(** ** Modes *)

Lemma how_func_unknown (how : string) :
  how ∉ utils.modes -> utils.how_func how = "sum".
Proof.
  unfold utils.modes. rewrite !not_elem_of_cons.
  intros (H1 & H2 & H3 & H4 & H5 & H6 & _).
  unfold utils.how_func, utils.how_map. simpl.
  rewrite !lookup_insert_ne by congruence. rewrite lookup_empty. reflexivity.
Qed.

Lemma how_func_soma : utils.how_func "soma" = "sum".
Proof. vm_compute. reflexivity. Qed.

(** ** Reading the semicolon file *)

(** C6, as stated, fails: the first combination tried is utf-8 with the
    comma, it parses the file, and the table read has one column. *)
Lemma semicolon_file_read_as_one_column :
  app.try_read_csv (H := plain) examples.csv = Ok examples.csv_one_column /\
  pd.shape examples.csv_one_column = (3%nat, 1%nat) /\
  pd.shape examples.csv_one_column <> (3%nat, 2%nat).
Proof.
  split; [vm_compute; reflexivity |]. split; [reflexivity | discriminate].
Qed.

(** C6, as the code has it: the file is read by the first combination,
    utf-8 with the comma, into one column [id;val] and three rows, in
    which there is no key [id] to aggregate on.  Parsed with utf-8 and the
    semicolon the same bytes give two columns and three rows, and
    [aggregate] of that table by [id], summing [val], gives the rows
    (1, 40) and (2, 20). *)
Theorem semicolon_file_scenario :
  read_csv (Library := plain) examples.csv "utf-8" "," = Ok examples.csv_one_column /\
  app.try_read_csv (H := plain) examples.csv = Ok examples.csv_one_column /\
  pd.shape examples.csv_one_column = (3%nat, 1%nat) /\
  utils.aggregate examples.csv_one_column "id" (Some "val") "soma"
  = Raise (KeyError "id") /\
  read_csv (Library := plain) examples.csv "utf-8" ";" = Ok examples.csv_two_columns /\
  pd.shape examples.csv_two_columns = (3%nat, 2%nat) /\
  utils.aggregate examples.csv_two_columns "id" (Some "val") "soma"
  = Ok examples.csv_totals /\
  map pd.cells (pd.rows examples.csv_totals) = [[Int 1; Int 40]; [Int 2; Int 20]].
Proof. repeat split; vm_compute; reflexivity. Qed.

(** ** Chart requests *)

Lemma library_error_not_request (e : exn) :
  viz.library_error e -> e ∉ viz.request_errors.
Proof.
  unfold viz.request_errors, viz.line_needs_y, viz.scatter_needs_y,
    viz.unknown_kind.
  intros He Hin. rewrite !elem_of_cons in Hin.
  destruct Hin as [->|[->|[->|Hin]]]; try discriminate He.
  inversion Hin.
Qed.

Lemma rmapM_raise {A B} (f : A -> result B) (l : list A) (e : exn) :
  pd.rmapM f l = Raise e -> exists a, a ∈ l /\ f a = Raise e.
Proof.
  induction l as [|a l IH]; simpl; [discriminate |].
  destruct (f a) as [b|e'] eqn:Hfa; simpl.
  - destruct (pd.rmapM f l) as [bs|e'']; simpl; [discriminate |].
    intros [= ->]. destruct (IH eq_refl) as (a' & Ha' & Hf).
    exists a'. split; [right; exact Ha' | exact Hf].
  - intros [= ->]. exists a. split; [left | exact Hfa].
Qed.

Lemma reduce_sum_raise (vs : list cell) (e : exn) :
  pd.reduce "sum" vs = Raise e -> viz.library_error e.
Proof.
  unfold pd.reduce. simpl.
  destruct (negb _); [intros [= <-]; exact I | discriminate].
Qed.

Lemma prefix_append (p s : string) : String.prefix p (p +:+ s) = true.
Proof.
  induction p as [|a p IH]; simpl.
  - destruct s; reflexivity.
  - destruct (ascii_dec a a); [exact IH | congruence].
Qed.

Lemma reset_index_raise (s : pd.Series) (n : option string) (e : exn) :
  pd.reset_index s n = Raise e -> viz.library_error e.
Proof.
  unfold pd.reset_index. destruct (decide _); [| discriminate].
  intros [= <-]. apply prefix_append.
Qed.

Lemma grouped_sum_raise (df : pd.DataFrame) (x y : string) (e : exn) :
  viz.grouped_sum df x y = Raise e -> viz.library_error e.
Proof.
  unfold viz.grouped_sum. destruct (pd.groupby_agg df x y "sum") as [s|e'] eqn:Hs;
    simpl.
  - apply reset_index_raise.
  - intros [= ->]. unfold pd.groupby_agg in Hs.
    destruct (pd.position x (pd.columns df)); [| injection Hs as <-; exact I].
    destruct (pd.position y (pd.columns df)); [| injection Hs as <-; exact I].
    destruct (pd.rmapM _ _) as [its|e''] eqn:Hits; simpl in Hs; [discriminate |].
    injection Hs as <-. apply rmapM_raise in Hits as (k & _ & Hk).
    destruct (pd.reduce "sum" _) as [v|e3] eqn:Hred; simpl in Hk; [discriminate |].
    injection Hk as <-. eapply reduce_sum_raise, Hred.
Qed.

Lemma presort_ok (df : pd.DataFrame) (aggregated : bool) :
  exists df',
    (if aggregated && pd.has_column df "x"
     then sx <-- pd.getitem df "x" ;;
          if pd.is_datetime64_any_dtype sx
          then s <-- pd.sort_values df "x" ;; Ok (pd.reset_index_drop s)
          else Ok df
     else Ok df) = Ok df'.
Proof.
  destruct (aggregated && pd.has_column df "x") eqn:Hc; [| eauto].
  apply andb_true_iff in Hc as [_ Hx]. unfold pd.has_column in Hx.
  apply bool_decide_eq_true in Hx. apply position_elem_of in Hx as [j Hj].
  unfold pd.getitem, pd.sort_values. rewrite Hj. simpl.
  destruct (pd.is_datetime64_any_dtype _); simpl; eauto.
Qed.

Lemma draw_request_errors (tipo : string) (df : pd.DataFrame) (x : string)
  (y color : option string) (aggregated : bool) :
  (tipo = "Scatter" -> y = None ->
   viz.draw tipo df x y color aggregated = Raise viz.scatter_needs_y) /\
  (tipo = "Linha" -> aggregated = false -> y = None ->
   viz.draw tipo df x y color aggregated = Raise viz.line_needs_y) /\
  (tipo ∉ viz.kinds ->
   viz.draw tipo df x y color aggregated = Raise viz.unknown_kind) /\
  (forall e, viz.draw tipo df x y color aggregated = Raise e ->
     e ∈ viz.request_errors ->
     (tipo = "Scatter" /\ y = None) \/
     (tipo = "Linha" /\ aggregated = false /\ y = None) \/
     tipo ∉ viz.kinds).
Proof.
  split; [intros -> ->; reflexivity |].
  split; [intros -> -> ->; reflexivity |].
  split.
  - unfold viz.kinds. rewrite !not_elem_of_cons.
    intros (H1 & H2 & H3 & H4 & H5 & _). unfold viz.draw.
    apply String.eqb_neq in H1, H2, H3, H4, H5.
    rewrite H1, H2, H3, H4, H5. reflexivity.
  - intros e Hrun He. unfold viz.draw in Hrun.
    destruct (String.eqb_spec tipo "Barras") as [->|H1].
    { exfalso. destruct aggregated; [discriminate |].
      destruct y as [y'|]; [| discriminate].
      destruct (viz.grouped_sum df x y') as [g|e'] eqn:Hg; simpl in Hrun;
        [discriminate |]. injection Hrun as ->.
      eapply library_error_not_request; [eapply grouped_sum_raise, Hg | exact He]. }
    destruct (String.eqb_spec tipo "Linha") as [->|H2].
    { destruct aggregated; [discriminate |].
      destruct y as [y'|]; [| right; left; auto]. exfalso.
      destruct (viz.grouped_sum df x y') as [g|e'] eqn:Hg; simpl in Hrun;
        [discriminate |]. injection Hrun as ->.
      eapply library_error_not_request; [eapply grouped_sum_raise, Hg | exact He]. }
    destruct (String.eqb_spec tipo "Pizza") as [->|H3].
    { exfalso. destruct aggregated; [discriminate |].
      destruct y as [y'|].
      - destruct (viz.grouped_sum df x y') as [g|e'] eqn:Hg; simpl in Hrun;
          [discriminate |]. injection Hrun as ->.
        eapply library_error_not_request; [eapply grouped_sum_raise, Hg | exact He].
      - unfold pd.getitem in Hrun.
        destruct (pd.position x (pd.columns df)); simpl in Hrun.
        + destruct (pd.reset_index _ _) as [g|e'] eqn:Hg; simpl in Hrun;
            [discriminate |]. injection Hrun as ->.
          eapply library_error_not_request; [eapply reset_index_raise, Hg | exact He].
        + injection Hrun as <-.
          apply (library_error_not_request (KeyError x) I He). }
    destruct (String.eqb_spec tipo "Histograma") as [->|H4]; [discriminate |].
    destruct (String.eqb_spec tipo "Scatter") as [->|H5].
    { destruct y; [discriminate | left; auto]. }
    right; right. unfold viz.kinds. rewrite !not_elem_of_cons.
    repeat split; try assumption. apply not_elem_of_nil.
Qed.

(** C7: [plot_generic] raises a chart-request error exactly when the
    kind is Scatter and [y] is absent, or the kind is Linha, the data is
    not aggregated and [y] is absent, or the kind is none of the five; each
    of the three cases raises, whatever the other arguments. *)
Theorem plot_generic_request_errors (tipo : string) (df : pd.DataFrame)
  (x : string) (y color : option string) (aggregated : bool) :
  (tipo = "Scatter" -> y = None ->
   viz.plot_generic tipo df x y color aggregated = Raise viz.scatter_needs_y) /\
  (tipo = "Linha" -> aggregated = false -> y = None ->
   viz.plot_generic tipo df x y color aggregated = Raise viz.line_needs_y) /\
  (tipo ∉ viz.kinds ->
   viz.plot_generic tipo df x y color aggregated = Raise viz.unknown_kind) /\
  ((exists e, viz.plot_generic tipo df x y color aggregated = Raise e /\
              e ∈ viz.request_errors) <->
   (tipo = "Scatter" /\ y = None) \/
   (tipo = "Linha" /\ aggregated = false /\ y = None) \/
   tipo ∉ viz.kinds).
Proof.
  unfold viz.plot_generic.
  destruct (presort_ok df aggregated) as [df' ->]. simpl.
  destruct (draw_request_errors tipo df' x y color aggregated)
    as (Hs & Hl & Hu & Hconv).
  split; [exact Hs |]. split; [exact Hl |]. split; [exact Hu |]. split.
  - intros (e & Hrun & He). eapply Hconv; eassumption.
  - unfold viz.request_errors.
    intros [[-> ->]|[(-> & -> & ->)|Hk]]; eexists; (split; [eauto |]); set_solver.
Qed.

(** ** Reading and cleaning *)

Lemma for_each_Some {A B} (l : list A) (body : A -> option B) (b : B) :
  for_each l body = Some b <->
  exists i a, l !! i = Some a /\ body a = Some b /\
    forall j a', (j < i)%nat -> l !! j = Some a' -> body a' = None.
Proof.
  induction l as [|a l IH]; simpl.
  - split; [discriminate | intros (i & a & Hi & _); destruct i; discriminate].
  - destruct (body a) as [b'|] eqn:Ha.
    + split.
      * intros [= ->]. exists 0%nat, a. repeat split; [exact Ha |].
        intros j a' Hj. lia.
      * intros ([|i] & a' & Hi & Hb & Hbefore).
        -- injection Hi as ->. congruence.
        -- specialize (Hbefore 0%nat a ltac:(lia) eq_refl). congruence.
    + rewrite IH. split.
      * intros (i & a' & Hi & Hb & Hbefore). exists (S i), a'.
        repeat split; [exact Hi | exact Hb |].
        intros [|j] a'' Hj Hl; simpl in Hl; [congruence |].
        eapply Hbefore; [| exact Hl]. lia.
      * intros ([|i] & a' & Hi & Hb & Hbefore).
        -- injection Hi as ->. congruence.
        -- exists i, a'. repeat split; [exact Hi | exact Hb |].
           intros j a'' Hj Hl. apply (Hbefore (S j) a''); [lia | exact Hl].
Qed.

Lemma for_each_None {A B} (l : list A) (body : A -> option B) :
  for_each l body = None <-> forall a, a ∈ l -> body a = None.
Proof.
  induction l as [|a l IH]; simpl.
  - split; [intros _ a Ha; inversion Ha | reflexivity].
  - destruct (body a) as [b|] eqn:Ha.
    + split; [discriminate |]. intros Hall.
      rewrite (Hall a) in Ha by left. discriminate.
    + rewrite IH. split.
      * intros Hall a' Ha'. apply elem_of_cons in Ha' as [->|Ha']; auto.
      * intros Hall a' Ha'. apply Hall. right. exact Ha'.
Qed.

Lemma loops_as_combinations {B} (body : string -> string -> option B) :
  for_each encodings (fun enc => for_each seps (fun sep => body enc sep))
  = for_each combinations (fun c => body c.1 c.2).
Proof.
  unfold encodings, seps, combinations. simpl.
  repeat match goal with
         | |- context [body ?e ?s] => destruct (body e s)
         end; reflexivity.
Qed.

Lemma combinations_order :
  combinations
  = [("utf-8", ","); ("utf-8", ";"); ("utf-8", String (ascii_of_nat 9) EmptyString);
     ("utf-8", "|"); ("latin-1", ","); ("latin-1", ";");
     ("latin-1", String (ascii_of_nat 9) EmptyString); ("latin-1", "|")].
Proof. reflexivity. Qed.

Lemma try_return_Some {A} (r : result A) (a : A) :
  try_return r = Some a <-> r = Ok a.
Proof. destruct r; simpl; split; congruence. Qed.

Lemma try_return_None {A} (r : result A) :
  try_return r = None <-> is_ok r = false.
Proof. destruct r; simpl; split; congruence. Qed.

(** X22: [try_read_csv] of [app.py] returns the table of the first
    combination of encoding and separator, in the order of the two loops,
    whose parse raises nothing; it raises exactly when the eight parses
    all raise, and then its own error and no other. *)
Lemma try_read_csv_first_success `{Library} (raw : list byte) :
  (forall df, app.try_read_csv raw = Ok df <->
     exists i enc sep, combinations !! i = Some (enc, sep) /\
       read_csv raw enc sep = Ok df /\
       forall j enc' sep', (j < i)%nat -> combinations !! j = Some (enc', sep') ->
                           is_ok (read_csv raw enc' sep') = false) /\
  (app.try_read_csv raw = Raise app.csv_unknown <->
     forall enc sep, (enc, sep) ∈ combinations ->
                     is_ok (read_csv raw enc sep) = false) /\
  (forall e, app.try_read_csv raw = Raise e -> e = app.csv_unknown).
Proof.
  unfold app.try_read_csv. rewrite loops_as_combinations.
  destruct (for_each combinations _) as [df0|] eqn:Hloop.
  - apply for_each_Some in Hloop as (i & [enc sep] & Hi & Hb & Hbefore).
    simpl in Hb. apply try_return_Some in Hb.
    split; [| split].
    + intros df. split.
      * intros [= <-]. exists i, enc, sep. repeat split; [exact Hi | exact Hb |].
        intros j enc' sep' Hj Hl. apply try_return_None.
        apply (Hbefore j (enc', sep') Hj Hl).
      * intros (i' & enc' & sep' & Hi' & Hb' & Hbefore').
        destruct (Nat.lt_trichotomy i i') as [Hlt|[->|Hgt]].
        -- specialize (Hbefore' i enc sep Hlt Hi). rewrite Hb in Hbefore'.
           discriminate.
        -- rewrite Hi in Hi'. injection Hi' as <- <-. congruence.
        -- specialize (Hbefore i' (enc', sep') Hgt Hi'). simpl in Hbefore.
           rewrite Hb' in Hbefore. discriminate.
    + split; [discriminate |]. intros Hall.
      specialize (Hall enc sep (list_elem_of_lookup_2 _ _ _ Hi)).
      rewrite Hb in Hall. discriminate.
    + discriminate.
  - pose proof (proj1 (for_each_None _ _) Hloop) as Hnone.
    split; [| split].
    + intros df. split; [discriminate |].
      intros (i & enc & sep & Hi & Hb & _).
      specialize (Hnone (enc, sep) (list_elem_of_lookup_2 _ _ _ Hi)).
      simpl in Hnone. rewrite Hb in Hnone. discriminate.
    + split; [| reflexivity]. intros _ enc sep Hin.
      apply try_return_None. apply (Hnone (enc, sep) Hin).
    + intros e [= <-]. reflexivity.
Qed.

Lemma imap_keys {A} (g : nat -> cell) (h : A -> cell) (l : list A) :
  map fst (imap (fun i c => (g i, h c)) l) = imap (fun i _ => g i) l.
Proof.
  revert g. induction l as [|c l IH]; intros g; simpl; [reflexivity |].
  f_equal. apply (IH (fun i => g (S i))).
Qed.

(** The index of a mask built from the labels is 0..n-1, whatever is
    done to its values. *)
Lemma mask_index (labels : list string) :
  pd.index (pd.invert (pd.str_match_prefix "Unnamed"
                         (pd.astype_str (pd.Series_of_labels labels))))
  = imap (fun i _ => Int (Z.of_nat i)) labels.
Proof.
  unfold pd.index, pd.invert, pd.str_match_prefix, pd.astype_str,
    pd.map_values, pd.Series_of_labels; simpl.
  rewrite !map_map; simpl.
  apply (imap_keys (fun i => Int (Z.of_nat i)) Str).
Qed.

Lemma position_text_in_range (c : string) (f : nat -> Z) (l : list string) :
  pd.position (Str c) (imap (fun i _ => Int (f i)) l) = None.
Proof.
  revert f. induction l as [|d l IH]; intros f; simpl; [reflexivity |].
  change (imap ((fun i _ => Int (f i)) ∘ S) l)
    with (imap (fun i (_ : string) => Int (f (S i))) l).
  rewrite (IH (fun i => f (S i))). reflexivity.
Qed.

Lemma loc_columns_unaligned (df : pd.DataFrame) (key : pd.Series) :
  pd.columns df <> [] ->
  pd.index key = imap (fun i _ => Int (Z.of_nat i)) (pd.columns df) ->
  pd.loc_columns df key = Raise (IndexingError pd.unalignable).
Proof.
  intros Hcols Hidx. unfold pd.loc_columns. rewrite Hidx.
  destruct (pd.columns df) as [|c l]; [congruence |].
  destruct (decide _) as [Heq|_]; [discriminate Heq |].
  change (map Str (c :: l)) with (Str c :: map Str l).
  cbn [forallb].
  rewrite (position_text_in_range c (fun i => Z.of_nat i) (c :: l)).
  reflexivity.
Qed.

(** C8 fails: on every table that has a column, [_clean] raises.  The
    mask it hands to [loc] is a Series indexed 0..n-1, which cannot be
    aligned with the column labels. *)
Theorem clean_raises_on_any_column (df : pd.DataFrame) :
  pd.columns df <> [] ->
  ingest._clean df = Raise (IndexingError pd.unalignable).
Proof.
  intros Hcols. unfold ingest._clean.
  rewrite loc_columns_unaligned; [reflexivity | |].
  - simpl. destruct (pd.columns df); [congruence | discriminate].
  - apply mask_index.
Qed.

Lemma select_all (n : nat) {A} (l : list A) :
  (length l <= n)%nat -> pd.select (replicate n true) l = l.
Proof.
  revert l. induction n as [|n IH]; intros [|a l]; simpl; try reflexivity; [lia |].
  intros Hl. f_equal. apply IH. lia.
Qed.

Lemma select_length {A} (mask : list bool) (l : list A) :
  (length (pd.select mask l) <= length (filter (fun b => b = true) mask))%nat.
Proof.
  revert l. induction mask as [|b mask IH]; intros [|a l]; simpl; try lia.
  destruct b; rewrite ?filter_cons_True, ?filter_cons_False by congruence;
    simpl; specialize (IH l); lia.
Qed.

Lemma select_by_test {A} (P : A -> bool) (l : list A) :
  pd.select (map P l) l = List.filter P l.
Proof.
  induction l as [|a l IH]; simpl; [reflexivity |].
  destruct (P a); rewrite IH; reflexivity.
Qed.

(** X23: the cleaning of the main block of [app.py], whose mask is a
    plain array, is idempotent: cleaning a cleaned table changes
    nothing. *)
Lemma drop_unnamed_idempotent (df : pd.DataFrame) :
  app.drop_unnamed (app.drop_unnamed df) = app.drop_unnamed df.
Proof.
  unfold app.drop_unnamed, pd.loc_columns_array, pd.take_columns. simpl.
  set (keep := fun c => negb (String.prefix "Unnamed" c)).
  rewrite (select_by_test keep (pd.columns df)).
  assert (Hall : map keep (List.filter keep (pd.columns df))
                 = replicate (length (List.filter keep (pd.columns df))) true).
  { induction (pd.columns df) as [|c l IH]; simpl; [reflexivity |].
    destruct (keep c) eqn:Hc; simpl; [rewrite Hc, IH; reflexivity | exact IH]. }
  rewrite Hall. f_equal.
  - apply select_all. lia.
  - rewrite map_map. simpl. apply map_ext. intros r. f_equal.
    apply select_all.
    etransitivity; [apply select_length |].
    clear. induction (pd.columns df) as [|c l IH]; simpl; [lia |].
    destruct (keep c) eqn:Hc; rewrite ?filter_cons_True, ?filter_cons_False by congruence;
      simpl; lia.
Qed.

(** With a parser that returns tables with at least one column, as any
    CSV parser does, the reader of [ingest.py] raises on every file: each
    parsed table is lost to the failure of [_clean] inside the [try]. *)
Lemma read_csv_of_ingest_always_raises `{Library} (f : UploadedFile) :
  (forall enc sep df, read_csv (drop (pos f) (content f)) enc sep = Ok df ->
                      pd.columns df <> []) ->
  (ingest._read_csv f).1 = Raise ingest.csv_not_detected.
Proof.
  intros Hcols. unfold ingest._read_csv, read. cbv beta iota zeta.
  rewrite (loops_as_combinations
             (fun enc sep => try_return (df <-- read_csv _ enc sep ;;
                                         ingest._clean df))).
  destruct (for_each combinations _) as [df|] eqn:Hloop; [| reflexivity].
  exfalso. apply for_each_Some in Hloop as (i & [enc sep] & _ & Hb & _).
  simpl in Hb. apply try_return_Some in Hb.
  destruct (read_csv _ enc sep) as [d|e] eqn:Hd; simpl in Hb; [| discriminate].
  unfold ingest._clean in Hb.
  rewrite loc_columns_unaligned in Hb; [discriminate | |].
  - simpl. specialize (Hcols _ _ _ Hd).
    destruct (pd.columns d); [congruence | discriminate].
  - apply mask_index.
Qed.

(** *** Runs on the store *)

Lemma lookup_new (st : heap.Store) (d : pd.DataFrame) :
  (st ++ [d]) !! length st = Some d.
Proof. apply list_lookup_middle. reflexivity. Qed.

Lemma assign_new (st : heap.Store) (d d' : pd.DataFrame) :
  <[length st := d']> (st ++ [d]) = st ++ [d'].
Proof.
  rewrite insert_app_r_alt by lia. rewrite Nat.sub_diag. reflexivity.
Qed.

Ltac run_heap :=
  unfold heap.bind, heap.deref, heap.lift, heap.new, heap.assign, heap.ret,
    heap.M, heap.Store, heap.ref in *;
  repeat (rewrite ?lookup_new, ?assign_new; cbn beta iota zeta).

Ltac heap_step :=
  first
    [ rewrite lookup_new
    | rewrite assign_new
    | progress cbn beta iota zeta
    | progress cbn [fst snd rbind]
    | match goal with
      | |- context [match ?r with Ok _ => _ | Raise _ => _ end] => destruct r
      end ].

Ltac heap_done :=
  repeat heap_step;
  repeat split;
  first [ reflexivity
        | repeat apply prefix_app_r; reflexivity
        | idtac ].

Lemma aggregate_on_store (st : heap.Store) (df : heap.ref) (d : pd.DataFrame)
  (x : string) (y : option string) (how : string) :
  st !! df = Some d ->
  heap.returned (heap.aggregate df x y how) st = utils.aggregate d x y how /\
  st `prefix_of` (heap.aggregate df x y how st).2.
Proof.
  intros Hd. unfold heap.returned, heap.aggregate, utils.aggregate.
  run_heap. rewrite Hd.
  destruct y as [y'|]; [destruct (String.eqb how "contagem") |]; heap_done.
Qed.

Lemma time_aggregate_on_store `{Library} (st : heap.Store) (df : heap.ref)
  (d : pd.DataFrame) (date_col : string) (y : option string)
  (how freq : string) :
  st !! df = Some d ->
  heap.returned (heap.time_aggregate df date_col y how freq) st
  = utils.time_aggregate d date_col y how freq /\
  st `prefix_of` (heap.time_aggregate df date_col y how freq st).2.
Proof.
  intros Hd. unfold heap.returned, heap.time_aggregate, utils.time_aggregate.
  run_heap. rewrite Hd.
  destruct (pd.getitem d date_col) as [col|e]; heap_done.
Qed.

Lemma plot_generic_on_store (st : heap.Store) (df : heap.ref)
  (d : pd.DataFrame) (tipo x : string) (y color : option string)
  (aggregated : bool) :
  st !! df = Some d ->
  (heap.plot_generic tipo df x y color aggregated st).1
  = viz.plot_generic tipo d x y color aggregated /\
  st `prefix_of` (heap.plot_generic tipo df x y color aggregated st).2.
Proof.
  intros Hd. unfold heap.plot_generic, viz.plot_generic.
  run_heap. rewrite Hd.
  destruct (aggregated && pd.has_column d "x");
    [destruct (pd.getitem d "x") as [sx|e]; cbn [rbind];
     [destruct (pd.is_datetime64_any_dtype sx) |] |];
    repeat heap_step; rewrite ?Hd; heap_done.
Qed.

Lemma readers_on_store (st : heap.Store) (df : heap.ref) (d : pd.DataFrame) :
  st !! df = Some d ->
  heap.infer_types df st = (Ok (utils.infer_types d), st) /\
  heap.basic_stats df st = (Ok (utils.basic_stats d), st).
Proof.
  intros Hd. unfold heap.infer_types, heap.basic_stats. run_heap.
  rewrite Hd. split; reflexivity.
Qed.

Lemma clean_on_store (st : heap.Store) (df : heap.ref) (d : pd.DataFrame) :
  st !! df = Some d ->
  heap.returned (heap._clean df) st = ingest._clean d /\
  (heap._clean df st).2 !! df
  = Some (pd.set_columns d (map pd.strip (pd.columns d))) /\
  (forall r, r <> df -> (r < length st)%nat ->
             (heap._clean df st).2 !! r = st !! r).
Proof.
  intros Hd. pose proof (lookup_lt_Some _ _ _ Hd) as Hlt.
  unfold heap.returned, heap._clean, ingest._clean.
  run_heap. rewrite Hd.
  rewrite list_lookup_insert_eq by exact Hlt. cbn beta iota zeta.
  set (d' := pd.set_columns d (map pd.strip (pd.columns d))).
  set (st' := <[df := d']> st).
  assert (Hst' : st' !! df = Some d') by (apply list_lookup_insert_eq, Hlt).
  assert (Hlen : length st' = length st) by apply length_insert.
  assert (Hother : forall r, r <> df -> st' !! r = st !! r).
  { intros r Hr. apply list_lookup_insert_ne. congruence. }
  destruct (pd.loc_columns d' _) as [kept|e]; repeat heap_step.
  - split; [reflexivity |]. split.
    + rewrite !lookup_app_l by (rewrite ?length_app; simpl; lia). exact Hst'.
    + intros r Hr Hrl.
      rewrite !lookup_app_l by (rewrite ?length_app; simpl; lia).
      apply Hother, Hr.
  - split; [reflexivity |]. split; [exact Hst' |].
    intros r Hr _. apply Hother, Hr.
Qed.

Lemma clean_raises_on_any_column_witness :
  pd.columns examples.small_table <> [] /\
  ingest._clean examples.small_table = Raise (IndexingError pd.unalignable).
Proof.
  assert (Hc : pd.columns examples.small_table <> []) by (simpl; discriminate).
  split; [exact Hc |].
  exact (clean_raises_on_any_column examples.small_table Hc).
Defined.

(** C1 fails for the reader of [ingest.py]: the first combination parses
    the file, and the reader raises all the same; the reader of [app.py]
    returns the parsed table. *)
Theorem ingest_read_csv_rejects_parsed_file :
  read_csv (Library := plain) examples.small_csv "utf-8" ","
  = Ok examples.small_table /\
  (ingest._read_csv (H := plain) (mkFile "small.csv" examples.small_csv 0)).1
  = Raise ingest.csv_not_detected /\
  app.try_read_csv (H := plain) examples.small_csv = Ok examples.small_table.
Proof. repeat split; vm_compute; reflexivity. Qed.

Lemma prefix_untouched (st st' : heap.Store) :
  st `prefix_of` st' -> heap.untouched st st'.
Proof. intros Hp r o Hr. eapply prefix_lookup_Some; eassumption. Qed.

(** C9, as the code has it: [infer_types], [basic_stats], [aggregate],
    [time_aggregate] and [plot_generic] leave every table of the store,
    their argument included, as it was, and build their results as new
    objects.  [_clean] assigns the stripped labels to the table it is
    given: after the call the argument has the stripped labels, with its
    index and rows as before, and the other tables are as they were. *)
Theorem stages_and_their_argument `{Library} (st : heap.Store)
  (df : heap.ref) (d : pd.DataFrame) (tipo x date_col how freq : string)
  (y color : option string) (aggregated : bool) :
  st !! df = Some d ->
  (heap.infer_types df st).2 = st /\
  (heap.basic_stats df st).2 = st /\
  heap.untouched st (heap.aggregate df x y how st).2 /\
  heap.untouched st (heap.time_aggregate df date_col y how freq st).2 /\
  heap.untouched st (heap.plot_generic tipo df x y color aggregated st).2 /\
  (heap._clean df st).2 !! df
  = Some (pd.set_columns d (map pd.strip (pd.columns d))) /\
  (forall r, r <> df -> (r < length st)%nat ->
             (heap._clean df st).2 !! r = st !! r).
Proof.
  intros Hd.
  destruct (readers_on_store st df d Hd) as [-> ->].
  destruct (aggregate_on_store st df d x y how Hd) as [_ Ha].
  destruct (time_aggregate_on_store st df d date_col y how freq Hd) as [_ Ht].
  destruct (plot_generic_on_store st df d tipo x y color aggregated Hd)
    as [_ Hp].
  destruct (clean_on_store st df d Hd) as (_ & Hc & Ho).
  repeat split; auto using prefix_untouched.
Qed.

Lemma stages_and_their_argument_witness :
  [examples.padded] !! 0%nat = Some examples.padded /\
  heap.untouched [examples.padded]
    (heap.aggregate 0%nat " a " None "contagem" [examples.padded]).2 /\
  (heap._clean 0%nat [examples.padded]).2 !! 0%nat
  = Some (pd.set_columns examples.padded
            (map pd.strip (pd.columns examples.padded))).
Proof.
  assert (Hd : [examples.padded] !! 0%nat = Some examples.padded)
    by reflexivity.
  split; [exact Hd |].
  pose proof (stages_and_their_argument (H := plain) [examples.padded] 0%nat
                examples.padded "Barras" " a " " a " "contagem" "D" None None
                false Hd) as (_ & _ & Ha & _ & _ & Hc & _).
  split; [exact Ha | exact Hc].
Defined.

(** C9, as stated, fails for [_clean]: the table it is given has the
    label [" a "] before the call and the label ["a"] after it. *)
Lemma clean_changes_its_argument :
  pd.columns <$> [examples.padded] !! 0%nat = Some [" a "] /\
  pd.columns <$> (heap._clean 0%nat [examples.padded]).2 !! 0%nat = Some ["a"] /\
  (heap._clean 0%nat [examples.padded]).2 !! 0%nat
  <> [examples.padded] !! 0%nat.
Proof.
  split; [reflexivity |]. split; [vm_compute; reflexivity |].
  vm_compute. discriminate.
Qed.

(** ** When the time aggregation returns *)

Lemma position_lt {A} `{EqDecision A} (x : A) (l : list A) (j : nat) :
  pd.position x l = Some j -> (j < length l)%nat.
Proof.
  revert j. induction l as [|a l IH]; simpl; [discriminate |].
  intros j. destruct (decide (x = a)); [intros [= <-]; lia |].
  destruct (pd.position x l) as [k|]; [| discriminate].
  intros [= <-]. specialize (IH k eq_refl). lia.
Qed.

Lemma position_app_new {A} `{EqDecision A} (x : A) (l : list A) :
  pd.position x l = None -> pd.position x (l ++ [x]) = Some (length l).
Proof.
  induction l as [|a l IH]; simpl.
  - rewrite decide_True by reflexivity. reflexivity.
  - destruct (decide (x = a)); [discriminate |].
    destruct (pd.position x l); [discriminate |].
    intros _. rewrite IH by reflexivity. reflexivity.
Qed.

Lemma dtype_datetime (vs : list cell) :
  pd.dtype_of vs = pd.datetime64 -> Forall pd.stamp_or_missing vs.
Proof.
  unfold pd.dtype_of. destruct vs as [|v vs]; [discriminate |].
  repeat match goal with
         | |- context [if forallb ?p ?l then _ else _] =>
             destruct (forallb p l) eqn:?; try discriminate
         end.
  intros _. apply Forall_forall. intros c Hc.
  match goal with
  | H : forallb _ _ = true |- _ =>
      rewrite forallb_forall in H; specialize (H c (proj1 (list_elem_of_In _ _) Hc))
  end.
  destruct c; simpl in *; try discriminate; exact I.
Qed.

Lemma ensure_datetime_stamps `{Library} (col : pd.Series) :
  Forall pd.stamp_or_missing (pd.values (utils.ensure_datetime col)).
Proof.
  unfold utils.ensure_datetime, pd.is_datetime64_any_dtype.
  destruct (pd.dtype_of (pd.values col)) eqn:Hd; try
    (unfold to_datetime, pd.values; simpl; apply Forall_forall; intros c Hc;
     apply list_elem_of_fmap in Hc as ([k v] & -> & Hkv);
     apply elem_of_zip_r in Hkv; apply list_elem_of_fmap in Hkv as (o & -> & _);
     destruct o; exact I).
  apply dtype_datetime, Hd.
Qed.

Lemma zip_rows_column (P : cell -> Prop) (f : pd.Row -> cell -> pd.Row)
  (j : nat) (rs : list pd.Row) (vs : list cell) :
  P NaN -> Forall P vs ->
  Forall (fun r => forall v, pd.cell_at j (f r v) = v) rs ->
  Forall P (map (pd.cell_at j) (pd.zip_rows f rs vs)).
Proof.
  intros Hnan. revert vs. induction rs as [|r rs IH]; intros vs Hvs Hf; simpl.
  - constructor.
  - inversion Hf as [|? ? Hr Hrs]; subst. constructor.
    + rewrite Hr. destruct vs as [|v vs']; simpl; [exact Hnan |].
      inversion Hvs; assumption.
    + apply IH; [| exact Hrs]. destruct vs as [|v vs']; simpl; [constructor |].
      inversion Hvs; assumption.
Qed.

Lemma setitem_column (P : cell -> Prop) (df : pd.DataFrame) (x : string)
  (s : pd.Series) :
  pd.well_formed df -> P NaN -> Forall P (pd.values s) ->
  x ∈ pd.columns (pd.setitem df x s) /\
  Forall P (pd.column (pd.setitem df x s) x).
Proof.
  intros Hwf Hnan Hs. unfold pd.setitem, pd.column.
  destruct (pd.position x (pd.columns df)) as [j|] eqn:Hj; simpl.
  - rewrite Hj. split.
    + clear -Hj. revert j Hj. induction (pd.columns df) as [|c l IH]; simpl;
        [discriminate |]. intros j. destruct (decide (x = c)) as [->|]; [left |].
      destruct (pd.position x l); [| discriminate]. intros _. right. eauto.
    + apply zip_rows_column; [exact Hnan | exact Hs |].
      apply position_lt in Hj. eapply Forall_impl; [exact Hwf |].
      intros r Hr v. unfold pd.cell_at; simpl.
      simpl in Hr.
      rewrite (nth_lookup _ _ NaN), list_lookup_insert_eq by lia. reflexivity.
  - rewrite position_app_new by exact Hj. split; [set_solver |].
    apply zip_rows_column; [exact Hnan | exact Hs |].
    eapply Forall_impl; [exact Hwf |].
    intros r Hr v. unfold pd.cell_at; simpl. simpl in Hr.
    rewrite <- Hr, (nth_lookup _ _ NaN), list_lookup_middle by reflexivity.
    reflexivity.
Qed.

Lemma zip_rows_length (f : pd.Row -> cell -> pd.Row) (rs : list pd.Row)
  (vs : list cell) : length (pd.zip_rows f rs vs) = length rs.
Proof.
  revert vs. induction rs as [|r rs IH]; intros vs; simpl; [reflexivity |].
  f_equal. apply IH.
Qed.

Lemma is_datetime_index_labels {A} (its : list (cell * A)) :
  Forall pd.stamp_or_missing (map fst its) -> pd.is_datetime_index its = true.
Proof.
  intros Hall. unfold pd.is_datetime_index. apply forallb_forall.
  intros [c a] Hin. rewrite Forall_forall in Hall.
  specialize (Hall c). simpl.
  assert (Hc : c ∈ map fst its).
  { apply list_elem_of_In. apply in_map_iff. exists (c, a). auto. }
  specialize (Hall Hc). destruct c; simpl in *; tauto.
Qed.

Lemma resample_items_returns {A} (freq : string) (its : list (cell * A)) :
  freq ∈ ["D"; "W"; "M"; "Q"; "Y"] ->
  Forall pd.stamp_or_missing (map fst its) ->
  its = [] \/ utils.stamps (map fst its) <> [] ->
  exists bs, pd.resample_items freq its = Ok bs.
Proof.
  intros Hfreq Hall Hst. unfold pd.resample_items.
  assert (Hf : exists f, pd.freq_of_string freq = Some f).
  { rewrite !elem_of_cons in Hfreq.
    destruct Hfreq as [->|[->|[->|[->|[->|Hf]]]]]; [eauto .. | inversion Hf]. }
  destruct Hf as [f ->].
  rewrite (is_datetime_index_labels its Hall). cbn [negb].
  destruct its as [|it its]; [eexists; reflexivity |].
  destruct Hst as [Hnil|Hst]; [discriminate |].
  rewrite <- dated_fst in Hst.
  destruct (pd.dated (it :: its)) as [|d ds]; [contradiction |].
  eexists; reflexivity.
Qed.

Lemma count_branch_returns (tmp : pd.DataFrame) (freq : string) :
  "_dt" ∈ pd.columns tmp ->
  Forall pd.stamp_or_missing (pd.column tmp "_dt") ->
  freq ∈ ["D"; "W"; "M"; "Q"; "Y"] ->
  pd.rows tmp = [] \/ utils.stamps (pd.column tmp "_dt") <> [] ->
  exists g,
    (idx <-- pd.set_index tmp "_dt" ;;
     r <-- pd.resample_frame idx freq ;;
     pd.reset_index (pd.resampler_size r) (Some "valor")) = Ok g /\
    pd.columns g = ["_dt"; "valor"].
Proof.
  intros Hin Hall Hfreq Hst.
  destruct (pd.set_index tmp "_dt") as [idx|e] eqn:Hidx.
  2: { apply position_elem_of in Hin as [j Hj]. unfold pd.set_index in Hidx.
       rewrite Hj in Hidx. discriminate. }
  pose proof (set_index_labels _ _ _ Hidx) as [Hlab Hname].
  cbn [rbind]. unfold pd.resample_frame.
  destruct (resample_items_returns freq
              (map (fun r => (pd.label r, r)) (pd.rows idx))) as [bs ->].
  - exact Hfreq.
  - rewrite map_map. simpl. rewrite <- Hlab in Hall. exact Hall.
  - rewrite map_map. simpl. rewrite <- Hlab in Hst.
    destruct Hst as [Hnil|Hst]; [left | right; exact Hst].
    unfold pd.set_index in Hidx.
    destruct (pd.position "_dt" (pd.columns tmp)); [| discriminate].
    injection Hidx as <-. simpl. rewrite Hnil. reflexivity.
  - cbn [rbind]. unfold pd.reset_index, pd.resampler_size. simpl.
    rewrite Hname. simpl. eexists. split; reflexivity.
Qed.

(** X10: on a rectangular table with a date column, one of the five
    frequencies and at least one readable date (or no row at all), the
    counting [time_aggregate] returns a table. *)
Lemma time_aggregate_returns `{Library} (df : pd.DataFrame)
  (date_col : string) (y : option string) (how freq : string) :
  pd.well_formed df -> date_col ∈ pd.columns df ->
  freq ∈ ["D"; "W"; "M"; "Q"; "Y"] ->
  utils.counts_rows y how = true ->
  pd.rows df = [] \/ utils.stamps (utils.dt_column df date_col) <> [] ->
  exists out, utils.time_aggregate df date_col y how freq = Ok out.
Proof.
  intros Hwf Hdate Hfreq Hcount Hstamps.
  unfold utils.time_aggregate, utils.dt_column, pd.copy in *.
  apply position_elem_of in Hdate as [jd Hjd].
  unfold pd.getitem in *. rewrite Hjd in *. cbn [rbind].
  set (col := {| pd.name := Some date_col; pd.iname := pd.index_name df;
                 pd.items := map (fun r => (pd.label r, pd.cell_at jd r))
                                 (pd.rows df) |}) in *.
  set (tmp := pd.setitem df "_dt" (utils.ensure_datetime col)) in *.
  destruct (setitem_column pd.stamp_or_missing df "_dt" (utils.ensure_datetime col)
              Hwf I (ensure_datetime_stamps col)) as [Hin Hall].
  fold tmp in Hin, Hall.
  destruct (count_branch_returns tmp freq Hin Hall Hfreq) as (g & Hg & Hcols).
  { destruct Hstamps as [Hnil|Hst]; [left | right; exact Hst].
    unfold tmp, pd.setitem.
    destruct (pd.position "_dt" (pd.columns df)); simpl; rewrite Hnil;
      reflexivity. }
  assert (Hend : exists out,
    (sorted <-- pd.sort_values (pd.rename g {[ "_dt" := "x" ]}) "x" ;;
     Ok (pd.reset_index_drop sorted)) = Ok out).
  { unfold pd.sort_values, pd.rename. simpl. rewrite Hcols. simpl.
    eexists. reflexivity. }
  destruct y as [y'|]; simpl in Hcount; [rewrite Hcount |];
    rewrite Hg; exact Hend.
Qed.

(** The value an empty period gets from each reduction. *)
Lemma reduce_nothing :
  pd.reduce "sum" [] = Ok (Int 0) /\
  pd.reduce "mean" [] = Ok NaN /\
  pd.reduce "median" [] = Ok NaN /\
  pd.reduce "max" [] = Ok NaN /\
  pd.reduce "min" [] = Ok NaN /\
  pd.reduce "count" [] = Ok (Int 0).
Proof. repeat split; reflexivity. Qed.

(** ** Column types and statistics *)

Lemma List_filter_stdpp {A} (P : A -> bool) (l : list A) :
  List.filter P l = filter (fun a => P a = true) l.
Proof.
  induction l as [|a l IH]; simpl; [reflexivity |].
  destruct (P a) eqn:Ha.
  - rewrite filter_cons_True by exact Ha. f_equal. exact IH.
  - rewrite filter_cons_False by congruence. exact IH.
Qed.

Lemma List_filter_ext_in {A} (P Q : A -> bool) (l : list A) :
  (forall a, a ∈ l -> P a = Q a) -> List.filter P l = List.filter Q l.
Proof.
  induction l as [|a l IH]; intros Hpq; simpl; [reflexivity |].
  rewrite (Hpq a) by left. rewrite IH; [reflexivity |].
  intros b Hb. apply Hpq. right. exact Hb.
Qed.

(** The second list of [infer_types] holds the columns that fail the
    test of the first. *)
Lemma text_columns (P : string -> bool) (l : list string) :
  List.filter (fun c => negb (bool_decide (c ∈ List.filter P l))) l
  = List.filter (fun c => negb (P c)) l.
Proof.
  apply List_filter_ext_in. intros c Hc. f_equal.
  rewrite List_filter_stdpp.
  destruct (P c) eqn:Hp.
  - apply bool_decide_eq_true. apply list_elem_of_filter. auto.
  - apply bool_decide_eq_false. rewrite list_elem_of_filter. intros [Hp' _].
    congruence.
Qed.

(** X1: [infer_types] splits the columns in two.  Every column is numeric
    or text and none is both; the two lists together are the columns,
    each as often as the table has it; and each list keeps the columns in
    the order of the table.  A column is numeric exactly when its type
    is. *)
Theorem infer_types_partition (df : pd.DataFrame) :
  let t := utils.infer_types df in
  utils.numeric t ++ utils.text t ≡ₚ pd.columns df /\
  (forall c, c ∈ utils.numeric t -> c ∉ utils.text t) /\
  utils.numeric t `sublist_of` pd.columns df /\
  utils.text t `sublist_of` pd.columns df /\
  (forall c, c ∈ utils.numeric t
             <-> c ∈ pd.columns df /\ utils.column_is_numeric df c = true) /\
  (forall c, c ∈ utils.text t
             <-> c ∈ pd.columns df /\ utils.column_is_numeric df c = false).
Proof.
  unfold utils.infer_types; simpl.
  rewrite text_columns, !List_filter_stdpp.
  set (P := utils.column_is_numeric df).
  assert (Hneg : forall l : list string,
             filter (fun c => negb (P c) = true) l
             = filter (fun c => ~ (P c = true)) l).
  { intros l. apply list_filter_iff. intros c. destruct (P c); simpl; split;
      congruence. }
  rewrite Hneg.
  split; [apply filter_app_complement |].
  split; [intros c; rewrite !list_elem_of_filter; tauto |].
  split; [apply sublist_filter |]. split; [apply sublist_filter |].
  split; intros c; rewrite list_elem_of_filter; [tauto |].
  destruct (P c); split; intros [? ?]; split; congruence.
Qed.

Lemma length_remove_dups_cons {A} `{EqDecision A} (a : A) (l : list A) :
  length (remove_dups (a :: l))
  = S (length (remove_dups (filter (fun b => b ≠ a) l))).
Proof.
  assert (Hperm : remove_dups (a :: l)
                  ≡ₚ a :: remove_dups (filter (fun b => b ≠ a) l)).
  { apply NoDup_Permutation.
    - apply NoDup_remove_dups.
    - constructor; [| apply NoDup_remove_dups].
      rewrite elem_of_remove_dups, list_elem_of_filter. tauto.
    - intros b. rewrite elem_of_remove_dups, !elem_of_cons,
        elem_of_remove_dups, list_elem_of_filter.
      destruct (decide (b = a)); tauto. }
  rewrite Hperm. reflexivity.
Qed.

Lemma length_remove_dups_le {A} `{EqDecision A} (l : list A) :
  (length (remove_dups l) <= length l)%nat.
Proof.
  induction l as [|a l IH]; simpl; [lia |].
  destruct (decide_rel elem_of a l); simpl; lia.
Qed.

(** The rows [duplicated] marks, for any rows already seen. *)
Lemma duplicated_count (seen : list (list cell)) (rs : list pd.Row) :
  (length (List.filter id (utils.duplicated_rows seen rs))
   + length (remove_dups (filter (fun cs => cs ∉ seen) (map pd.cells rs)))
   = length rs)%nat.
Proof.
  revert seen. induction rs as [|r rs IH]; intros seen; simpl; [reflexivity |].
  specialize (IH (pd.cells r :: seen)).
  assert (Hf : filter (fun cs => cs ∉ pd.cells r :: seen) (map pd.cells rs)
               = filter (fun cs => cs ≠ pd.cells r)
                   (filter (fun cs => cs ∉ seen) (map pd.cells rs))).
  { rewrite list_filter_filter. apply list_filter_iff. intros cs.
    rewrite not_elem_of_cons. tauto. }
  destruct (decide (pd.cells r ∈ seen)) as [Hin|Hout].
  - rewrite bool_decide_eq_true_2 by exact Hin. simpl.
    rewrite filter_cons_False by tauto.
    assert (Hsame : filter (fun cs => cs ∉ pd.cells r :: seen) (map pd.cells rs)
                    = filter (fun cs => cs ∉ seen) (map pd.cells rs)).
    { apply list_filter_iff. intros cs. rewrite not_elem_of_cons.
      split; [tauto |]. intros Hcs. split; [congruence | exact Hcs]. }
    rewrite <- Hsame. lia.
  - rewrite bool_decide_eq_false_2 by exact Hout. simpl.
    rewrite filter_cons_True by exact Hout.
    rewrite length_remove_dups_cons, <- Hf. lia.
Qed.

(** X2: on a table with at least one column, the number of duplicates
    [basic_stats] reports and the number of distinct rows add up to the
    number of rows: a row counts as a duplicate when an earlier row has
    the same cells.  So the count is 0 exactly when no two rows are
    equal, and it is below the number of rows of a table that has any.
    On a table without columns the count is 0. *)
Theorem basic_stats_duplicates (df : pd.DataFrame) :
  let dup := utils.duplicates (utils.basic_stats df) in
  let distinct := length (remove_dups (map pd.cells (pd.rows df))) in
  (pd.columns df = [] -> dup = 0%Z) /\
  (pd.columns df <> [] ->
   (dup + Z.of_nat distinct = Z.of_nat (pd.len df))%Z /\
   (dup = 0%Z <-> NoDup (map pd.cells (pd.rows df))) /\
   (pd.rows df <> [] -> (0 <= dup < Z.of_nat (pd.len df))%Z)).
Proof.
  cbv zeta. unfold utils.basic_stats, utils.duplicated, pd.len; simpl.
  split; [intros ->; reflexivity |]. intros Hcols.
  destruct (pd.columns df) as [|c0 cols]; [contradiction |]. clear Hcols.
  pose proof (duplicated_count [] (pd.rows df)) as Hc.
  assert (Hall : forall l : list (list cell), filter (fun cs => cs ∉ []) l = l).
  { induction l as [|cs l IH]; [reflexivity |].
    rewrite filter_cons_True by apply not_elem_of_nil. f_equal. exact IH. }
  rewrite Hall in Hc.
  split; [lia |]. split.
  - split.
    + intros Hz.
      assert (Hlen : length (remove_dups (map pd.cells (pd.rows df)))
                     = length (map pd.cells (pd.rows df))).
      { rewrite length_map. lia. }
      clear -Hlen. revert Hlen.
      induction (map pd.cells (pd.rows df)) as [|cs l IH]; [constructor |].
      simpl. destruct (decide_rel elem_of cs l) as [Hin|Hout].
      * intros Hlen. pose proof (length_remove_dups_le l). lia.
      * simpl. intros [= Hlen]. constructor; [exact Hout | apply IH, Hlen].
    + intros Hnd.
      assert (Hid : remove_dups (map pd.cells (pd.rows df))
                    = map pd.cells (pd.rows df)).
      { clear -Hnd. induction Hnd as [|cs l Hout Hnd IH]; [reflexivity |].
        simpl. destruct (decide_rel elem_of cs l); [contradiction |].
        f_equal. exact IH. }
      rewrite Hid, length_map in Hc. lia.
  - intros Hne. destruct (pd.rows df) as [|r rs] eqn:Hr; [contradiction |].
    assert (Hpos : (0 < length (remove_dups (map pd.cells (r :: rs))))%nat).
    { destruct (remove_dups (map pd.cells (r :: rs))) as [|c l] eqn:Hd;
        [| simpl; lia].
      assert (Hin : pd.cells r ∈ remove_dups (map pd.cells (r :: rs))).
      { apply elem_of_remove_dups. left. }
      rewrite Hd in Hin. inversion Hin. }
    simpl in *. lia.
Qed.

(** ** Frequency tables *)

#[global] Instance count_ge_total : Total pd.count_ge.
Proof. intros a b. unfold pd.count_ge. apply Qle_bool_total. Qed.

#[global] Instance count_ge_trans : Transitive pd.count_ge.
Proof.
  intros a b c Hab Hbc. unfold pd.count_ge in *.
  eapply Qle_bool_trans; eassumption.
Qed.

Lemma getitem_values (df : pd.DataFrame) (c : string) :
  c ∈ pd.columns df ->
  exists s, pd.getitem df c = Ok s /\ pd.values s = pd.column df c /\
            pd.name s = Some c.
Proof.
  intros Hc. destruct (position_elem_of _ _ Hc) as [j Hj].
  unfold pd.getitem, pd.column, pd.column_values, pd.values. rewrite Hj.
  eexists. split; [reflexivity |]. simpl. rewrite map_map. auto.
Qed.

Lemma group_size_pos (k : cell) (l : list cell) :
  k ∈ l -> (1 <= pd.group_size k l <= length l)%nat.
Proof.
  intros Hk. unfold pd.group_size. split; [| apply length_filter].
  induction l as [|a l IH]; [inversion Hk |].
  destruct (decide (a = k)) as [->|Hne].
  - rewrite filter_cons_True by reflexivity. simpl. lia.
  - rewrite filter_cons_False by exact Hne. apply IH.
    apply elem_of_cons in Hk as [?|?]; [congruence | assumption].
Qed.

Lemma StronglySorted_take {A} (R : relation A) (n : nat) (l : list A) :
  StronglySorted R l -> StronglySorted R (take n l).
Proof.
  intros Hs. rewrite <- (take_drop n l) in Hs.
  apply StronglySorted_app in Hs. tauto.
Qed.

Lemma map_sublist {A B} (f : A -> B) (l k : list A) :
  l `sublist_of` k -> map f l `sublist_of` map f k.
Proof. induction 1; simpl; constructor; assumption. Qed.

(** The entries of [s.value_counts(dropna=False)]: one for each distinct
    value, with its number of occurrences, the larger counts first. *)
Lemma value_counts_items (s : pd.Series) :
  pd.items (pd.value_counts s)
  ≡ₚ map (fun k => (k, Int (Z.of_nat (pd.group_size k (pd.values s)))))
         (pd.unique (pd.values s)) /\
  StronglySorted pd.count_ge (pd.items (pd.value_counts s)) /\
  NoDup (map fst (pd.items (pd.value_counts s))).
Proof.
  unfold pd.value_counts; simpl.
  assert (Hp := merge_sort_Permutation pd.count_ge
            (map (fun k => (k, Int (Z.of_nat (pd.group_size k (pd.values s)))))
                 (pd.unique (pd.values s)))).
  split; [exact Hp |]. split; [apply StronglySorted_merge_sort; apply _ |].
  rewrite Hp, map_map. simpl. rewrite map_id. apply NoDup_unique.
Qed.

Lemma group_size_texts (s : string) (vs : list cell) :
  pd.group_size (Str s) (map (fun c => Str (pd.str_of_cell c)) vs)
  = length (filter (fun c => pd.str_of_cell c = s) vs).
Proof.
  unfold pd.group_size. induction vs as [|v vs IH]; [reflexivity |].
  simpl. destruct (decide (pd.str_of_cell v = s)) as [Heq|Hne].
  - rewrite !filter_cons_True by congruence. simpl. f_equal. exact IH.
  - rewrite !filter_cons_False by congruence. exact IH.
Qed.

(** X3: the top categories of [basic_stats] are kept for the first ten
    text columns, in their order.  For each there are at most ten
    entries, the larger counts first, no text twice; an entry is a text
    the column holds (once written as text) with the number of rows that
    hold it, which is at least 1. *)
Theorem basic_stats_top_categories (df : pd.DataFrame) :
  let top := utils.top_categories (utils.basic_stats df) in
  map fst top = take 10 (utils.text (utils.infer_types df)) /\
  Forall (fun cv =>
            (length (pd.items cv.2) <= 10)%nat /\
            NoDup (pd.index cv.2) /\
            StronglySorted pd.count_ge (pd.items cv.2) /\
            Forall (fun kv => exists s n,
                      kv = (Str s, Int (Z.of_nat n)) /\
                      n = length (filter (fun c => pd.str_of_cell c = s)
                                         (pd.column df cv.1)) /\
                      (1 <= n)%nat)
                   (pd.items cv.2)) top.
Proof.
  cbv zeta. unfold utils.basic_stats, utils.infer_types; simpl.
  set (cat := List.filter _ (pd.columns df)).
  assert (Hsub : forall c, c ∈ take 10 cat -> c ∈ pd.columns df).
  { intros c Hc. apply (fun H => elem_of_sublist _ _ _ H (sublist_take cat 10)) in Hc.
    unfold cat in Hc. rewrite List_filter_stdpp in Hc.
    apply list_elem_of_filter in Hc. tauto. }
  induction (take 10 cat) as [|c l IH]; simpl; [split; constructor |].
  destruct (getitem_values df c) as (s & Hs & Hv & _); [apply Hsub; left |].
  rewrite Hs. simpl.
  destruct IH as [IH1 IH2]; [intros c' Hc'; apply Hsub; right; exact Hc' |].
  split; [f_equal; exact IH1 |]. constructor; [| exact IH2]. simpl.
  destruct (value_counts_items (pd.astype_str s)) as (Hp & Hsorted & Hnd).
  split; [rewrite length_take; lia |].
  split; [unfold pd.index; simpl; 
          apply (sublist_NoDup _ (map fst (pd.items (pd.value_counts (pd.astype_str s)))));
          [exact Hnd | apply (map_sublist fst), sublist_take] |].
  split; [apply StronglySorted_take, Hsorted |].
  apply Forall_forall. intros kv Hkv.
  apply (fun H => elem_of_sublist _ _ _ H (sublist_take _ 10)) in Hkv.
  rewrite Hp in Hkv. apply list_elem_of_fmap in Hkv as (k & -> & Hk).
  apply (proj1 (elem_of_unique _ _)) in Hk.
  assert (Hvals : pd.values (pd.astype_str s)
                  = map (fun c => Str (pd.str_of_cell c)) (pd.column df c)).
  { rewrite <- Hv. unfold pd.astype_str, pd.map_values, pd.values; simpl.
    rewrite !map_map. reflexivity. }
  rewrite Hvals in *.
  pose proof (group_size_pos _ _ Hk) as [Hpos _].
  apply list_elem_of_fmap in Hk as (v & -> & Hv').
  exists (pd.str_of_cell v), (pd.group_size (Str (pd.str_of_cell v))
            (map (fun c => Str (pd.str_of_cell c)) (pd.column df c))).
  split; [reflexivity |]. split; [apply group_size_texts | exact Hpos].
Qed.

(** ** Detecting the date columns *)

Lemma fold_left_append_filter {A} (P : A -> bool) (l acc : list A) :
  fold_left (fun acc c => if P c then acc ++ [c] else acc) l acc
  = acc ++ List.filter P l.
Proof.
  revert acc. induction l as [|c l IH]; intros acc; simpl.
  - rewrite app_nil_r. reflexivity.
  - rewrite IH. destruct (P c); [| reflexivity].
    rewrite <- app_assoc. reflexivity.
Qed.

Lemma by_dtype_filter (df : pd.DataFrame) :
  utils.by_dtype df
  = List.filter (utils.column_is_datetime df) (pd.columns df).
Proof.
  unfold utils.by_dtype.
  apply (fold_left_append_filter (utils.column_is_datetime df) _ []).
Qed.

(** The second loop, over any list of columns: what it adds to the
    candidates. *)
Lemma by_name_elem_of (h p : string -> bool) (l cand : list string) (c : string) :
  c ∈ fold_left (fun cand c =>
                   if h c && negb (bool_decide (c ∈ cand))
                   then if p c then cand ++ [c] else cand
                   else cand) l cand
  <-> c ∈ cand \/ (c ∈ l /\ h c = true /\ p c = true).
Proof.
  revert cand. induction l as [|a l IH]; intros cand; simpl.
  - split; [auto |]. intros [H|(H & _)]; [exact H | inversion H].
  - rewrite IH. clear IH. rewrite elem_of_cons.
    destruct (h a) eqn:Hh; simpl.
    + destruct (bool_decide (a ∈ cand)) eqn:Hin; simpl.
      * apply bool_decide_eq_true in Hin. split; [tauto |].
        intros [H|([->|H] & Hc & Hp)]; tauto.
      * destruct (p a) eqn:Hp.
        -- rewrite elem_of_app, list_elem_of_singleton. split; [| tauto].
           intros [[H| ->]|H]; tauto.
        -- split; [tauto |]. intros [H|([->|H] & Hc & Hp')]; try tauto.
           congruence.
    + split; [tauto |]. intros [H|([->|H] & Hc & Hp')]; try tauto. congruence.
Qed.

Lemma by_name_exact (h p D : string -> bool) (l cand : list string) :
  NoDup l -> (forall c, c ∈ l -> (c ∈ cand <-> D c = true)) ->
  fold_left (fun cand c =>
               if h c && negb (bool_decide (c ∈ cand))
               then if p c then cand ++ [c] else cand
               else cand) l cand
  = cand ++ List.filter (fun c => h c && negb (D c) && p c) l.
Proof.
  intros Hnd. revert cand. induction Hnd as [|a l Ha Hnd IH]; intros cand HD; simpl.
  - rewrite app_nil_r. reflexivity.
  - assert (Hin : bool_decide (a ∈ cand) = D a).
    { destruct (D a) eqn:Hd.
      - apply bool_decide_eq_true, HD; [left | exact Hd].
      - apply bool_decide_eq_false. rewrite HD by left. congruence. }
    rewrite Hin.
    destruct (h a && negb (D a)) eqn:Hc; simpl.
    + destruct (p a) eqn:Hp.
      * rewrite IH.
        -- rewrite <- app_assoc. reflexivity.
        -- intros c Hcl. rewrite elem_of_app, list_elem_of_singleton.
           rewrite <- (HD c) by (right; exact Hcl).
           split; [| tauto]. intros [H| ->]; [exact H | contradiction].
      * apply IH. intros c Hcl. apply HD. right. exact Hcl.
    + apply IH. intros c Hcl. apply HD. right. exact Hcl.
Qed.

(** The third loop: [seen] holds the columns already put out. *)
Lemma dedupe_loop (l : list string) (seen : gset string) (out : list string) :
  (forall c, c ∈ seen <-> c ∈ out) -> NoDup out ->
  let r := (fold_left (fun '(seen, out) c =>
                         if bool_decide (c ∈ seen) then (seen, out)
                         else ({[ c ]} ∪ seen, out ++ [c]))
                      l (seen, out)).2 in
  NoDup r /\ (forall c, c ∈ r <-> c ∈ out \/ c ∈ l) /\
  (NoDup l -> (forall c, c ∈ l -> c ∉ out) -> r = out ++ l).
Proof.
  revert seen out. induction l as [|a l IH]; intros seen out Hseen Hnd; simpl.
  - split; [exact Hnd |]. split.
    + intros c. split; [auto |]. intros [H|H]; [exact H | inversion H].
    + intros _ _. rewrite app_nil_r. reflexivity.
  - destruct (bool_decide (a ∈ seen)) eqn:Ha.
    + apply bool_decide_eq_true in Ha.
      destruct (IH seen out Hseen Hnd) as (H1 & H2 & H3).
      split; [exact H1 |]. split.
      * intros c. rewrite H2, elem_of_cons. split; [tauto |].
        intros [H|[->|H]]; [tauto | left; apply Hseen, Ha | tauto].
      * intros _ Hout. exfalso. apply (Hout a); [left | apply Hseen, Ha].
    + apply bool_decide_eq_false in Ha.
      destruct (IH ({[ a ]} ∪ seen) (out ++ [a])) as (H1 & H2 & H3).
      * intros c. rewrite elem_of_union, elem_of_singleton, elem_of_app,
          list_elem_of_singleton, Hseen. tauto.
      * apply NoDup_app. split; [exact Hnd |]. split; [| apply NoDup_singleton].
        intros c Hc Hc'. apply list_elem_of_singleton in Hc' as ->.
        apply Ha, Hseen, Hc.
      * split; [exact H1 |]. split.
        -- intros c. rewrite H2, elem_of_app, list_elem_of_singleton,
             elem_of_cons. tauto.
        -- intros Hl Hout. apply NoDup_cons in Hl as [Hal Hl].
           rewrite H3; [rewrite <- app_assoc; reflexivity | exact Hl |].
           intros c Hc. rewrite elem_of_app, list_elem_of_singleton.
           intros [H| ->]; [| contradiction].
           apply (Hout c); [right; exact Hc | exact H].
Qed.

Lemma dedupe_spec (l : list string) :
  NoDup (utils.dedupe l) /\ (forall c, c ∈ utils.dedupe l <-> c ∈ l) /\
  (NoDup l -> utils.dedupe l = l).
Proof.
  destruct (dedupe_loop l ∅ []) as (H1 & H2 & H3).
  - intros c. rewrite elem_of_empty. split; [tauto | intros H; inversion H].
  - constructor.
  - split; [exact H1 |]. split.
    + intros c. unfold utils.dedupe. rewrite H2. split; [| tauto].
      intros [H|H]; [inversion H | exact H].
    + intros Hl. apply H3; [exact Hl |]. intros c _ H. inversion H.
Qed.

(** X4: [detect_datetime_cols] returns no column twice.  A column is
    returned exactly when it is a column of the table that is typed as
    dates, or is named like a date and accepted by the probe of the date
    parser.  When the labels of the table are distinct, the columns typed
    as dates come first and the ones found by name after them, each group
    in the order of the table. *)
Theorem detect_datetime_cols_spec (parses : pd.Series -> bool)
  (df : pd.DataFrame) :
  let out := utils.detect_datetime_cols parses df in
  NoDup out /\
  (forall c, c ∈ out <->
     c ∈ pd.columns df /\
     (utils.column_is_datetime df c = true \/
      (utils.hinted c = true /\ utils.probe parses df c = true))) /\
  (NoDup (pd.columns df) ->
   out = List.filter (utils.column_is_datetime df) (pd.columns df)
         ++ List.filter (fun c => utils.hinted c
                                  && negb (utils.column_is_datetime df c)
                                  && utils.probe parses df c)
                        (pd.columns df)).
Proof.
  cbv zeta. unfold utils.detect_datetime_cols.
  destruct (dedupe_spec (utils.by_name parses df (utils.by_dtype df)))
    as (Hnd & Hin & Hid).
  split; [exact Hnd |]. split.
  - intros c. rewrite Hin. unfold utils.by_name.
    rewrite (by_name_elem_of utils.hinted (utils.probe parses df)).
    rewrite by_dtype_filter, List_filter_stdpp, list_elem_of_filter. tauto.
  - intros Hcols.
    assert (Hexact : utils.by_name parses df (utils.by_dtype df)
              = List.filter (utils.column_is_datetime df) (pd.columns df)
                ++ List.filter (fun c => utils.hinted c
                                  && negb (utils.column_is_datetime df c)
                                  && utils.probe parses df c) (pd.columns df)).
    { unfold utils.by_name. rewrite by_dtype_filter.
      apply (by_name_exact utils.hinted (utils.probe parses df)
               (utils.column_is_datetime df)); [exact Hcols |].
      intros c Hc. rewrite List_filter_stdpp, list_elem_of_filter. tauto. }
    rewrite Hid; [exact Hexact |]. rewrite Hexact, !List_filter_stdpp.
    apply NoDup_app. split; [apply NoDup_filter, Hcols |].
    split; [| apply NoDup_filter, Hcols].
    intros c. rewrite !list_elem_of_filter. intros [Hd _] [Hn _].
    rewrite Hd in Hn. simpl in Hn. rewrite andb_false_r in Hn. discriminate.
Qed.

(** ** Totals of an aggregation *)

Lemma position_None (x : string) (l : list string) :
  x ∉ l -> pd.position x l = None.
Proof.
  induction l as [|c l IH]; simpl; [reflexivity |].
  rewrite not_elem_of_cons. intros [Hne Hx].
  rewrite decide_False by exact Hne. rewrite IH by exact Hx. reflexivity.
Qed.

Lemma two_columns (out : pd.DataFrame) (a b : string) (its : list (cell * cell)) :
  pd.columns out = [a; b] -> a <> b ->
  map pd.cells (pd.rows out) = map (fun kv => [kv.1; kv.2]) its ->
  pd.column out a = map fst its /\ pd.column out b = map snd its.
Proof.
  intros Hcols Hne Hcells. unfold pd.column. rewrite Hcols. simpl.
  rewrite decide_True by reflexivity.
  rewrite decide_False by congruence. rewrite decide_True by reflexivity. simpl.
  unfold pd.column_values, pd.cell_at. split.
  - change (map (fun r => nth 0 (pd.cells r) NaN) (pd.rows out))
      with (map ((fun cs => nth 0 cs NaN) ∘ pd.cells) (pd.rows out)).
    rewrite <- (map_map pd.cells (fun cs => nth 0 cs NaN)), Hcells, map_map.
    reflexivity.
  - change (map (fun r => nth 1 (pd.cells r) NaN) (pd.rows out))
      with (map ((fun cs => nth 1 cs NaN) ∘ pd.cells) (pd.rows out)).
    rewrite <- (map_map pd.cells (fun cs => nth 1 cs NaN)), Hcells, map_map.
    reflexivity.
Qed.

Lemma Zsum_app (l k : list cell) : pd.Zsum (l ++ k) = (pd.Zsum l + pd.Zsum k)%Z.
Proof. induction l as [|a l IH]; simpl; [reflexivity | rewrite IH; lia]. Qed.

Lemma Zsum_perm (l k : list cell) : l ≡ₚ k -> pd.Zsum l = pd.Zsum k.
Proof. induction 1; simpl; lia. Qed.

Lemma Zsum_ext_in {A} (g h : A -> Z) (u : list A) :
  (forall k, k ∈ u -> g k = h k) ->
  pd.Zsum (map (fun k => Int (g k)) u) = pd.Zsum (map (fun k => Int (h k)) u).
Proof.
  induction u as [|b u IH]; intros Hgh; simpl; [reflexivity |].
  rewrite Hgh by left. rewrite IH; [reflexivity |].
  intros k Hk. apply Hgh. right. exact Hk.
Qed.

(** Splitting a sum of integers over a duplicate-free list at one key. *)
Lemma Zsum_split {A} `{EqDecision A} (g : A -> Z) (a : A) (u : list A) :
  NoDup u -> (a ∉ u -> g a = 0%Z) ->
  pd.Zsum (map (fun k => Int (g k)) u)
  = (g a + pd.Zsum (map (fun k => Int (g k)) (filter (fun k => k ≠ a) u)))%Z.
Proof.
  induction 1 as [|b u Hb Hu IH]; intros Ha; simpl.
  - rewrite Ha; [reflexivity | apply not_elem_of_nil].
  - destruct (decide (b = a)) as [->|Hne].
    + rewrite filter_cons_False by tauto.
      assert (Hf : filter (fun k => k ≠ a) u = u).
      { clear -Hb. induction u as [|c u IH]; [reflexivity |].
        rewrite not_elem_of_cons in Hb. destruct Hb as [Hc Hb].
        rewrite filter_cons_True by congruence. f_equal. apply IH, Hb. }
      rewrite Hf. reflexivity.
    + rewrite filter_cons_True by exact Hne. simpl.
      rewrite IH; [lia |]. intros Hau. apply Ha.
      rewrite not_elem_of_cons. split; [congruence | exact Hau].
Qed.

(** The sums of the groups add up to the sum of the column. *)
Lemma Zsum_groups_unique (key val : pd.Row -> cell) (rs : list pd.Row) :
  pd.Zsum (map (fun k => Int (pd.Zsum (map val
                                 (filter (fun r => key r = k) rs))))
               (pd.unique (map key rs)))
  = pd.Zsum (map val rs).
Proof.
  induction rs as [|r rs IH]; [reflexivity |].
  cbn [map pd.unique pd.Zsum fold_right pd.int_of].
  rewrite filter_cons_True by reflexivity. cbn [map pd.Zsum fold_right pd.int_of].
  fold (pd.Zsum (map val (filter (fun r0 => key r0 = key r) rs))).
  fold (pd.Zsum (map val rs)).
  rewrite <- IH.
  rewrite (Zsum_split (fun k => pd.Zsum (map val (filter (fun r0 => key r0 = k) rs)))
             (key r) (pd.unique (map key rs))).
  - rewrite <- Z.add_assoc. f_equal. f_equal.
    match goal with
    | |- fold_right _ _ ?l = _ => change (fold_right _ _ l) with (pd.Zsum l)
    end.
    apply Zsum_ext_in. intros k Hk.
    apply list_elem_of_filter in Hk as [Hk _].
    rewrite filter_cons_False by congruence. reflexivity.
  - apply NoDup_unique.
  - rewrite elem_of_unique. intros Hout.
    assert (Hnil : filter (fun r0 => key r0 = key r) rs = []).
    { clear -Hout. induction rs as [|r0 rs IH]; [reflexivity |].
      simpl in Hout. rewrite not_elem_of_cons in Hout. destruct Hout as [Hne Hout].
      rewrite filter_cons_False by congruence. apply IH, Hout. }
    rewrite Hnil. reflexivity.
Qed.

(** *** Sums that do not wrap *)

Lemma int64_wrap_small (z : Z) :
  (- pd.int64_max - 1 <= z <= pd.int64_max)%Z -> pd.int64_wrap z = z.
Proof.
  unfold pd.int64_wrap, pd.int64_max. intros Hz.
  rewrite Z.mod_small by lia. lia.
Qed.

Lemma Zsum_abs_le (l : list cell) : (Z.abs (pd.Zsum l) <= pd.abs_sum l)%Z.
Proof.
  induction l as [|c l IH]; [simpl; lia |].
  change (pd.Zsum (c :: l)) with (pd.int_of c + pd.Zsum l)%Z.
  change (pd.abs_sum (c :: l)) with (Z.abs (pd.int_of c) + pd.abs_sum l)%Z.
  lia.
Qed.

Lemma abs_sum_sublist (l k : list cell) :
  l `sublist_of` k -> (pd.abs_sum l <= pd.abs_sum k)%Z.
Proof.
  induction 1 as [|c l k _ IH|c l k _ IH].
  - simpl. lia.
  - change (pd.abs_sum (c :: l)) with (Z.abs (pd.int_of c) + pd.abs_sum l)%Z.
    change (pd.abs_sum (c :: k)) with (Z.abs (pd.int_of c) + pd.abs_sum k)%Z.
    lia.
  - change (pd.abs_sum (c :: k)) with (Z.abs (pd.int_of c) + pd.abs_sum k)%Z.
    lia.
Qed.

(** Below the bound, the sum of any part of a column is the exact one. *)
Lemma Zsum_no_wrap (l k : list cell) :
  l `sublist_of` k -> (pd.abs_sum k <= pd.int64_max)%Z ->
  pd.int64_wrap (pd.Zsum l) = pd.Zsum l.
Proof.
  intros Hsub Hk. apply int64_wrap_small.
  pose proof (Zsum_abs_le l). pose proof (abs_sum_sublist l k Hsub). lia.
Qed.

(** Whole numbers and missing values: what a column of integers holds. *)
Lemma reduce_sum_integers (vs : list cell) :
  Forall (fun c => pd.is_integer c = true \/ c = NaN) vs ->
  pd.reduce "sum" vs = Ok (Int (pd.int64_wrap (pd.Zsum vs))).
Proof.
  intros Hall. unfold pd.reduce. simpl.
  assert (Hint : forallb pd.is_integer (List.filter (fun c => negb (isna c)) vs)
                 = true /\
                 pd.Zsum (List.filter (fun c => negb (isna c)) vs) = pd.Zsum vs).
  { induction Hall as [|c l Hc Hl [IH1 IH2]]; simpl; [auto |].
    destruct Hc as [Hc| ->]; [| simpl; auto].
    destruct c; simpl in *; try discriminate; rewrite IH1, IH2; auto. }
  destruct Hint as [Hint Hsum].
  assert (Hnum : forallb is_number (List.filter (fun c => negb (isna c)) vs) = true).
  { rewrite forallb_forall in Hint |- *. intros c Hc. specialize (Hint c Hc).
    destruct c; simpl in *; congruence. }
  rewrite Hnum. simpl. unfold pd.reduce_sum. rewrite Hint, Hsum. reflexivity.
Qed.

Lemma rmapM_map_ok {A B} (f : A -> result B) (g : A -> B) (l : list A) :
  (forall a, a ∈ l -> f a = Ok (g a)) -> pd.rmapM f l = Ok (map g l).
Proof.
  induction l as [|a l IH]; intros Hf; simpl; [reflexivity |].
  rewrite (Hf a) by left. simpl. rewrite IH; [reflexivity |].
  intros b Hb. apply Hf. right. exact Hb.
Qed.

(** The sums per key of a column of whole numbers, below the bound: the
    grouping returns, with the exact sum of every group. *)
Lemma groupby_sum_exact (df : pd.DataFrame) (x y : string) (j i : nat) :
  pd.position x (pd.columns df) = Some j ->
  pd.position y (pd.columns df) = Some i ->
  Forall (fun c => pd.is_integer c = true \/ c = NaN) (pd.column df y) ->
  (pd.abs_sum (pd.column df y) <= pd.int64_max)%Z ->
  pd.groupby_agg df x y "sum"
  = Ok {| pd.name := Some y; pd.iname := Some x;
          pd.items :=
            map (fun k => (k, Int (pd.Zsum (map (pd.cell_at i)
                                   (filter (fun r => pd.cell_at j r = k)
                                           (pd.rows df))))))
                (pd.group_keys (pd.column_values df j)) |}.
Proof.
  intros Hj Hi Hall Hbound. unfold pd.groupby_agg. rewrite Hj, Hi.
  unfold pd.column in Hall, Hbound. rewrite Hi in Hall, Hbound.
  unfold pd.column_values in Hall, Hbound.
  rewrite (rmapM_map_ok _
             (fun k => (k, Int (pd.Zsum (map (pd.cell_at i)
                                   (filter (fun r => pd.cell_at j r = k)
                                           (pd.rows df))))))).
  - reflexivity.
  - intros k _.
    assert (Hsub : map (pd.cell_at i)
                     (filter (fun r => pd.cell_at j r = k) (pd.rows df))
                   `sublist_of` map (pd.cell_at i) (pd.rows df))
      by apply map_sublist, sublist_filter.
    rewrite reduce_sum_integers.
    + simpl. rewrite (Zsum_no_wrap _ _ Hsub Hbound). reflexivity.
    + apply Forall_forall. intros c Hc. rewrite Forall_forall in Hall.
      apply Hall. eapply elem_of_sublist; eassumption.
Qed.

Lemma groupby_sum_total (df : pd.DataFrame) (x y : string) (s : pd.Series) :
  Forall (fun c => pd.is_integer c = true \/ c = NaN) (pd.column df y) ->
  (pd.abs_sum (pd.column df y) <= pd.int64_max)%Z ->
  pd.groupby_agg df x y "sum" = Ok s ->
  map fst (pd.items s) = pd.group_keys (pd.column df x) /\
  Forall (fun c => exists z, c = Int z) (pd.values s) /\
  pd.Zsum (pd.values s) = pd.Zsum (pd.column df y).
Proof.
  intros Hall Hbound Hrun.
  pose proof (groupby_agg_inv _ _ _ _ _ Hrun) as (_ & _ & Hkeys).
  split; [exact Hkeys |].
  destruct (pd.position x (pd.columns df)) as [j|] eqn:Hj.
  2: { unfold pd.groupby_agg in Hrun. rewrite Hj in Hrun. discriminate. }
  destruct (pd.position y (pd.columns df)) as [i|] eqn:Hi.
  2: { unfold pd.groupby_agg in Hrun. rewrite Hj, Hi in Hrun. discriminate. }
  rewrite (groupby_sum_exact df x y j i Hj Hi Hall Hbound) in Hrun.
  injection Hrun as <-. unfold pd.values, pd.column. simpl.
  rewrite Hi, map_map. simpl. split.
  - apply Forall_forall. intros c Hc.
    apply list_elem_of_fmap in Hc as (k & -> & _). eauto.
  - unfold pd.column_values.
    rewrite (Zsum_perm _ _ (Permutation_map _ (group_keys_perm _))).
    apply Zsum_groups_unique.
Qed.

Lemma how_func_sum_not_count (how : string) :
  utils.how_func how = "sum" -> String.eqb how "contagem" = false.
Proof.
  intros Hf. destruct (String.eqb_spec how "contagem") as [->|]; [| reflexivity].
  vm_compute in Hf. discriminate.
Qed.

(** X5: a call of [aggregate] with a key column the table does not have
    raises [KeyError] for the key; with a value column it does not have,
    in a mode that reduces values, [KeyError] for the value column.  On a
    table without rows, a call that returns gives a table without
    rows. *)
Theorem aggregate_missing_column (df : pd.DataFrame) (x : string)
  (y : option string) (how : string) :
  (x ∉ pd.columns df -> utils.aggregate df x y how = Raise (KeyError x)) /\
  (forall y', y = Some y' -> utils.counts_rows y how = false ->
     x ∈ pd.columns df -> y' ∉ pd.columns df ->
     utils.aggregate df x y how
     = Raise (KeyError ("Column not found: " ++ y'))) /\
  (forall out, pd.rows df = [] -> utils.aggregate df x y how = Ok out ->
     pd.columns out = ["x"; "valor"] /\ pd.rows out = []).
Proof.
  split; [| split].
  - intros Hx. apply position_None in Hx.
    unfold utils.aggregate, pd.groupby_size, pd.groupby_agg. rewrite Hx.
    destruct y; [destruct (String.eqb how "contagem") |]; reflexivity.
  - intros y' -> Hc Hx Hy. simpl in Hc.
    apply position_elem_of in Hx as [j Hj]. apply position_None in Hy.
    unfold utils.aggregate, pd.groupby_agg. rewrite Hc, Hj, Hy. reflexivity.
  - intros out Hrows Hrun.
    apply aggregate_inv in Hrun as (its & Hkeys & Hcols & Hcells & _).
    split; [exact Hcols |].
    assert (Hnil : pd.column df x = []).
    { unfold pd.column, pd.column_values. rewrite Hrows.
      destruct (pd.position x (pd.columns df)); reflexivity. }
    rewrite Hnil in Hkeys. destruct its as [|it its]; [| discriminate].
    destruct (pd.rows out); [reflexivity | discriminate].
Qed.

(** X7: in the mode [soma], and in any mode that falls back to it, on a
    value column of integers whose absolute values add up to at most the
    largest [int64] (so that no sum wraps), [aggregate] keeps the total:
    the values of the groups are integers and add up to the sum of the
    value column. *)
Theorem aggregate_sum_total (df out : pd.DataFrame) (x y how : string) :
  utils.how_func how = "sum" ->
  Forall (fun c => exists z, c = Int z) (pd.column df y) ->
  (pd.abs_sum (pd.column df y) <= pd.int64_max)%Z ->
  utils.aggregate df x (Some y) how = Ok out ->
  pd.column out "x" = pd.group_keys (pd.column df x) /\
  Forall (fun c => exists z, c = Int z) (pd.column out "valor") /\
  pd.Zsum (pd.column out "valor") = pd.Zsum (pd.column df y).
Proof.
  intros Hfunc Hall Hbound Hrun. unfold utils.aggregate in Hrun.
  rewrite (how_func_sum_not_count how Hfunc), Hfunc in Hrun.
  case_bind_as Hrun s Hs. case_bind_as Hrun g Hg. injection Hrun as <-.
  pose proof (groupby_agg_inv _ _ _ _ _ Hs) as (Hn & Hi & _).
  apply groupby_sum_total in Hs as (Hkeys & Hints & Hsum); [| | exact Hbound].
  2: { eapply Forall_impl; [exact Hall |]. intros c [z ->]. left. reflexivity. }
  pose proof (reset_index_ok _ _ _ Hg) as Hne.
  apply reset_index_cells in Hg as [Hcols Hcells].
  rewrite Hi, Hn in Hcols, Hne. simpl in Hcols, Hne.
  assert (Hout : pd.columns (pd.rename g (<[ y := "valor" ]> {[ x := "x" ]}))
                 = ["x"; "valor"]).
  { unfold pd.rename; simpl. rewrite Hcols; simpl.
    rewrite lookup_insert_eq, lookup_insert_ne, lookup_singleton_eq by congruence.
    reflexivity. }
  destruct (two_columns _ "x" "valor" (pd.items s) Hout) as [Hx Hv];
    [discriminate | exact Hcells |].
  rewrite Hx, Hv. auto.
Qed.

(** ** Extremes, and the two ways of summing *)








(** X21: the sums a chart of the kinds Barras, Linha or Pizza is drawn
    from, over data that is not aggregated, are the ones [aggregate]
    computes in the mode [soma].  When [aggregate] raises, [plot_generic]
    raises the same error, before anything is drawn; and when
    [plot_generic] returns a figure, [aggregate] returns a table with the
    same rows, under the columns [x], [valor] where the figure has [x],
    [y]. *)
Theorem plot_generic_sums_as_aggregate (tipo : string) (df : pd.DataFrame)
  (x y : string) (color : option string) :
  tipo ∈ ["Barras"; "Linha"; "Pizza"] ->
  (forall e, utils.aggregate df x (Some y) "soma" = Raise e ->
             viz.plot_generic tipo df x (Some y) color false = Raise e) /\
  (forall fig, viz.plot_generic tipo df x (Some y) color false = Ok fig ->
     exists out, utils.aggregate df x (Some y) "soma" = Ok out /\
       pd.rows (viz.data_of fig) = pd.rows out /\
       pd.columns (viz.data_of fig) = [x; y] /\
       pd.columns out = ["x"; "valor"]).
Proof.
  intros Ht.
  assert (Hfail : forall e, viz.grouped_sum df x y = Raise e ->
                    viz.plot_generic tipo df x (Some y) color false = Raise e).
  { intros e Hg. unfold viz.plot_generic. cbn [andb rbind].
    rewrite !elem_of_cons in Ht.
    destruct Ht as [->|[->|[->|Ht]]]; [| | | inversion Ht];
      unfold viz.draw; simpl; rewrite Hg; reflexivity. }
  assert (Hok : forall g, viz.grouped_sum df x y = Ok g ->
                  exists fig, viz.plot_generic tipo df x (Some y) color false
                              = Ok fig /\ viz.data_of fig = g).
  { intros g Hg. unfold viz.plot_generic. cbn [andb rbind].
    rewrite !elem_of_cons in Ht.
    destruct Ht as [->|[->|[->|Ht]]]; [| | | inversion Ht];
      unfold viz.draw; simpl; rewrite Hg; simpl; eexists; split; reflexivity. }
  unfold utils.aggregate. rewrite how_func_soma.
  change (String.eqb "soma" "contagem") with false. cbv iota.
  unfold viz.grouped_sum in Hfail, Hok.
  destruct (pd.groupby_agg df x y "sum") as [s|e0] eqn:Hs; cbn [rbind] in *.
  2: { split; [intros e [= <-]; apply Hfail; reflexivity |].
       intros fig Hfig. rewrite (Hfail e0 eq_refl) in Hfig. discriminate. }
  pose proof (groupby_agg_inv _ _ _ _ _ Hs) as (Hn & Hi & _).
  destruct (pd.reset_index s None) as [g|e0] eqn:Hg; cbn [rbind] in *.
  2: { split; [intros e [= <-]; apply Hfail; reflexivity |].
       intros fig Hfig. rewrite (Hfail e0 eq_refl) in Hfig. discriminate. }
  split; [discriminate |].
  intros fig Hfig. destruct (Hok g eq_refl) as (fig' & Hfig' & Hdata).
  rewrite Hfig in Hfig'. injection Hfig' as <-.
  pose proof (reset_index_ok _ _ _ Hg) as Hne.
  pose proof (reset_index_cells _ _ _ Hg) as [Hcols _].
  rewrite Hi, Hn in Hcols, Hne. simpl in Hcols, Hne.
  eexists. split; [reflexivity |]. rewrite Hdata.
  split; [reflexivity |]. split; [exact Hcols |].
  unfold pd.rename; simpl. rewrite Hcols; simpl.
  rewrite lookup_insert_eq, lookup_insert_ne, lookup_singleton_eq by congruence.
  reflexivity.
Qed.

(** ** Totals of a time aggregation *)

Lemma fold_min_max (k : Z) (ks : list Z) (b : Z) :
  b ∈ k :: ks ->
  (fold_right Z.min k ks <= b <= fold_right Z.max k ks)%Z.
Proof.
  induction ks as [|a ks IH]; simpl.
  - intros Hb. apply list_elem_of_singleton in Hb as ->. lia.
  - rewrite !elem_of_cons. intros [->|[->|Hb]].
    + specialize (IH ltac:(left)). lia.
    + lia.
    + specialize (IH ltac:(right; exact Hb)). lia.
Qed.

Lemma counts_total (ks bs : list Z) :
  NoDup ks -> (forall b, b ∈ bs -> b ∈ ks) ->
  pd.Zsum (map (fun k => Int (Z.of_nat (length (filter (fun b => b = k) bs)))) ks)
  = Z.of_nat (length bs).
Proof.
  intros Hnd. induction bs as [|b bs IH]; intros Hin.
  - clear. induction ks as [|k ks IH]; simpl; [reflexivity |].
    simpl in IH. rewrite IH. reflexivity.
  - rewrite (Zsum_split _ b ks Hnd)
      by (intros Hout; exfalso; apply Hout, Hin; left).
    rewrite filter_cons_True by reflexivity.
    rewrite (Zsum_ext_in
               (fun k => Z.of_nat (length (filter (fun b0 => b0 = k) (b :: bs))))
               (fun k => Z.of_nat (length (filter (fun b0 => b0 = k) bs)))).
    2: { intros k Hk. apply list_elem_of_filter in Hk as [Hk _].
         rewrite filter_cons_False by congruence. reflexivity. }
    specialize (IH ltac:(intros b' Hb'; apply Hin; right; exact Hb')).
    rewrite (Zsum_split _ b ks Hnd) in IH
      by (intros Hout; exfalso; apply Hout, Hin; left).
    simpl length. lia.
Qed.

Lemma period_size_bins (f : pd.Freq) (k : Z) (ts : list Z) :
  utils.period_size f k ts
  = length (filter (fun b => b = k) (map (pd.bin_of f) ts)).
Proof.
  unfold utils.period_size. induction ts as [|t ts IH]; [reflexivity |].
  simpl. destruct (decide (pd.bin_of f t = k)) as [Heq|Hne].
  - rewrite !filter_cons_True by exact Heq. simpl. f_equal. exact IH.
  - rewrite !filter_cons_False by exact Hne. exact IH.
Qed.

(** Every timestamp falls in one of the periods of the resampling. *)
Lemma period_sizes_total (f : pd.Freq) (ts : list Z) :
  pd.Zsum (map (fun k => Int (Z.of_nat (utils.period_size f k ts)))
               (pd.bin_range f ts))
  = Z.of_nat (length ts).
Proof.
  rewrite (Zsum_ext_in _ (fun k => Z.of_nat (length (filter (fun b => b = k)
                                               (map (pd.bin_of f) ts)))))
    by (intros k _; rewrite period_size_bins; reflexivity).
  rewrite <- (length_map (pd.bin_of f) ts).
  unfold pd.bin_range.
  destruct (map (pd.bin_of f) ts) as [|b bs] eqn:Hb; [reflexivity |].
  apply counts_total; [apply NoDup_seqZ |].
  intros b' Hb'. apply elem_of_seqZ.
  pose proof (fold_min_max b bs b' Hb'). lia.
Qed.

(** The table of the counting branch, after the renaming and the sort. *)
Lemma time_aggregate_counts_inv `{Library} (df out : pd.DataFrame)
  (date_col : string) (y : option string) (how freq : string) :
  utils.counts_rows y how = true ->
  utils.time_aggregate df date_col y how freq = Ok out ->
  exists f, pd.freq_of_string freq = Some f /\
    pd.columns out = ["x"; "valor"] /\
    let ts := utils.stamps (utils.dt_column df date_col) in
    map pd.cells (pd.rows out)
    ≡ₚ map (fun k => [Ts (pd.bin_label f k);
                      Int (Z.of_nat (utils.period_size f k ts))])
           (pd.bin_range f ts).
Proof.
  unfold utils.time_aggregate, utils.dt_column. intros Hc Hrun.
  case_bind_as Hrun col Hcol. case_bind_as Hrun g Hg.
  case_bind_as Hrun sorted Hsort. injection Hrun as <-.
  apply sort_values_sorted in Hsort as (_ & Hcols & Hperm & _).
  simpl in Hperm, Hcols.
  assert (Hg' : (idx <-- pd.set_index
                           (pd.setitem (pd.copy df) "_dt" (utils.ensure_datetime col))
                           "_dt" ;;
                 r <-- pd.resample_frame idx freq ;;
                 pd.reset_index (pd.resampler_size r) (Some "valor")) = Ok g).
  { destruct y as [y'|]; simpl in Hc; [rewrite Hc in Hg |]; exact Hg. }
  apply count_branch_spec in Hg' as (f & Hf & Hgc & Hcells).
  exists f. split; [exact Hf |]. split.
  - simpl. rewrite Hcols, Hgc. reflexivity.
  - simpl. unfold pd.reset_index_drop; simpl.
    rewrite (map_imap _ pd.cells pd.cells) by reflexivity.
    rewrite <- Hcells. apply Permutation_map, Hperm.
Qed.

(** X8: when [time_aggregate] counts rows, the counts of the periods add
    up to the number of rows whose date could be read: a row with an
    unreadable date is in no period, and no row is counted twice. *)
Theorem time_aggregate_counts_total `{Library} (df out : pd.DataFrame)
  (date_col : string) (y : option string) (how freq : string) :
  utils.counts_rows y how = true ->
  utils.time_aggregate df date_col y how freq = Ok out ->
  pd.columns out = ["x"; "valor"] /\
  pd.Zsum (pd.column out "valor")
  = Z.of_nat (length (utils.stamps (utils.dt_column df date_col))).
Proof.
  intros Hc Hrun.
  destruct (time_aggregate_counts_inv _ _ _ _ _ _ Hc Hrun)
    as (f & _ & Hcols & Hcells).
  split; [exact Hcols |]. simpl in Hcells.
  unfold pd.column. rewrite Hcols. simpl.
  unfold pd.column_values, pd.cell_at.
  change (map (fun r => nth 1 (pd.cells r) NaN) (pd.rows out))
    with (map ((fun cs => nth 1 cs NaN) ∘ pd.cells) (pd.rows out)).
  rewrite <- (map_map pd.cells (fun cs => nth 1 cs NaN)).
  rewrite (Zsum_perm _ _ (Permutation_map _ Hcells)), map_map. simpl.
  apply period_sizes_total.
Qed.

Lemma not_elem_of_delete (x : string) (j : nat) (l : list string) :
  x ∉ l -> x ∉ delete j l.
Proof. intros Hx Hin. apply Hx. eapply elem_of_sublist; [exact Hin | apply sublist_delete]. Qed.

(** X9: a call of [time_aggregate] with a date column the table does not
    have raises [KeyError] for it; with a value column the table does not
    have, in a mode that reduces values, [KeyError] for the value
    column. *)
Theorem time_aggregate_missing_column `{Library} (df : pd.DataFrame)
  (date_col : string) (y : option string) (how freq : string) :
  (date_col ∉ pd.columns df ->
   utils.time_aggregate df date_col y how freq = Raise (KeyError date_col)) /\
  (forall y', y = Some y' -> utils.counts_rows y how = false ->
     date_col ∈ pd.columns df -> y' ∉ pd.columns df ->
     utils.time_aggregate df date_col y how freq = Raise (KeyError y')).
Proof.
  split.
  - intros Hx. apply position_None in Hx.
    unfold utils.time_aggregate, pd.getitem. rewrite Hx. reflexivity.
  - intros y' -> Hc Hd Hy. simpl in Hc.
    destruct (getitem_values df date_col Hd) as (col & Hcol & _ & _).
    unfold utils.time_aggregate. rewrite Hcol, Hc. cbn [rbind].
    set (tmp := pd.setitem (pd.copy df) "_dt" (utils.ensure_datetime col)).
    assert (Hidx : exists idx, pd.set_index tmp "_dt" = Ok idx /\
                               y' ∉ pd.columns idx).
    { unfold tmp, pd.setitem, pd.set_index, pd.copy.
      destruct (pd.position "_dt" (pd.columns df)) as [j|] eqn:Hj; simpl.
      - rewrite Hj. eexists. split; [reflexivity |]. simpl.
        apply not_elem_of_delete, Hy.
      - rewrite position_app_new by exact Hj. eexists. split; [reflexivity |].
        simpl. rewrite (delete_middle (pd.columns df) [] "_dt"), app_nil_r.
        exact Hy. }
    destruct Hidx as (idx & -> & Hnot). cbn [rbind].
    unfold pd.getitem. rewrite (position_None _ _ Hnot). reflexivity.
Qed.

(** ** Sums per period *)

Lemma position_lookup {A} `{EqDecision A} (x : A) (l : list A) (i : nat) :
  pd.position x l = Some i -> l !! i = Some x.
Proof.
  revert i. induction l as [|a l IH]; simpl; [discriminate |].
  intros i. destruct (decide (x = a)) as [->|Hne]; [intros [= <-]; reflexivity |].
  destruct (pd.position x l) as [k|]; [| discriminate].
  intros [= <-]. simpl. apply IH. reflexivity.
Qed.

(** Taking column [j] out moves the other columns and their cells
    alike. *)
Lemma delete_other (y : string) (l : list string) (i j : nat) :
  pd.position y l = Some i -> i <> j ->
  exists i', pd.position y (delete j l) = Some i' /\
    forall cs : list cell, nth i' (delete j cs) NaN = nth i cs NaN.
Proof.
  revert i j. induction l as [|a l IH]; simpl; [discriminate |].
  intros i j. destruct (decide (y = a)) as [->|Hne].
  - intros [= <-] Hj. destruct j as [|j]; [contradiction |]. simpl.
    rewrite decide_True by reflexivity. exists 0%nat. split; [reflexivity |].
    intros [|c cs]; reflexivity.
  - destruct (pd.position y l) as [k|] eqn:Hk; [| discriminate].
    intros [= <-] Hj. destruct j as [|j]; simpl.
    + rewrite Hk. exists k. split; [reflexivity |].
      intros [|c cs]; simpl; [destruct k; reflexivity | reflexivity].
    + rewrite decide_False by exact Hne.
      destruct (IH k j eq_refl ltac:(congruence)) as (i' & -> & Hnth).
      exists (S i'). split; [reflexivity |].
      intros [|c cs]; simpl; [reflexivity | apply Hnth].
Qed.

Lemma zip_rows_other (f : pd.Row -> cell -> pd.Row) (i : nat)
  (rs : list pd.Row) (vs : list cell) :
  Forall (fun r => forall v, pd.cell_at i (f r v) = pd.cell_at i r) rs ->
  map (pd.cell_at i) (pd.zip_rows f rs vs) = map (pd.cell_at i) rs.
Proof.
  revert vs. induction rs as [|r rs IH]; intros vs Hf; simpl; [reflexivity |].
  inversion Hf as [|? ? Hr Hrs]; subst. rewrite Hr. f_equal. apply IH, Hrs.
Qed.

Lemma position_app_other (y x : string) (l : list string) :
  y <> x -> pd.position y (l ++ [x]) = pd.position y l.
Proof.
  intros Hne. induction l as [|a l IH]; simpl.
  - rewrite decide_False by exact Hne. reflexivity.
  - destruct (decide (y = a)); [reflexivity |]. rewrite IH. reflexivity.
Qed.

(** Writing column [x] leaves the other columns as they are. *)
Lemma setitem_other_column (df : pd.DataFrame) (x y : string) (s : pd.Series) :
  pd.well_formed df -> y <> x ->
  pd.column (pd.setitem df x s) y = pd.column df y.
Proof.
  intros Hwf Hne. unfold pd.setitem, pd.column.
  destruct (pd.position x (pd.columns df)) as [j|] eqn:Hj; simpl.
  - destruct (pd.position y (pd.columns df)) as [i|] eqn:Hi; [| reflexivity].
    unfold pd.column_values. simpl. apply zip_rows_other.
    apply Forall_forall. intros r _ v. unfold pd.cell_at. simpl.
    assert (Hij : j <> i).
    { intros ->. apply position_lookup in Hj, Hi. congruence. }
    rewrite !(nth_lookup _ _ NaN), list_lookup_insert_ne by exact Hij.
    reflexivity.
  - rewrite position_app_other by exact Hne.
    destruct (pd.position y (pd.columns df)) as [i|] eqn:Hi; [| reflexivity].
    unfold pd.column_values. simpl. apply zip_rows_other.
    eapply Forall_impl; [exact Hwf |]. intros r Hr v. unfold pd.cell_at. simpl.
    apply position_lt in Hi. simpl in Hr.
    rewrite !(nth_lookup _ _ NaN), lookup_app_l by lia. reflexivity.
Qed.

Lemma map_pair_zip {A B C} (f : A -> B) (g : A -> C) (l : list A) :
  map (fun a => (f a, g a)) l = zip (map f l) (map g l).
Proof. induction l as [|a l IH]; simpl; [reflexivity | f_equal; exact IH]. Qed.

Lemma Forall_zip_snd {A B} (P : B -> Prop) (l : list A) (k : list B) :
  Forall P k -> Forall P (map snd (zip l k)).
Proof.
  revert k. induction l as [|a l IH]; intros [|b k] Hk; simpl;
    try constructor; inversion Hk; subst; auto.
Qed.

(** The values of the periods add up to the values of the dated rows. *)
Lemma members_total (f : pd.Freq) (ks : list Z) (d : list (Z * cell)) :
  NoDup ks -> (forall tv, tv ∈ d -> pd.bin_of f tv.1 ∈ ks) ->
  pd.Zsum (map (fun k => Int (pd.Zsum (pd.members f k d))) ks)
  = pd.Zsum (map snd d).
Proof.
  intros Hnd. induction d as [|[t v] d IH]; intros Hin.
  - clear. induction ks as [|k ks IH]; [reflexivity |].
    change (pd.Zsum (map (fun k0 => Int (pd.Zsum (pd.members f k0 []))) (k :: ks)))
      with (0 + pd.Zsum (map (fun k0 => Int (pd.Zsum (pd.members f k0 []))) ks))%Z.
    rewrite IH. reflexivity.
  - assert (Hb : pd.bin_of f t ∈ ks) by (apply (Hin (t, v)); left).
    rewrite (Zsum_split _ (pd.bin_of f t) ks Hnd)
      by (intros Hout; contradiction).
    unfold pd.members at 1. rewrite filter_cons_True by reflexivity.
    rewrite (Zsum_ext_in
               (fun k => pd.Zsum (pd.members f k ((t, v) :: d)))
               (fun k => pd.Zsum (pd.members f k d))).
    2: { intros k Hk. apply list_elem_of_filter in Hk as [Hk _].
         unfold pd.members. rewrite filter_cons_False by (simpl; congruence).
         reflexivity. }
    specialize (IH ltac:(intros tv Htv; apply Hin; right; exact Htv)).
    rewrite (Zsum_split _ (pd.bin_of f t) ks Hnd) in IH
      by (intros Hout; contradiction).
    fold (pd.members f (pd.bin_of f t) d).
    cbn [map pd.Zsum fold_right snd].
    rewrite <- Z.add_assoc. f_equal. exact IH.
Qed.

Lemma dated_values (its : list (cell * cell)) (P : cell -> Prop) :
  Forall P (map snd its) -> Forall P (map snd (pd.dated its)).
Proof.
  induction its as [|[c v] its IH]; simpl; intros Hall; [constructor |].
  inversion Hall as [|? ? Hv Hrest]; subst. unfold pd.dated in *. simpl.
  destruct c; simpl; auto.
Qed.

Lemma members_values (f : pd.Freq) (k : Z) (d : list (Z * cell)) (P : cell -> Prop) :
  Forall P (map snd d) -> Forall P (pd.members f k d).
Proof.
  intros Hall. unfold pd.members. apply Forall_forall. intros c Hc.
  apply list_elem_of_fmap in Hc as (tv & -> & Htv).
  apply list_elem_of_filter in Htv as [_ Htv].
  rewrite Forall_forall in Hall. apply Hall.
  apply list_elem_of_fmap. exists tv. auto.
Qed.

Lemma sublist_snd_zip {A B} (l : list A) (k : list B) :
  map snd (zip l k) `sublist_of` k.
Proof.
  revert k. induction l as [|a l IH]; intros [|b k]; simpl.
  - constructor.
  - apply sublist_nil_l.
  - constructor.
  - constructor. apply IH.
Qed.

Lemma sublist_snd_dated (its : list (cell * cell)) :
  map snd (pd.dated its) `sublist_of` map snd its.
Proof.
  induction its as [|[c v] its IH]; simpl; [constructor |].
  unfold pd.dated in *. simpl.
  destruct c; simpl; try (apply sublist_cons; exact IH).
  apply sublist_skip. exact IH.
Qed.

Lemma sublist_members (f : pd.Freq) (k : Z) (d : list (Z * cell)) :
  pd.members f k d `sublist_of` map snd d.
Proof. unfold pd.members. apply map_sublist, sublist_filter. Qed.

(** The value column as [time_aggregate] resamples it: over the dates,
    with the values of the table. *)
Lemma dated_series (tmp idx : pd.DataFrame) (s : pd.Series) (y : string) :
  y <> "_dt" ->
  pd.set_index tmp "_dt" = Ok idx -> pd.getitem idx y = Ok s ->
  pd.items s = zip (pd.column tmp "_dt") (pd.column tmp y) /\
  map fst (pd.items s) = pd.column tmp "_dt" /\
  map snd (pd.items s) = pd.column tmp y /\
  pd.iname s = Some "_dt" /\ pd.name s = Some y.
Proof.
  intros Hy Hidx Hs.
  pose proof (set_index_labels _ _ _ Hidx) as [Hlab Hname].
  unfold pd.getitem in Hs.
  destruct (pd.position y (pd.columns idx)) as [i'|] eqn:Hi'; [| discriminate].
  injection Hs as <-. simpl.
  assert (Hsnd : map (pd.cell_at i') (pd.rows idx) = pd.column tmp y);
    [| split; [rewrite map_pair_zip; f_equal; assumption |];
       split; [rewrite map_map; exact Hlab |];
       split; [rewrite map_map; exact Hsnd |];
       split; [exact Hname | reflexivity]].
  unfold pd.set_index in Hidx. unfold pd.column.
  destruct (pd.position "_dt" (pd.columns tmp)) as [j|] eqn:Hj; [| discriminate].
  injection Hidx as <-. simpl in Hi'.
  assert (Hin : y ∈ pd.columns tmp).
  { eapply elem_of_sublist; [| apply (sublist_delete _ j)].
    clear -Hi'. revert i' Hi'.
    induction (delete j (pd.columns tmp)) as [|c l IH]; simpl; [discriminate |].
    intros i'. destruct (decide (y = c)) as [->|]; [left |].
    destruct (pd.position y l); [| discriminate]. intros _. right. eauto. }
  apply position_elem_of in Hin as [i Hi]. rewrite Hi.
  assert (Hij : i <> j).
  { intros ->. apply position_lookup in Hi, Hj. congruence. }
  destruct (delete_other y _ i j Hi Hij) as (i2 & Hi2 & Hnth).
  rewrite Hi' in Hi2. injection Hi2 as <-.
  unfold pd.column_values. simpl. rewrite map_map.
  apply map_ext. intros r0. unfold pd.cell_at. simpl. apply Hnth.
Qed.

Lemma zip_with_maps {A B C D E} (h : B -> C -> D) (f : A -> B) (g : A -> C)
  (u : D -> E) (l : list A) :
  map u (zip_with h (map f l) (map g l)) = map (fun a => u (h (f a) (g a))) l.
Proof. induction l as [|a l IH]; simpl; [reflexivity | f_equal; exact IH]. Qed.

(** The table of the summing branch of [time_aggregate], on a column of
    whole numbers below the bound: a row for every period, holding the
    exact sum of the values dated in it. *)
Lemma time_aggregate_sums_inv `{Library} (df out : pd.DataFrame)
  (date_col y how freq : string) :
  utils.how_func how = "sum" -> pd.well_formed df -> y <> "_dt" ->
  Forall (fun c => pd.is_integer c = true \/ c = NaN) (pd.column df y) ->
  (pd.abs_sum (pd.column df y) <= pd.int64_max)%Z ->
  utils.time_aggregate df date_col (Some y) how freq = Ok out ->
  exists f, pd.freq_of_string freq = Some f /\
    pd.columns out = ["x"; "valor"] /\
    let d := pd.dated (zip (utils.dt_column df date_col) (pd.column df y)) in
    map pd.cells (pd.rows out)
    ≡ₚ map (fun k => [Ts (pd.bin_label f k); Int (pd.Zsum (pd.members f k d))])
           (pd.bin_range f (utils.stamps (utils.dt_column df date_col))).
Proof.
  intros Hfunc Hwf Hy Hall Hbound Hrun.
  unfold utils.time_aggregate, utils.dt_column in *.
  rewrite (how_func_sum_not_count how Hfunc), Hfunc in Hrun.
  case_bind_as Hrun col Hcol. case_bind_as Hrun g Hg.
  case_bind_as Hrun sorted Hsort. injection Hrun as <-.
  apply sort_values_sorted in Hsort as (_ & Hcols & Hperm & _).
  simpl in Hperm, Hcols.
  set (tmp := pd.setitem (pd.copy df) "_dt" (utils.ensure_datetime col)) in *.
  case_bind_as Hg idx Hidx. case_bind_as Hg s Hs.
  case_bind_as Hg r Hr. case_bind_as Hg a Ha.
  destruct (dated_series tmp idx s y Hy Hidx Hs) as (Hits & Hfst & _ & Hin & _).
  assert (Hty : pd.column tmp y = pd.column df y)
    by apply (setitem_other_column df "_dt" y _ Hwf Hy).
  rewrite Hty in Hits.
  unfold pd.resample_series in Hr. case_bind_as Hr bs Hbs. injection Hr as <-.
  apply resample_items_periods in Hbs as (f & Hf & ->).
  unfold pd.resampler_agg in Ha. simpl in Ha.
  case_bind_as Ha its Hagg. injection Ha as <-.
  apply rmapM_values in Hagg as [Hz Hvals].
  apply reset_index_cells in Hg as [Hgc Hcells].
  simpl in Hgc, Hcells. rewrite Hin in Hgc. simpl in Hgc.
  exists f. split; [exact Hf |].
  split; [simpl; rewrite Hcols, Hgc; reflexivity |].
  cbv zeta.
  rewrite <- Hits. rewrite <- Hfst.
  set (d := pd.dated (pd.items s)) in *.
  set (ks := pd.bin_range f (utils.stamps (map fst (pd.items s)))) in *.
  assert (Hsnd : map snd its = map (fun k => Int (pd.Zsum (pd.members f k d))) ks).
  { apply Forall2_fmap_l in Hvals.
    assert (Hd : map snd d `sublist_of` pd.column df y).
    { unfold d. etransitivity; [apply sublist_snd_dated |].
      rewrite Hits. apply sublist_snd_zip. }
    clear -Hvals Hall Hbound Hd.
    induction Hvals as [|k v ks' vs Hkv Hrest IH]; simpl; [reflexivity |].
    f_equal; [| exact IH]. simpl in Hkv.
    assert (Hm : pd.members f k d `sublist_of` pd.column df y)
      by (etransitivity; [apply sublist_members | exact Hd]).
    rewrite reduce_sum_integers in Hkv.
    - rewrite (Zsum_no_wrap _ _ Hm Hbound) in Hkv. congruence.
    - apply Forall_forall. intros c Hc. rewrite Forall_forall in Hall.
      apply Hall. eapply elem_of_sublist; eassumption. }
  unfold pd.reset_index_drop; simpl.
  rewrite (map_imap _ pd.cells pd.cells) by reflexivity.
  etransitivity; [apply Permutation_map, Hperm |].
  rewrite Hcells, Hz, Hsnd.
  fold ks. rewrite (zip_with_maps _ _ _ (fun kv : cell * cell => [kv.1; kv.2])).
  reflexivity.
Qed.

(** X24: in the mode [soma], and in any mode that falls back to it, on a
    rectangular table and a value column of integers, not called [_dt],
    whose absolute values add up to at most the largest [int64] (so that
    no sum wraps), [time_aggregate] keeps the total of the dated rows: the
    values of the periods add up to the sum of the value column over the
    rows whose date could be read. *)
Theorem time_aggregate_sum_total `{Library} (df out : pd.DataFrame)
  (date_col y how freq : string) :
  utils.how_func how = "sum" -> pd.well_formed df -> y <> "_dt" ->
  Forall (fun c => exists z, c = Int z) (pd.column df y) ->
  (pd.abs_sum (pd.column df y) <= pd.int64_max)%Z ->
  utils.time_aggregate df date_col (Some y) how freq = Ok out ->
  pd.columns out = ["x"; "valor"] /\
  pd.Zsum (pd.column out "valor")
  = pd.Zsum (map snd (pd.dated (zip (utils.dt_column df date_col)
                                    (pd.column df y)))).
Proof.
  intros Hfunc Hwf Hy Hall Hbound Hrun.
  assert (Hall' : Forall (fun c => pd.is_integer c = true \/ c = NaN)
                         (pd.column df y)).
  { eapply Forall_impl; [exact Hall |]. intros c [z ->]. left. reflexivity. }
  destruct (time_aggregate_sums_inv _ _ _ _ _ _ Hfunc Hwf Hy Hall' Hbound Hrun)
    as (f & _ & Hcols & Hcells).
  split; [exact Hcols |]. cbv zeta in Hcells.
  set (d := pd.dated (zip (utils.dt_column df date_col) (pd.column df y))) in *.
  unfold pd.column at 1. rewrite Hcols. simpl.
  unfold pd.column_values, pd.cell_at.
  change (map (fun r => nth 1 (pd.cells r) NaN) (pd.rows out))
    with (map ((fun cs => nth 1 cs NaN) ∘ pd.cells) (pd.rows out)).
  rewrite <- (map_map pd.cells (fun cs => nth 1 cs NaN)).
  rewrite (Zsum_perm _ _ (Permutation_map _ Hcells)), map_map. simpl.
  assert (Hstamps : utils.stamps (utils.dt_column df date_col) = map fst d
                    \/ pd.column df y = []).
  { destruct (pd.column df y) as [|v vs] eqn:Hcol; [right; reflexivity | left].
    unfold d. rewrite dated_fst, fst_zip; [reflexivity |].
    assert (Hylen : length (pd.column df y) = pd.len df).
    { unfold pd.column, pd.column_values, pd.len in *.
      destruct (pd.position y (pd.columns df)); [apply length_map | discriminate]. }
    rewrite Hcol in Hylen. rewrite Hylen.
    unfold utils.dt_column, pd.copy, pd.column, pd.setitem, pd.getitem, pd.len.
    destruct (pd.position date_col (pd.columns df)); [| simpl; lia].
    destruct (pd.position "_dt" (pd.columns df)) as [j|] eqn:Hj; simpl.
    - rewrite Hj. unfold pd.column_values. simpl.
      rewrite length_map, zip_rows_length. lia.
    - rewrite position_app_new by exact Hj. unfold pd.column_values. simpl.
      rewrite length_map, zip_rows_length. lia. }
  destruct Hstamps as [Hst|Hnil].
  - rewrite Hst. unfold pd.bin_range.
    destruct (map (pd.bin_of f) (map fst d)) as [|b bs] eqn:Hb.
    + destruct d; [reflexivity | discriminate].
    + apply members_total; [apply NoDup_seqZ |].
      intros tv Htv. apply elem_of_seqZ.
      assert (Hbin : pd.bin_of f tv.1 ∈ b :: bs).
      { rewrite <- Hb, map_map. apply list_elem_of_fmap. exists tv. auto. }
      pose proof (fold_min_max b bs _ Hbin). lia.
  - assert (Hd : d = []).
    { unfold d. rewrite Hnil.
      destruct (utils.dt_column df date_col); reflexivity. }
    rewrite Hd. simpl.
    generalize (pd.bin_range f (utils.stamps (utils.dt_column df date_col))).
    intros ks. induction ks as [|k ks IH]; [reflexivity |].
    simpl in *. exact IH.
Qed.

Lemma rename_dt (g : pd.DataFrame) :
  pd.columns g = ["_dt"; "valor"] ->
  exists out,
    (sorted <-- pd.sort_values (pd.rename g {[ "_dt" := "x" ]}) "x" ;;
     Ok (pd.reset_index_drop sorted)) = Ok out.
Proof.
  intros Hcols. unfold pd.sort_values, pd.rename. simpl. rewrite Hcols. simpl.
  eexists. reflexivity.
Qed.

(** On a rectangular table with the date column, a value column of whole
    numbers not called [_dt], one of the five frequencies and at least
    one readable date (or no row at all), the summing [time_aggregate]
    returns a table. *)
Lemma time_aggregate_sum_returns `{Library} (df : pd.DataFrame)
  (date_col y how freq : string) :
  utils.how_func how = "sum" -> pd.well_formed df ->
  date_col ∈ pd.columns df -> y ∈ pd.columns df -> y <> "_dt" ->
  freq ∈ ["D"; "W"; "M"; "Q"; "Y"] ->
  Forall (fun c => pd.is_integer c = true \/ c = NaN) (pd.column df y) ->
  pd.rows df = [] \/ utils.stamps (utils.dt_column df date_col) <> [] ->
  exists out, utils.time_aggregate df date_col (Some y) how freq = Ok out.
Proof.
  intros Hfunc Hwf Hdate Hyin Hy Hfreq Hall Hstamps.
  unfold utils.time_aggregate, utils.dt_column, pd.copy in *.
  rewrite (how_func_sum_not_count how Hfunc), Hfunc.
  apply position_elem_of in Hdate as [jd Hjd].
  unfold pd.getitem at 1. unfold pd.getitem in Hstamps.
  rewrite Hjd in *. cbn [rbind].
  set (col := {| pd.name := Some date_col; pd.iname := pd.index_name df;
                 pd.items := map (fun r => (pd.label r, pd.cell_at jd r))
                                 (pd.rows df) |}) in *.
  set (tmp := pd.setitem df "_dt" (utils.ensure_datetime col)) in *.
  destruct (setitem_column pd.stamp_or_missing df "_dt" (utils.ensure_datetime col)
              Hwf I (ensure_datetime_stamps col)) as [Hin Hdt].
  fold tmp in Hin, Hdt.
  assert (Hty : pd.column tmp y = pd.column df y)
    by apply (setitem_other_column df "_dt" y _ Hwf Hy).
  assert (Hytmp : y ∈ pd.columns tmp).
  { unfold tmp, pd.setitem.
    destruct (pd.position "_dt" (pd.columns df)); simpl;
      [exact Hyin | apply elem_of_app; left; exact Hyin]. }
  destruct (pd.set_index tmp "_dt") as [idx|e] eqn:Hidx.
  2: { apply position_elem_of in Hin as [j Hj]. unfold pd.set_index in Hidx.
       rewrite Hj in Hidx. discriminate. }
  cbn [rbind].
  assert (Hs : exists s, pd.getitem idx y = Ok s).
  { unfold pd.set_index in Hidx.
    destruct (pd.position "_dt" (pd.columns tmp)) as [j|] eqn:Hj; [| discriminate].
    injection Hidx as <-. unfold pd.getitem. simpl.
    apply position_elem_of in Hytmp as [i Hi].
    assert (Hij : i <> j).
    { intros ->. apply position_lookup in Hi, Hj. congruence. }
    destruct (delete_other y _ i j Hi Hij) as (i2 & -> & _). eauto. }
  destruct Hs as [s Hs]. rewrite Hs. cbn [rbind].
  destruct (dated_series tmp idx s y Hy Hidx Hs) as (_ & Hfst & Hsnd & Hiname & _).
  rewrite Hty in Hsnd.
  unfold pd.resample_series.
  destruct (resample_items_returns freq (pd.items s)) as [bs Hbs].
  - exact Hfreq.
  - rewrite Hfst. exact Hdt.
  - rewrite Hfst. destruct Hstamps as [Hnil|Hst]; [left | right; exact Hst].
    assert (Hlen : length (pd.items s) = 0%nat).
    { rewrite <- (length_map fst), Hfst.
      unfold tmp, pd.setitem, pd.column.
      destruct (pd.position "_dt" (pd.columns df)) as [j|] eqn:Hj; simpl.
      - rewrite Hj. unfold pd.column_values. simpl. rewrite Hnil. reflexivity.
      - rewrite position_app_new by exact Hj. unfold pd.column_values. simpl.
        rewrite Hnil. reflexivity. }
    destruct (pd.items s); [reflexivity | discriminate].
  - rewrite Hbs. cbn [rbind].
    pose proof (resample_items_periods _ _ _ Hbs) as (f & _ & ->).
    unfold pd.resampler_agg. simpl.
    rewrite (rmapM_map_ok _
               (fun b : cell * list cell =>
                  (b.1, Int (pd.int64_wrap (pd.Zsum b.2))))).
    + cbn [rbind]. unfold pd.reset_index. simpl. rewrite Hiname. simpl.
      apply rename_dt. reflexivity.
    + intros b Hb. apply list_elem_of_fmap in Hb as (k & -> & _). simpl.
      rewrite reduce_sum_integers; [reflexivity |].
      apply Forall_forall. intros c Hc. rewrite Forall_forall in Hall.
      apply Hall. rewrite <- Hsnd.
      eapply elem_of_sublist; [exact Hc |].
      etransitivity; [apply sublist_members | apply sublist_snd_dated].
Qed.

(** ** Modes outside the six *)

Lemma group_values_zip (f g : pd.Row -> cell) (k : cell) (rs : list pd.Row) :
  map g (filter (fun r => f r = k) rs)
  = map snd (filter (fun kv => kv.1 = k) (zip (map f rs) (map g rs))).
Proof.
  induction rs as [|r rs IH]; [reflexivity |]. simpl.
  destruct (decide (f r = k)) as [Heq|Hne].
  - rewrite !filter_cons_True by exact Heq. simpl. f_equal. exact IH.
  - rewrite !filter_cons_False by exact Hne. exact IH.
Qed.

(** With both columns in the table and distinct, a value column of whole
    numbers below the bound, the summing [aggregate] returns: a row for
    every key, in ascending order, holding the exact sum of the values of
    the rows with that key. *)
Lemma aggregate_sum_exact (df : pd.DataFrame) (x y how : string) :
  utils.how_func how = "sum" ->
  x ∈ pd.columns df -> y ∈ pd.columns df -> x <> y ->
  Forall (fun c => pd.is_integer c = true \/ c = NaN) (pd.column df y) ->
  (pd.abs_sum (pd.column df y) <= pd.int64_max)%Z ->
  exists out, utils.aggregate df x (Some y) how = Ok out /\
    pd.columns out = ["x"; "valor"] /\
    map pd.cells (pd.rows out)
    = map (fun k => [k; Int (pd.Zsum (map snd
                              (filter (fun kv => kv.1 = k)
                                      (zip (pd.column df x) (pd.column df y)))))])
          (pd.group_keys (pd.column df x)).
Proof.
  intros Hfunc Hx Hyin Hne Hall Hbound.
  destruct (position_elem_of _ _ Hx) as [j Hj].
  destruct (position_elem_of _ _ Hyin) as [i Hi].
  unfold utils.aggregate.
  rewrite (how_func_sum_not_count how Hfunc), Hfunc.
  rewrite (groupby_sum_exact df x y j i Hj Hi Hall Hbound). cbn [rbind].
  unfold pd.reset_index. simpl. rewrite decide_False by exact Hne. cbn [rbind].
  eexists. split; [reflexivity |]. split.
  - unfold pd.rename. simpl.
    rewrite lookup_insert_ne, lookup_singleton_eq, lookup_insert_eq by congruence.
    reflexivity.
  - unfold pd.rename. simpl.
    rewrite (map_imap _ pd.cells (fun kv : cell * cell => [kv.1; kv.2]))
      by reflexivity.
    rewrite map_map. simpl. unfold pd.column. rewrite Hj, Hi.
    unfold pd.column_values. apply map_ext. intros k.
    rewrite group_values_zip. reflexivity.
Qed.

(** C10: a mode that is none of the six raises nothing of its own and
    reduces the value column with the sum.  The lookup of the mode falls
    back to ["sum"], so [aggregate] and [time_aggregate] do on every
    table what they do for the mode ["soma"].  On a value column of
    integers (whose absolute values add up to at most the largest
    [int64], so that no sum wraps) they return: [aggregate], given the
    key and the value column, distinct, a row for every key with the sum
    of the values of its rows; [time_aggregate], given a rectangular
    table with the date and the value column, one of the five frequencies
    and a readable date, a row for every period with the sum of the
    values dated in it. *)
Theorem unknown_mode_is_soma `{Library} (df : pd.DataFrame)
  (x date_col y how freq : string) :
  how ∉ utils.modes ->
  utils.how_func how = "sum" /\
  utils.aggregate df x (Some y) how = utils.aggregate df x (Some y) "soma" /\
  utils.time_aggregate df date_col (Some y) how freq
  = utils.time_aggregate df date_col (Some y) "soma" freq /\
  (Forall (fun c => exists z, c = Int z) (pd.column df y) ->
   (pd.abs_sum (pd.column df y) <= pd.int64_max)%Z ->
   (x ∈ pd.columns df -> y ∈ pd.columns df -> x <> y ->
    exists out, utils.aggregate df x (Some y) how = Ok out /\
      pd.columns out = ["x"; "valor"] /\
      map pd.cells (pd.rows out)
      = map (fun k => [k; Int (pd.Zsum (map snd
                                (filter (fun kv => kv.1 = k)
                                        (zip (pd.column df x)
                                             (pd.column df y)))))])
            (pd.group_keys (pd.column df x))) /\
   (pd.well_formed df -> date_col ∈ pd.columns df -> y ∈ pd.columns df ->
    y <> "_dt" -> freq ∈ ["D"; "W"; "M"; "Q"; "Y"] ->
    pd.rows df = [] \/ utils.stamps (utils.dt_column df date_col) <> [] ->
    exists out f,
      utils.time_aggregate df date_col (Some y) how freq = Ok out /\
      pd.freq_of_string freq = Some f /\
      pd.columns out = ["x"; "valor"] /\
      let d := pd.dated (zip (utils.dt_column df date_col) (pd.column df y)) in
      map pd.cells (pd.rows out)
      ≡ₚ map (fun k => [Ts (pd.bin_label f k);
                        Int (pd.Zsum (pd.members f k d))])
             (pd.bin_range f (utils.stamps (utils.dt_column df date_col))))).
Proof.
  intros Hhow. pose proof (how_func_unknown how Hhow) as Hf.
  assert (Hc : String.eqb how "contagem" = false)
    by apply (how_func_sum_not_count how Hf).
  split; [exact Hf |].
  split; [unfold utils.aggregate; rewrite Hc, Hf, how_func_soma; reflexivity |].
  split; [unfold utils.time_aggregate; rewrite Hc, Hf, how_func_soma;
          reflexivity |].
  intros Hall Hbound.
  assert (Hall' : Forall (fun c => pd.is_integer c = true \/ c = NaN)
                         (pd.column df y)).
  { eapply Forall_impl; [exact Hall |]. intros c [z ->]. left. reflexivity. }
  split.
  - intros Hx Hy Hne. apply aggregate_sum_exact; assumption.
  - intros Hwf Hdate Hyin Hy Hfreq Hstamps.
    destruct (time_aggregate_sum_returns df date_col y how freq Hf Hwf Hdate
                Hyin Hy Hfreq Hall' Hstamps) as [out Hout].
    destruct (time_aggregate_sums_inv df out date_col y how freq Hf Hwf Hy
                Hall' Hbound Hout) as (f & Hfreq' & Hcols & Hcells).
    exists out, f. auto.
Qed.

Lemma unknown_mode_is_soma_witness :
  ("total" ∉ utils.modes) /\
  utils.how_func "total" = "sum" /\
  utils.aggregate examples.sales "when" (Some "amount") "total"
  = utils.aggregate examples.sales "when" (Some "amount") "soma" /\
  utils.time_aggregate (H := plain) examples.sales "when" (Some "amount")
    "total" "D"
  = utils.time_aggregate (H := plain) examples.sales "when" (Some "amount")
      "soma" "D" /\
  (exists out,
     utils.aggregate examples.sales "when" (Some "amount") "total" = Ok out /\
     pd.columns out = ["x"; "valor"] /\
     map pd.cells (pd.rows out)
     = map (fun k => [k; Int (pd.Zsum (map snd
                               (filter (fun kv => kv.1 = k)
                                       (zip (pd.column examples.sales "when")
                                            (pd.column examples.sales "amount")))))])
           (pd.group_keys (pd.column examples.sales "when"))) /\
  (exists out f,
     utils.time_aggregate (H := plain) examples.sales "when" (Some "amount")
       "total" "D" = Ok out /\
     pd.freq_of_string "D" = Some f /\
     pd.columns out = ["x"; "valor"] /\
     let d := pd.dated (zip (utils.dt_column (H := plain) examples.sales "when")
                            (pd.column examples.sales "amount")) in
     map pd.cells (pd.rows out)
     ≡ₚ map (fun k => [Ts (pd.bin_label f k); Int (pd.Zsum (pd.members f k d))])
            (pd.bin_range f (utils.stamps
                               (utils.dt_column (H := plain) examples.sales
                                  "when")))).
Proof.
  assert (Hn : "total" ∉ utils.modes).
  { apply (bool_decide_unpack _). vm_compute. exact I. }
  split; [exact Hn |].
  destruct (unknown_mode_is_soma (H := plain) examples.sales "when" "when"
              "amount" "total" "D" Hn) as (H1 & H2 & H3 & Hsem).
  split; [exact H1 |]. split; [exact H2 |]. split; [exact H3 |].
  destruct Hsem as [Ha Ht].
  - repeat (constructor; [eexists; reflexivity |]). constructor.
  - vm_compute. discriminate.
  - split.
    + apply Ha; [left | right; left | discriminate].
    + apply Ht.
      * repeat constructor.
      * left.
      * right. left.
      * discriminate.
      * left.
      * right. vm_compute. discriminate.
Defined.

(** ** What the charts are drawn from *)

(** The block of [plot_generic] that sorts aggregated data again keeps
    the columns and the rows, and leaves data that is not aggregated as it
    is. *)
Lemma presort_spec (df : pd.DataFrame) (aggregated : bool) :
  exists df',
    (if aggregated && pd.has_column df "x"
     then sx <-- pd.getitem df "x" ;;
          if pd.is_datetime64_any_dtype sx
          then s <-- pd.sort_values df "x" ;; Ok (pd.reset_index_drop s)
          else Ok df
     else Ok df) = Ok df' /\
    pd.columns df' = pd.columns df /\
    map pd.cells (pd.rows df') ≡ₚ map pd.cells (pd.rows df) /\
    (aggregated = false -> df' = df).
Proof.
  destruct (aggregated && pd.has_column df "x") eqn:Hc.
  2: { exists df. repeat split; reflexivity. }
  apply andb_true_iff in Hc as [-> Hx]. unfold pd.has_column in Hx.
  apply bool_decide_eq_true in Hx. apply position_elem_of in Hx as [j Hj].
  unfold pd.getitem, pd.sort_values. rewrite Hj. simpl.
  destruct (pd.is_datetime64_any_dtype _); simpl.
  - eexists. split; [reflexivity |]. simpl. split; [reflexivity |].
    split; [| discriminate].
    rewrite (map_imap _ pd.cells pd.cells) by reflexivity.
    apply Permutation_map, merge_sort_Permutation.
  - exists df. split; [reflexivity |]. split; [reflexivity |].
    split; [reflexivity | discriminate].
Qed.

(** X11: for data that is already aggregated, the kinds Barras, Linha and
    Pizza do not depend on the arguments [x] and [y]: whatever axes are
    passed, the call gives the same figure or the same error.  A figure
    that is returned is drawn on the columns [x] and [valor], from a table
    with the columns and the rows of the data (the rows possibly in
    another order). *)
Theorem plot_generic_aggregated_ignores_axes (tipo : string)
  (df : pd.DataFrame) (x x' : string) (y y' color : option string) :
  tipo ∈ ["Barras"; "Linha"; "Pizza"] ->
  viz.plot_generic tipo df x y color true
  = viz.plot_generic tipo df x' y' color true /\
  forall fig, viz.plot_generic tipo df x y color true = Ok fig ->
    (fig = viz.bar (viz.data_of fig) "x" (Some "valor") color
                   "Barras — Agregado" \/
     fig = viz.line (viz.data_of fig) "x" "valor" color true
                    "Linha — Agregado" \/
     fig = viz.pie (viz.data_of fig) "x" "valor" "Pizza — Agregado" (4 # 10)) /\
    pd.columns (viz.data_of fig) = pd.columns df /\
    map pd.cells (pd.rows (viz.data_of fig)) ≡ₚ map pd.cells (pd.rows df).
Proof.
  intros Ht. unfold viz.plot_generic.
  destruct (presort_spec df true) as (df' & -> & Hcols & Hrows & _).
  cbn [rbind]. rewrite !elem_of_cons in Ht.
  destruct Ht as [->|[->|[->|Ht]]]; [| | | inversion Ht];
    (split; [reflexivity |]); intros fig [= <-]; simpl; auto.
Qed.

(** X12: the pie of a column, when no value column is given, is drawn
    from the frequency table of the column: one slice for each distinct
    value, the larger counts first, and the counts add up to the number of
    rows.  (The column must not be called [count], the name the counts
    take.) *)
Theorem plot_generic_pie_counts (df : pd.DataFrame) (x : string)
  (color : option string) :
  x ∈ pd.columns df -> x <> "count" ->
  exists counts,
    viz.plot_generic "Pizza" df x None color false
    = Ok (viz.pie counts x "count" ("Pizza — dist. " +:+ x) (4 # 10)) /\
    pd.columns counts = [x; "count"] /\
    NoDup (pd.column counts x) /\
    (forall k, k ∈ pd.column counts x <-> k ∈ pd.column df x) /\
    StronglySorted (fun a b => pd.num_le b a) (pd.column counts "count") /\
    pd.Zsum (pd.column counts "count") = Z.of_nat (pd.len df).
Proof.
  intros Hx Hne. unfold viz.plot_generic. cbn [andb rbind]. unfold viz.draw.
  cbn [String.eqb Ascii.eqb Bool.eqb]. simpl String.eqb.
  destruct (getitem_values df x Hx) as (sx & -> & Hv & Hn). cbn [rbind].
  destruct (pd.reset_index (pd.rename_axis (pd.value_counts sx) x) (Some "count"))
    as [counts|e] eqn:Hreset.
  2: { unfold pd.reset_index in Hreset. simpl in Hreset.
       rewrite decide_False in Hreset by exact Hne. discriminate. }
  cbn [rbind]. exists counts. split; [reflexivity |].
  apply reset_index_cells in Hreset as [Hcols Hcells]. simpl in Hcols, Hcells.
  split; [exact Hcols |].
  destruct (two_columns _ _ _ _ Hcols Hne Hcells) as [-> ->].
  destruct (value_counts_items sx) as (Hp & Hsorted & Hnd).
  change (pd.items (pd.value_counts sx))
    with (merge_sort pd.count_ge
            (map (fun k => (k, Int (Z.of_nat (pd.group_size k (pd.values sx)))))
                 (pd.unique (pd.values sx)))) in Hp, Hsorted, Hnd.
  split; [exact Hnd |]. split; [| split].
  - intros k. rewrite Hp, map_map. simpl. rewrite map_id, elem_of_unique, Hv.
    reflexivity.
  - apply (StronglySorted_fmap snd pd.count_ge (fun a b => pd.num_le b a));
      [| exact Hsorted].
    intros a b Hab. exact Hab.
  - rewrite (Zsum_perm _ _ (Permutation_map _ Hp)), map_map. simpl.
    rewrite Hv.
    rewrite <- (column_length df x Hx), <- (sum_group_sizes_unique (pd.column df x)).
    generalize (pd.unique (pd.column df x)). intros u.
    generalize (pd.column df x). intros l.
    induction u as [|k u IH]; simpl; [reflexivity |].
    change (fold_right (fun c acc => (pd.int_of c + acc)%Z) 0%Z
              (map (fun k0 => Int (Z.of_nat (pd.group_size k0 l))) u))
      with (pd.Zsum (map (fun k0 => Int (Z.of_nat (pd.group_size k0 l))) u)).
    rewrite IH. lia.
Qed.

(** X13: a chart of the kinds Barras, Linha or Pizza over data that is
    not aggregated, with a value column of integers whose absolute values
    add up to at most the largest [int64] (so that no sum wraps), is
    drawn from the sums per key: the keys in ascending order, and the sums
    add up to the sum of the value column. *)
Theorem plot_generic_groups_sum (tipo : string) (df : pd.DataFrame)
  (x y : string) (color : option string) (fig : viz.Figure) :
  tipo ∈ ["Barras"; "Linha"; "Pizza"] ->
  Forall (fun c => exists z, c = Int z) (pd.column df y) ->
  (pd.abs_sum (pd.column df y) <= pd.int64_max)%Z ->
  viz.plot_generic tipo df x (Some y) color false = Ok fig ->
  pd.columns (viz.data_of fig) = [x; y] /\
  pd.column (viz.data_of fig) x = pd.group_keys (pd.column df x) /\
  pd.Zsum (pd.column (viz.data_of fig) y) = pd.Zsum (pd.column df y).
Proof.
  intros Ht Hall Hbound Hrun. unfold viz.plot_generic in Hrun.
  cbn [andb rbind] in Hrun.
  assert (Hg : exists g, viz.grouped_sum df x y = Ok g /\ viz.data_of fig = g).
  { unfold viz.draw in Hrun. rewrite !elem_of_cons in Ht.
    destruct Ht as [->|[->|[->|Ht]]]; [| | | inversion Ht]; simpl in Hrun;
      destruct (viz.grouped_sum df x y) as [g|e]; simpl in Hrun;
      try discriminate; injection Hrun as <-; eauto. }
  destruct Hg as (g & Hg & ->). unfold viz.grouped_sum in Hg.
  case_bind_as Hg s Hs.
  pose proof (groupby_agg_inv _ _ _ _ _ Hs) as (Hn & Hi & _).
  apply groupby_sum_total in Hs as (Hkeys & _ & Hsum); [| | exact Hbound].
  2: { eapply Forall_impl; [exact Hall |]. intros c [z ->]. left. reflexivity. }
  pose proof (reset_index_ok _ _ _ Hg) as Hne.
  apply reset_index_cells in Hg as [Hcols Hcells].
  rewrite Hi, Hn in Hcols, Hne. simpl in Hcols, Hne.
  split; [exact Hcols |].
  destruct (two_columns _ _ _ _ Hcols Hne Hcells) as [-> ->]. auto.
Qed.

(** ** The cleaning, the filters and the Top N of the main block *)

Lemma select_first_match (keep : string -> bool) (c : string)
  (cols : list string) (cs : list cell) :
  length cs = length cols -> keep c = true -> c ∈ cols ->
  exists j j',
    pd.position c cols = Some j /\
    pd.position c (pd.select (map keep cols) cols) = Some j' /\
    nth j' (pd.select (map keep cols) cs) NaN = nth j cs NaN.
Proof.
  revert cs. induction cols as [|a cols IH]; intros cs Hlen Hk Hc;
    [inversion Hc |].
  destruct cs as [|v cs]; [discriminate |]. injection Hlen as Hlen.
  simpl. destruct (decide (c = a)) as [<-|Hne].
  - rewrite Hk. simpl. rewrite decide_True by reflexivity.
    exists 0%nat, 0%nat. auto.
  - apply elem_of_cons in Hc as [?|Hc]; [congruence |].
    destruct (IH cs Hlen Hk Hc) as (j & j' & Hj & Hj' & Hnth).
    rewrite Hj. destruct (keep a); simpl.
    + rewrite decide_False by exact Hne. rewrite Hj'.
      exists (S j), (S j'). auto.
    + rewrite Hj'. exists (S j), j'. auto.
Qed.

Lemma select_length_eq {A B} (mask : list bool) (l : list A) (k : list B) :
  length l = length k -> length (pd.select mask l) = length (pd.select mask k).
Proof.
  revert l k. induction mask as [|b mask IH]; intros [|a l] [|c k] Hlen;
    simpl; try reflexivity; try discriminate.
  injection Hlen as Hlen. destruct b; simpl; rewrite (IH l k Hlen); reflexivity.
Qed.

(** X14: the cleaning of the main block keeps exactly the columns whose
    label does not start with [Unnamed], in their order, and every row.
    On a rectangular table the result is rectangular and every column kept
    holds the values it held. *)
Theorem drop_unnamed_keeps_columns (df : pd.DataFrame) :
  let out := app.drop_unnamed df in
  pd.columns out
  = List.filter (fun c => negb (String.prefix "Unnamed" c)) (pd.columns df) /\
  map pd.label (pd.rows out) = map pd.label (pd.rows df) /\
  (pd.well_formed df ->
   pd.well_formed out /\
   forall c, c ∈ pd.columns out -> pd.column out c = pd.column df c).
Proof.
  cbv zeta. unfold app.drop_unnamed, pd.loc_columns_array, pd.take_columns.
  set (keep := fun c => negb (String.prefix "Unnamed" c)). simpl.
  split; [apply select_by_test |].
  split; [rewrite map_map; reflexivity |].
  intros Hwf. split.
  - unfold pd.well_formed in *. simpl. rewrite Forall_fmap.
    eapply Forall_impl; [exact Hwf |]. intros r Hr. simpl.
    apply select_length_eq, Hr.
  - intros c Hc. rewrite select_by_test, List_filter_stdpp in Hc.
    apply list_elem_of_filter in Hc as [Hk Hc].
    unfold pd.column, pd.column_values. simpl.
    destruct (pd.rows df) as [|r0 rs] eqn:Hrows.
    + destruct (pd.position c _), (pd.position c _); reflexivity.
    + rewrite <- Hrows.
      assert (Hr0 : length (pd.cells r0) = length (pd.columns df)).
      { unfold pd.well_formed in Hwf. rewrite Hrows in Hwf.
        inversion Hwf; assumption. }
      destruct (select_first_match keep c _ _ Hr0 Hk Hc) as (j & j' & Hj & Hj' & _).
      rewrite Hj, Hj', map_map. apply Forall_fmap_ext_1.
      eapply Forall_impl; [exact Hwf |]. intros r Hr. unfold pd.cell_at. simpl.
      destruct (select_first_match keep c _ _ Hr Hk Hc) as (i & i' & Hi & Hi' & Hnth).
      congruence.
Qed.

#[global] Instance row_ge_total j : Total (pd.row_ge j).
Proof.
  intros r1 r2. unfold pd.row_ge, pd.cell_geb.
  destruct (pd.cell_at j r1) eqn:H1, (pd.cell_at j r2) eqn:H2; auto;
    match goal with
    | |- cell_leb ?a ?b = true \/ cell_leb ?b ?a = true =>
        destruct (cell_le_total a b); auto
    end.
Qed.

#[global] Instance row_ge_trans j : Transitive (pd.row_ge j).
Proof.
  intros r1 r2 r3. unfold pd.row_ge, pd.cell_geb.
  destruct (pd.cell_at j r1) eqn:H1, (pd.cell_at j r2) eqn:H2,
    (pd.cell_at j r3) eqn:H3; auto; try discriminate;
    intros Ha Hb;
    match goal with
    | Ha : cell_leb ?b ?a = true, Hb : cell_leb ?c ?b = true |- _ =>
        exact (cell_le_trans c b a Hb Ha)
    end.
Qed.

(** X15: with a positive Top N, the table kept has the columns of the
    aggregated one and its first N rows at most; the rows kept are in
    descending order of [valor], and no row left out has a [valor] above
    the one of a row kept (missing values count as the lowest). *)
Theorem top_n_largest (data_agg out : pd.DataFrame) (topn : Z) :
  (0 < topn)%Z -> app.top_n data_agg topn = Ok out ->
  pd.columns out = pd.columns data_agg /\
  pd.len out = Nat.min (Z.to_nat topn) (pd.len data_agg) /\
  exists j rest,
    pd.position "valor" (pd.columns data_agg) = Some j /\
    pd.rows data_agg ≡ₚ pd.rows out ++ rest /\
    StronglySorted (pd.row_ge j) (pd.rows out) /\
    (forall r r', r ∈ pd.rows out -> r' ∈ rest -> pd.row_ge j r r').
Proof.
  intros Hn. unfold app.top_n. rewrite (proj2 (Z.ltb_lt 0 topn) Hn).
  unfold pd.sort_values_desc.
  destruct (pd.position "valor" (pd.columns data_agg)) as [j|]; [| discriminate].
  simpl. intros [= <-]. unfold pd.len. simpl.
  split; [reflexivity |].
  split; [rewrite length_take, merge_sort_Permutation; reflexivity |].
  exists j, (drop (Z.to_nat topn) (merge_sort (pd.row_ge j) (pd.rows data_agg))).
  split; [reflexivity |].
  rewrite take_drop.
  split; [symmetry; apply merge_sort_Permutation |].
  pose proof (StronglySorted_merge_sort (pd.row_ge j) (pd.rows data_agg)) as Hs.
  rewrite <- (take_drop (Z.to_nat topn)) in Hs.
  apply StronglySorted_app in Hs as (Hcross & Hkept & _).
  split; [exact Hkept | exact Hcross].
Qed.

Lemma zip_with_map_map {A B C D} (h : B -> C -> D) (f : A -> B) (g : A -> C)
  (l : list A) :
  zip_with h (map f l) (map g l) = map (fun a => h (f a) (g a)) l.
Proof. induction l as [|a l IH]; simpl; [reflexivity | f_equal; exact IH]. Qed.

Lemma compare_scalar_ok (op : string) (test : Q -> bool) (s m : pd.Series) :
  pd.compare_scalar op test s = Ok m ->
  m = pd.map_values (fun c => Bool (is_number c && test (num c))) s.
Proof.
  unfold pd.compare_scalar. destruct (forallb _ _); [| discriminate].
  intros [= <-]. reflexivity.
Qed.

(** X16: the numeric filter keeps, in their order, exactly the rows whose
    value in the chosen column is a number within the interval, bounds
    included; a row whose value is missing is never kept.  With no column
    chosen the table is left as it is. *)
Theorem filter_range_spec (df_filt : pd.DataFrame) (col_num : string)
  (r : Q * Q) :
  (col_num = "(nenhum)" -> app.filter_range df_filt col_num r = Ok df_filt) /\
  (forall out, col_num <> "(nenhum)" ->
     app.filter_range df_filt col_num r = Ok out ->
     exists j, pd.position col_num (pd.columns df_filt) = Some j /\
       pd.columns out = pd.columns df_filt /\
       pd.rows out
       = List.filter (fun row => is_number (pd.cell_at j row)
                                 && Qle_bool r.1 (num (pd.cell_at j row))
                                 && Qle_bool (num (pd.cell_at j row)) r.2)
                     (pd.rows df_filt) /\
       Forall (fun row => pd.cell_at j row <> NaN) (pd.rows out)).
Proof.
  split; [intros ->; reflexivity |].
  intros out Hne. unfold app.filter_range.
  rewrite (proj2 (String.eqb_neq _ _) Hne). intros Hrun.
  case_bind_as Hrun s Hs. case_bind_as Hrun lo Hlo. case_bind_as Hrun hi Hhi.
  injection Hrun as <-.
  apply compare_scalar_ok in Hlo as ->. apply compare_scalar_ok in Hhi as ->.
  unfold pd.getitem in Hs.
  destruct (pd.position col_num (pd.columns df_filt)) as [j|]; [| discriminate].
  injection Hs as <-. exists j. split; [reflexivity |].
  split; [reflexivity |].
  assert (Hrows : pd.rows (pd.getitem_mask df_filt
            (pd.and_
               (pd.map_values (fun c => Bool (is_number c && Qle_bool r.1 (num c)))
                  {| pd.name := Some col_num; pd.iname := pd.index_name df_filt;
                     pd.items := map (fun r0 => (pd.label r0, pd.cell_at j r0))
                                     (pd.rows df_filt) |})
               (pd.map_values (fun c => Bool (is_number c && Qle_bool (num c) r.2))
                  {| pd.name := Some col_num; pd.iname := pd.index_name df_filt;
                     pd.items := map (fun r0 => (pd.label r0, pd.cell_at j r0))
                                     (pd.rows df_filt) |})))
          = List.filter (fun row => is_number (pd.cell_at j row)
                                    && Qle_bool r.1 (num (pd.cell_at j row))
                                    && Qle_bool (num (pd.cell_at j row)) r.2)
                        (pd.rows df_filt)).
  { unfold pd.getitem_mask, pd.and_, pd.map_values, pd.values. simpl.
    rewrite !map_map, zip_with_map_map, !map_map. simpl.
    rewrite <- select_by_test. f_equal. apply map_ext. intros row.
    destruct (is_number (pd.cell_at j row)); simpl; [| reflexivity].
    destruct (Qle_bool r.1 _), (Qle_bool _ r.2); reflexivity. }
  split; [exact Hrows |]. rewrite Hrows, List_filter_stdpp.
  apply Forall_forall. intros row Hrow.
  apply list_elem_of_filter in Hrow as [Hrow _].
  destruct (pd.cell_at j row); simpl in Hrow; discriminate.
Qed.

(** X17: the categorical filter keeps, in their order, exactly the rows
    whose value in the chosen column, written as text, is one of the
    values selected.  With no column chosen, or no value selected, the
    table is left as it is. *)
Theorem filter_values_spec (df_filt : pd.DataFrame) (col : string)
  (vals : list string) :
  (col = "(nenhum)" \/ vals = [] ->
   app.filter_values df_filt col vals = Ok df_filt) /\
  (forall out, col <> "(nenhum)" -> vals <> [] ->
     app.filter_values df_filt col vals = Ok out ->
     exists j, pd.position col (pd.columns df_filt) = Some j /\
       pd.columns out = pd.columns df_filt /\
       pd.rows out
       = List.filter (fun row =>
                        bool_decide (pd.str_of_cell (pd.cell_at j row) ∈ vals))
                     (pd.rows df_filt)).
Proof.
  split.
  - intros [->| ->]; [reflexivity |]. unfold app.filter_values.
    destruct (String.eqb col "(nenhum)"); reflexivity.
  - intros out Hne Hvals. unfold app.filter_values.
    rewrite (proj2 (String.eqb_neq _ _) Hne).
    destruct vals as [|v vals]; [contradiction |]. intros Hrun.
    case_bind_as Hrun s Hs. injection Hrun as <-.
    unfold pd.getitem in Hs.
    destruct (pd.position col (pd.columns df_filt)) as [j|]; [| discriminate].
    injection Hs as <-. exists j. split; [reflexivity |].
    split; [reflexivity |].
    unfold pd.getitem_mask, pd.isin, pd.astype_str, pd.map_values, pd.values.
    simpl. rewrite !map_map. simpl.
    rewrite <- select_by_test. f_equal. apply map_ext. intros row.
    assert (Heq : bool_decide (Str (pd.str_of_cell (pd.cell_at j row))
                               ∈ Str v :: map Str vals)
                  = bool_decide (pd.str_of_cell (pd.cell_at j row) ∈ v :: vals)).
    { apply bool_decide_ext.
      change (Str v :: map Str vals) with (map Str (v :: vals)).
      rewrite list_elem_of_fmap. split.
      - intros (t & [= ->] & Ht). exact Ht.
      - intros Ht. eauto. }
    rewrite Heq.
    destruct (bool_decide (pd.str_of_cell (pd.cell_at j row) ∈ v :: vals));
      reflexivity.
Qed.

(** ** The handler of the button *)

Ltac not_request :=
  unfold viz.request_errors, viz.line_needs_y, viz.scatter_needs_y,
    viz.unknown_kind;
  rewrite !not_elem_of_cons; simpl;
  repeat split; try discriminate; apply not_elem_of_nil.

Lemma reduce_raise (func : string) (vs : list cell) (e : exn) :
  pd.reduce func vs = Raise e -> e ∉ viz.request_errors.
Proof.
  unfold pd.reduce.
  repeat match goal with
         | |- context [if ?b then _ else _] => destruct b; try discriminate
         end;
    intros [= <-]; not_request.
Qed.

Lemma reset_index_not_request (s : pd.Series) (n : option string) (e : exn) :
  pd.reset_index s n = Raise e -> e ∉ viz.request_errors.
Proof.
  intros Hr. apply library_error_not_request. eapply reset_index_raise, Hr.
Qed.

Lemma groupby_agg_raise (df : pd.DataFrame) (x y func : string) (e : exn) :
  pd.groupby_agg df x y func = Raise e -> e ∉ viz.request_errors.
Proof.
  unfold pd.groupby_agg.
  destruct (pd.position x (pd.columns df)); [| intros [= <-]; not_request].
  destruct (pd.position y (pd.columns df)); [| intros [= <-]; not_request].
  destruct (pd.rmapM _ _) as [its|e'] eqn:Hits; simpl; [discriminate |].
  intros [= ->]. apply rmapM_raise in Hits as (k & _ & Hk).
  destruct (pd.reduce func _) as [v|e3] eqn:Hred; simpl in Hk; [discriminate |].
  injection Hk as <-. eapply reduce_raise, Hred.
Qed.

(** The errors of [aggregate] are errors of the library, none of them a
    chart-request error. *)
Lemma aggregate_raise (df : pd.DataFrame) (x : string) (y : option string)
  (how : string) (e : exn) :
  utils.aggregate df x y how = Raise e -> e ∉ viz.request_errors.
Proof.
  assert (Hcount :
    (s <-- pd.groupby_size df x ;;
     o <-- pd.reset_index s (Some "valor") ;;
     Ok (pd.rename o {[ x := "x" ]})) = Raise e -> e ∉ viz.request_errors).
  { unfold pd.groupby_size.
    destruct (pd.position x (pd.columns df)); simpl;
      [| intros [= <-]; not_request].
    destruct (pd.reset_index _ _) as [o|e'] eqn:Ho; simpl; [discriminate |].
    intros [= ->]. eapply reset_index_not_request, Ho. }
  unfold utils.aggregate. destruct y as [y'|]; [| exact Hcount].
  destruct (String.eqb how "contagem"); [exact Hcount |].
  destruct (pd.groupby_agg df x y' _) as [s|e'] eqn:Hs; simpl.
  - destruct (pd.reset_index s None) as [o|e'] eqn:Ho; simpl; [discriminate |].
    intros [= ->]. eapply reset_index_not_request, Ho.
  - intros [= ->]. eapply groupby_agg_raise, Hs.
Qed.

Lemma resample_items_raise {A} (freq : string) (its : list (cell * A)) (e : exn) :
  pd.resample_items freq its = Raise e -> e ∉ viz.request_errors.
Proof.
  unfold pd.resample_items.
  destruct (pd.freq_of_string freq); [| intros [= <-]; not_request].
  destruct (negb _); [intros [= <-]; not_request |].
  destruct its; [discriminate |].
  destruct (pd.dated _); [intros [= <-]; not_request | discriminate].
Qed.

Lemma time_aggregate_raise `{Library} (df : pd.DataFrame) (date_col : string)
  (y : option string) (how freq : string) (e : exn) :
  utils.time_aggregate df date_col y how freq = Raise e ->
  e ∉ viz.request_errors.
Proof.
  unfold utils.time_aggregate.
  destruct (pd.getitem df date_col) as [col|e0] eqn:Hcol; cbn [rbind].
  2: { unfold pd.getitem in Hcol. destruct (pd.position _ _); [discriminate |].
       injection Hcol as <-. intros [= <-]. not_request. }
  set (tmp := pd.setitem (pd.copy df) "_dt" (utils.ensure_datetime col)).
  assert (Hcount : forall e',
    (idx <-- pd.set_index tmp "_dt" ;;
     r <-- pd.resample_frame idx freq ;;
     pd.reset_index (pd.resampler_size r) (Some "valor")) = Raise e' ->
    e' ∉ viz.request_errors).
  { intros e'. unfold pd.set_index.
    destruct (pd.position "_dt" (pd.columns tmp)); cbn [rbind];
      [| intros [= <-]; not_request].
    unfold pd.resample_frame.
    destruct (pd.resample_items _ _) as [bs|e1] eqn:Hbs; cbn [rbind].
    - apply reset_index_not_request.
    - intros [= <-]. eapply resample_items_raise, Hbs. }
  assert (Hagg : forall y' func e',
    (idx <-- pd.set_index tmp "_dt" ;;
     s <-- pd.getitem idx y' ;;
     r <-- pd.resample_series s freq ;;
     a <-- pd.resampler_agg r func ;;
     pd.reset_index a (Some "valor")) = Raise e' ->
    e' ∉ viz.request_errors).
  { intros y' func e'. unfold pd.set_index.
    destruct (pd.position "_dt" (pd.columns tmp)); cbn [rbind];
      [| intros [= <-]; not_request].
    unfold pd.getitem at 1.
    destruct (pd.position y' _); cbn [rbind]; [| intros [= <-]; not_request].
    unfold pd.resample_series.
    destruct (pd.resample_items _ _) as [bs|e1] eqn:Hbs; cbn [rbind].
    2: { intros [= <-]. eapply resample_items_raise, Hbs. }
    unfold pd.resampler_agg.
    destruct (pd.rmapM _ _) as [its|e1] eqn:Hits; cbn [rbind].
    - apply reset_index_not_request.
    - intros [= <-]. apply rmapM_raise in Hits as (b & _ & Hb).
      destruct (pd.reduce func _) as [v|e3] eqn:Hred; simpl in Hb;
        [discriminate |].
      injection Hb as <-. eapply reduce_raise, Hred. }
  match goal with
  | |- rbind ?g _ = _ -> _ => destruct g as [grouped|e1] eqn:Hg
  end; cbn [rbind].
  - unfold pd.sort_values.
    destruct (pd.position "x" _); cbn [rbind]; [discriminate |].
    intros [= <-]. not_request.
  - intros [= <-].
    destruct y as [y'|]; [destruct (String.eqb how "contagem") |]; eauto.
Qed.

Lemma top_n_raise (data_agg : pd.DataFrame) (topn : Z) (e : exn) :
  app.top_n data_agg topn = Raise e -> e ∉ viz.request_errors.
Proof.
  unfold app.top_n, pd.sort_values_desc. destruct (0 <? topn)%Z; [| discriminate].
  destruct (pd.position "valor" _); simpl; [discriminate |].
  intros [= <-]. not_request.
Qed.

Lemma plot_generic_with_y (tipo : string) (df : pd.DataFrame) (x y : string)
  (color : option string) (e : exn) :
  tipo ∈ viz.kinds ->
  viz.plot_generic tipo df x (Some y) color true = Raise e ->
  e ∉ viz.request_errors.
Proof.
  intros Hk. unfold viz.plot_generic.
  destruct (presort_ok df true) as [df' ->]. cbn [rbind].
  intros Hrun He.
  destruct (draw_request_errors tipo df' x (Some y) color true)
    as (_ & _ & _ & Hconv).
  destruct (Hconv e Hrun He) as [[_ ?]|[(_ & ? & _)|?]];
    [discriminate | discriminate | contradiction].
Qed.

Lemma none_if_nenhum_None (v : string) :
  app.none_if_nenhum v = None <-> v = "(nenhum)".
Proof.
  unfold app.none_if_nenhum.
  destruct (String.eqb_spec v "(nenhum)"); split; congruence.
Qed.

(** X18: through the handler of the button, whatever the widgets hold,
    the only chart-request error that can come up is the one of a Scatter
    chart without a Y column: the aggregating kinds are always drawn from
    aggregated data with the value column [valor], and an error of an
    aggregation is an error of the library.  A Scatter chart without Y,
    outside a time series, does raise it. *)
Theorem on_generate_request_errors `{Library} (tipo : string)
  (df_filt : pd.DataFrame) (x y color how : string) (topn : Z)
  (use_time : bool) (date_col freq : string) :
  tipo ∈ viz.kinds ->
  (forall e,
     app.on_generate tipo df_filt x y color how topn use_time date_col freq
     = Raise e ->
     e ∈ viz.request_errors ->
     e = viz.scatter_needs_y /\ tipo = "Scatter" /\ y = "(nenhum)" /\
     use_time = false) /\
  (tipo = "Scatter" -> y = "(nenhum)" -> use_time = false ->
   app.on_generate tipo df_filt x y color how topn use_time date_col freq
   = Raise viz.scatter_needs_y).
Proof.
  intros Hk. split.
  - intros e. unfold app.on_generate. cbv zeta.
    destruct use_time.
    + destruct (utils.time_aggregate _ _ _ _ _) as [d1|e1] eqn:H1; cbn [rbind].
      2: { intros [= <-] He. exfalso. eapply time_aggregate_raise; eassumption. }
      match goal with
      | |- rbind ?t _ = _ -> _ => destruct t as [d2|e2] eqn:H2
      end; cbn [rbind].
      * intros Hrun He. exfalso.
        eapply plot_generic_with_y; eassumption.
      * intros [= <-] He. exfalso.
        destruct (bool_decide _); [| discriminate].
        eapply top_n_raise; eassumption.
    + destruct (bool_decide (tipo ∈ ["Barras"; "Linha"; "Pizza"])) eqn:Hagg.
      * destruct (utils.aggregate _ _ _ _) as [d1|e1] eqn:H1; cbn [rbind].
        2: { intros [= <-] He. exfalso. eapply aggregate_raise; eassumption. }
        destruct (app.top_n d1 topn) as [d2|e2] eqn:H2; cbn [rbind].
        -- intros Hrun He. exfalso. eapply plot_generic_with_y; eassumption.
        -- intros [= <-] He. exfalso. eapply top_n_raise; eassumption.
      * apply bool_decide_eq_false in Hagg.
        unfold viz.plot_generic. cbn [andb rbind]. intros Hrun He.
        destruct (draw_request_errors tipo df_filt x (app.none_if_nenhum y)
                    (app.none_if_nenhum color) false) as (Hs & _ & _ & Hconv).
        destruct (Hconv e Hrun He) as [[-> Hy]|[(-> & _)|?]].
        -- rewrite (Hs eq_refl Hy) in Hrun. injection Hrun as <-.
           apply none_if_nenhum_None in Hy. auto.
        -- exfalso. apply Hagg. right. left.
        -- contradiction.
  - intros -> -> ->. reflexivity.
Qed.

(** What [time_aggregate] returns: the columns [x] and [valor], a
    timestamp in every row. *)
Lemma time_aggregate_stamped `{Library} (df out : pd.DataFrame)
  (date_col : string) (y : option string) (how freq : string) :
  utils.time_aggregate df date_col y how freq = Ok out ->
  pd.columns out = ["x"; "valor"] /\
  Forall (fun r => exists t v, pd.cells r = [Ts t; v]) (pd.rows out).
Proof.
  unfold utils.time_aggregate. intros Hrun.
  case_bind_as Hrun col Hcol. case_bind_as Hrun g Hg.
  case_bind_as Hrun sorted Hsort. injection Hrun as <-.
  apply sort_values_sorted in Hsort as (_ & Hcols & Hperm & _).
  simpl in Hperm, Hcols.
  assert (Hgs : pd.columns g = ["_dt"; "valor"] /\
                Forall (fun cs => exists t v, cs = [Ts t; v])
                       (map pd.cells (pd.rows g))).
  { assert (Hcount : forall g0,
      (idx <-- pd.set_index
                 (pd.setitem (pd.copy df) "_dt" (utils.ensure_datetime col)) "_dt" ;;
       r <-- pd.resample_frame idx freq ;;
       pd.reset_index (pd.resampler_size r) (Some "valor")) = Ok g0 ->
      pd.columns g0 = ["_dt"; "valor"] /\
      Forall (fun cs => exists t v, cs = [Ts t; v]) (map pd.cells (pd.rows g0))).
    { intros g0 Hg0. apply count_branch_spec in Hg0 as (f & _ & Hc & Hcells).
      split; [exact Hc |]. simpl in Hcells. rewrite Hcells.
      apply Forall_forall. intros cs Hcs.
      apply list_elem_of_fmap in Hcs as (k & -> & _). eauto. }
    destruct y as [y'|]; [| apply Hcount, Hg].
    destruct (String.eqb how "contagem"); [apply Hcount, Hg |].
    apply agg_branch_spec in Hg as (f & vs & _ & Hc & Hcells & _).
    split; [exact Hc |]. simpl in Hcells. rewrite Hcells.
    clear. generalize (pd.bin_range f
      (utils.stamps (pd.column (pd.setitem (pd.copy df) "_dt"
                                  (utils.ensure_datetime col)) "_dt"))).
    intros ks. revert vs. induction ks as [|k ks IH]; intros [|v vs]; simpl;
      constructor; eauto. }
  destruct Hgs as [Hgc Hgr]. split.
  - simpl. rewrite Hcols, Hgc. reflexivity.
  - unfold pd.reset_index_drop; simpl.
    apply Forall_forall. intros r Hr.
    apply elem_of_lookup_imap in Hr as (i & r0 & -> & Hr0). simpl.
    apply list_elem_of_lookup_2 in Hr0. rewrite Hperm in Hr0.
    rewrite Forall_forall in Hgr. apply Hgr.
    apply list_elem_of_fmap. exists r0. auto.
Qed.

Lemma top_n_rows (data_agg out : pd.DataFrame) (topn : Z) :
  app.top_n data_agg topn = Ok out ->
  pd.columns out = pd.columns data_agg /\
  (forall r, r ∈ pd.rows out -> r ∈ pd.rows data_agg).
Proof.
  unfold app.top_n, pd.sort_values_desc.
  destruct (0 <? topn)%Z; [| intros [= <-]; auto].
  destruct (pd.position "valor" _) as [j|]; simpl; [| discriminate].
  intros [= <-]. simpl. split; [reflexivity |]. intros r Hr.
  apply (fun H => elem_of_sublist _ _ _ H (sublist_take _ _)) in Hr.
  rewrite merge_sort_Permutation in Hr. exact Hr.
Qed.

Lemma dtype_of_stamps (vs : list cell) :
  vs <> [] -> Forall (fun c => exists t, c = Ts t) vs ->
  pd.dtype_of vs = pd.datetime64.
Proof.
  intros Hne Hall. destruct vs as [|c vs]; [contradiction |].
  assert (Hts : forallb (fun c => match c with Ts _ | NaN => true | _ => false end)
                        (c :: vs) = true).
  { apply forallb_forall. intros c' Hc'. rewrite Forall_forall in Hall.
    destruct (Hall c' (proj2 (list_elem_of_In _ _) Hc')) as [t ->]. reflexivity. }
  inversion Hall as [|? ? [t ->] _]; subst.
  unfold pd.dtype_of. rewrite Hts. reflexivity.
Qed.

Lemma draw_data (tipo : string) (df : pd.DataFrame) (x y : string)
  (color : option string) (fig : viz.Figure) :
  viz.draw tipo df x (Some y) color true = Ok fig -> viz.data_of fig = df.
Proof.
  unfold viz.draw.
  repeat match goal with
         | |- context [if String.eqb ?a ?b then _ else _] =>
             destruct (String.eqb a b)
         end; intros [= <-]; reflexivity.
Qed.

(** X19: a chart asked for as a time series is drawn from a table with
    the columns [x] and [valor] whose rows are in ascending order of the
    period, also when a Top N has put the aggregated rows in the order of
    their values first: [plot_generic] sorts aggregated data by [x] again
    when [x] holds dates. *)
Theorem on_generate_time_sorted `{Library} (tipo : string)
  (df_filt : pd.DataFrame) (x y color how : string) (topn : Z)
  (date_col freq : string) (fig : viz.Figure) :
  app.on_generate tipo df_filt x y color how topn true date_col freq = Ok fig ->
  pd.columns (viz.data_of fig) = ["x"; "valor"] /\
  StronglySorted cell_le (pd.column (viz.data_of fig) "x").
Proof.
  unfold app.on_generate. cbv zeta. intros Hrun.
  case_bind_as Hrun d1 H1. case_bind_as Hrun d2 H2.
  apply time_aggregate_stamped in H1 as [Hc1 Hr1].
  assert (Hd2 : pd.columns d2 = ["x"; "valor"] /\
                Forall (fun r => exists t v, pd.cells r = [Ts t; v]) (pd.rows d2)).
  { destruct (bool_decide _).
    - apply top_n_rows in H2 as [Hc2 Hr2]. split; [congruence |].
      apply Forall_forall. intros r Hr. rewrite Forall_forall in Hr1. auto.
    - injection H2 as <-. auto. }
  destruct Hd2 as [Hc2 Hr2]. clear H2 Hc1 Hr1.
  unfold viz.plot_generic in Hrun.
  case_bind_as Hrun d3 H3. apply draw_data in Hrun as ->.
  unfold pd.has_column in H3.
  rewrite bool_decide_eq_true_2 in H3 by (rewrite Hc2; left).
  cbn [andb] in H3. unfold pd.getitem in H3. rewrite Hc2 in H3.
  simpl pd.position in H3. cbn [rbind] in H3.
  unfold pd.is_datetime64_any_dtype, pd.values in H3. simpl in H3.
  rewrite map_map in H3. simpl in H3.
  destruct (pd.rows d2) as [|r rs] eqn:Hrows.
  - simpl in H3. injection H3 as <-. split; [exact Hc2 |].
    unfold pd.column, pd.column_values. rewrite Hc2, Hrows. simpl. constructor.
  - rewrite dtype_of_stamps in H3.
    + case_bind_as H3 s Hs. injection H3 as <-.
      apply sort_values_sorted in Hs as (_ & Hcs & _ & Hsorted).
      split; [simpl; congruence |].
      rewrite column_reset_index_drop. exact Hsorted.
    + discriminate.
    + rewrite Forall_fmap. eapply Forall_impl; [exact Hr2 |].
      intros r0 (t & v & Hr0). unfold pd.cell_at. simpl. rewrite Hr0. eauto.
Qed.

(** ** The properties on the sample tables *)

Lemma aggregate_counts_witness :
  exists out, utils.aggregate examples.orders "customer" None "contagem" = Ok out /\
    pd.columns out = ["x"; "valor"] /\
    map pd.cells (pd.rows out)
    = map (fun k => [k; Int (Z.of_nat (pd.group_size k
                                         (pd.column examples.orders "customer")))])
          (pd.group_keys (pd.column examples.orders "customer")) /\
    NoDup (pd.column out "x") /\
    (forall k, k ∈ pd.column out "x" <-> k ∈ pd.column examples.orders "customer") /\
    sum_list_with (fun k => pd.group_size k (pd.column examples.orders "customer"))
                  (pd.column out "x")
    = pd.len examples.orders.
Proof.
  apply (aggregate_counts examples.orders "customer" None "contagem");
    [left | discriminate | reflexivity].
Defined.

Lemma aggregate_sum_total_witness :
  utils.aggregate examples.orders "customer" (Some "total") "soma"
  = Ok examples.orders_totals /\
  pd.column examples.orders_totals "x"
  = pd.group_keys (pd.column examples.orders "customer") /\
  Forall (fun c => exists z, c = Int z) (pd.column examples.orders_totals "valor") /\
  pd.Zsum (pd.column examples.orders_totals "valor")
  = pd.Zsum (pd.column examples.orders "total").
Proof.
  assert (Hr : utils.aggregate examples.orders "customer" (Some "total") "soma"
               = Ok examples.orders_totals) by (vm_compute; reflexivity).
  split; [exact Hr |].
  apply (aggregate_sum_total examples.orders examples.orders_totals
           "customer" "total" "soma");
    [vm_compute; reflexivity
    | repeat (constructor; [eexists; reflexivity |]); constructor
    | vm_compute; discriminate
    | exact Hr].
Defined.

Lemma time_aggregate_returns_witness :
  exists out,
    utils.time_aggregate (H := plain) examples.sales "when" None "contagem" "D"
    = Ok out.
Proof.
  apply (time_aggregate_returns (H := plain) examples.sales "when" None
           "contagem" "D").
  - repeat constructor.
  - left.
  - left.
  - reflexivity.
  - right. vm_compute. discriminate.
Defined.

Lemma time_aggregate_counts_total_witness :
  utils.time_aggregate (H := plain) examples.sales "when" None "contagem" "D"
  = Ok examples.sales_by_day /\
  pd.columns examples.sales_by_day = ["x"; "valor"] /\
  pd.Zsum (pd.column examples.sales_by_day "valor")
  = Z.of_nat (length (utils.stamps
                        (utils.dt_column (H := plain) examples.sales "when"))).
Proof.
  assert (Hr : utils.time_aggregate (H := plain) examples.sales "when" None
                 "contagem" "D" = Ok examples.sales_by_day)
    by (vm_compute; reflexivity).
  split; [exact Hr |].
  exact (time_aggregate_counts_total (H := plain) examples.sales
           examples.sales_by_day "when" None "contagem" "D" eq_refl Hr).
Defined.

Lemma plot_generic_aggregated_ignores_axes_witness :
  viz.plot_generic "Barras" examples.orders_by_customer "customer" (Some "total")
    None true
  = viz.plot_generic "Barras" examples.orders_by_customer "x" None None true /\
  forall fig,
    viz.plot_generic "Barras" examples.orders_by_customer "customer"
      (Some "total") None true = Ok fig ->
    (fig = viz.bar (viz.data_of fig) "x" (Some "valor") None
                   "Barras — Agregado" \/
     fig = viz.line (viz.data_of fig) "x" "valor" None true
                    "Linha — Agregado" \/
     fig = viz.pie (viz.data_of fig) "x" "valor" "Pizza — Agregado" (4 # 10)) /\
    pd.columns (viz.data_of fig) = pd.columns examples.orders_by_customer /\
    map pd.cells (pd.rows (viz.data_of fig))
    ≡ₚ map pd.cells (pd.rows examples.orders_by_customer).
Proof.
  apply (plot_generic_aggregated_ignores_axes "Barras"
           examples.orders_by_customer "customer" "x" (Some "total") None None).
  left.
Defined.

Lemma plot_generic_pie_counts_witness :
  exists counts,
    viz.plot_generic "Pizza" examples.orders "customer" None None false
    = Ok (viz.pie counts "customer" "count" ("Pizza — dist. " +:+ "customer")
                  (4 # 10)) /\
    pd.columns counts = ["customer"; "count"] /\
    NoDup (pd.column counts "customer") /\
    (forall k, k ∈ pd.column counts "customer"
               <-> k ∈ pd.column examples.orders "customer") /\
    StronglySorted (fun a b => pd.num_le b a) (pd.column counts "count") /\
    pd.Zsum (pd.column counts "count") = Z.of_nat (pd.len examples.orders).
Proof.
  apply (plot_generic_pie_counts examples.orders "customer" None);
    [left | discriminate].
Defined.

Lemma plot_generic_groups_sum_witness :
  viz.plot_generic "Barras" examples.orders "customer" (Some "total") None false
  = Ok examples.orders_bar /\
  pd.columns (viz.data_of examples.orders_bar) = ["customer"; "total"] /\
  pd.column (viz.data_of examples.orders_bar) "customer"
  = pd.group_keys (pd.column examples.orders "customer") /\
  pd.Zsum (pd.column (viz.data_of examples.orders_bar) "total")
  = pd.Zsum (pd.column examples.orders "total").
Proof.
  assert (Hr : viz.plot_generic "Barras" examples.orders "customer"
                 (Some "total") None false = Ok examples.orders_bar)
    by (vm_compute; reflexivity).
  split; [exact Hr |].
  apply (plot_generic_groups_sum "Barras" examples.orders "customer" "total"
           None examples.orders_bar);
    [left
    | repeat (constructor; [eexists; reflexivity |]); constructor
    | vm_compute; discriminate
    | exact Hr].
Defined.

Lemma top_n_largest_witness :
  app.top_n examples.orders_by_customer 1 = Ok examples.top_customer /\
  pd.columns examples.top_customer = pd.columns examples.orders_by_customer /\
  pd.len examples.top_customer
  = Nat.min (Z.to_nat 1) (pd.len examples.orders_by_customer) /\
  exists j rest,
    pd.position "valor" (pd.columns examples.orders_by_customer) = Some j /\
    pd.rows examples.orders_by_customer ≡ₚ pd.rows examples.top_customer ++ rest /\
    StronglySorted (pd.row_ge j) (pd.rows examples.top_customer) /\
    (forall r r', r ∈ pd.rows examples.top_customer -> r' ∈ rest ->
                  pd.row_ge j r r').
Proof.
  assert (Hr : app.top_n examples.orders_by_customer 1 = Ok examples.top_customer)
    by (vm_compute; reflexivity).
  split; [exact Hr |].
  apply (top_n_largest examples.orders_by_customer examples.top_customer 1);
    [lia | exact Hr].
Defined.

Lemma on_generate_request_errors_witness :
  (forall e,
     app.on_generate (H := plain) "Scatter" examples.orders "customer"
       "(nenhum)" "(nenhum)" "soma" 0 false "when" "D" = Raise e ->
     e ∈ viz.request_errors ->
     e = viz.scatter_needs_y /\ "Scatter" = "Scatter" /\
     "(nenhum)" = "(nenhum)" /\ false = false) /\
  ("Scatter" = "Scatter" -> "(nenhum)" = "(nenhum)" -> false = false ->
   app.on_generate (H := plain) "Scatter" examples.orders "customer"
     "(nenhum)" "(nenhum)" "soma" 0 false "when" "D"
   = Raise viz.scatter_needs_y).
Proof.
  apply (on_generate_request_errors (H := plain) "Scatter" examples.orders
           "customer" "(nenhum)" "(nenhum)" "soma" 0 false "when" "D").
  do 4 right. left.
Defined.

Lemma on_generate_time_sorted_witness :
  app.on_generate (H := plain) "Linha" examples.sales "when" "(nenhum)"
    "(nenhum)" "contagem" 0 true "when" "D" = Ok examples.sales_line /\
  pd.columns (viz.data_of examples.sales_line) = ["x"; "valor"] /\
  StronglySorted cell_le (pd.column (viz.data_of examples.sales_line) "x").
Proof.
  assert (Hr : app.on_generate (H := plain) "Linha" examples.sales "when"
                 "(nenhum)" "(nenhum)" "contagem" 0 true "when" "D"
               = Ok examples.sales_line) by (vm_compute; reflexivity).
  split; [exact Hr |].
  exact (on_generate_time_sorted (H := plain) "Linha" examples.sales "when"
           "(nenhum)" "(nenhum)" "contagem" 0 "when" "D" examples.sales_line Hr).
Defined.

Lemma time_aggregate_sum_total_witness :
  utils.time_aggregate (H := plain) examples.sales "when" (Some "amount")
    "soma" "D" = Ok examples.sales_amounts /\
  pd.columns examples.sales_amounts = ["x"; "valor"] /\
  pd.Zsum (pd.column examples.sales_amounts "valor")
  = pd.Zsum (map snd (pd.dated (zip (utils.dt_column (H := plain)
                                       examples.sales "when")
                                    (pd.column examples.sales "amount")))).
Proof.
  assert (Hr : utils.time_aggregate (H := plain) examples.sales "when"
                 (Some "amount") "soma" "D" = Ok examples.sales_amounts)
    by (vm_compute; reflexivity).
  split; [exact Hr |].
  apply (time_aggregate_sum_total (H := plain) examples.sales
           examples.sales_amounts "when" "amount" "soma" "D");
    [vm_compute; reflexivity | repeat constructor | discriminate
    | repeat (constructor; [eexists; reflexivity |]); constructor
    | vm_compute; discriminate
    | exact Hr].
Defined.


Lemma plot_generic_sums_as_aggregate_witness :
  (forall e,
     utils.aggregate examples.orders "customer" (Some "total") "soma" = Raise e ->
     viz.plot_generic "Barras" examples.orders "customer" (Some "total") None
       false = Raise e) /\
  (forall fig,
     viz.plot_generic "Barras" examples.orders "customer" (Some "total") None
       false = Ok fig ->
     exists out,
       utils.aggregate examples.orders "customer" (Some "total") "soma" = Ok out /\
       pd.rows (viz.data_of fig) = pd.rows out /\
       pd.columns (viz.data_of fig) = ["customer"; "total"] /\
       pd.columns out = ["x"; "valor"]).
Proof.
  apply (plot_generic_sums_as_aggregate "Barras" examples.orders "customer"
           "total" None).
  left.
Defined.
